(** * FargateAutomation: holiday-aware ECS restart planner and executor

    A shallow embedding of the two Lambda handlers of the repository,
    [smart-handler/lambda_function.py] (module [Planner]) and
    [restart-executor/lambda_function.py] (module [Executor]), and the
    properties of their decision logic.

    Conventions of the embedding.
    - A Python [str] is a Rocq [string] holding its UTF-8 bytes, so that
      [s.encode()] is the identity; every separator the handlers look for
      is ASCII.
    - A Python exception is a value of [exn]; a function that can raise
      returns an [outcome].
    - Calls to collaborators outside the process (the clock, boto3
      clients, the webhook) are recorded, in order, in a history of
      [call]s; what a collaborator answers is read from a [world], and
      may depend on the whole history so far. *)

From Stdlib Require Import ZArith List String Ascii Bool Lia.
Import ListNotations.
Open Scope string_scope.
Open Scope list_scope.
Open Scope Z_scope.
Set Warnings "-register-all".

Infix "+++" := String.append (at level 60, right associativity).

(** ** Exceptions and outcomes *)

Inductive exn : Type :=
| ValueError (msg : string)
| TypeError
| AttributeError
| KeyError (key : string)
| IndexError
| OverflowError
| ClientError (code : string).

Inductive outcome (A : Type) : Type :=
| Returned (a : A)
| Raised (e : exn).
Arguments Returned {A} a.
Arguments Raised {A} e.

(** ** Calendar arithmetic of [datetime]

    The proleptic Gregorian ordinal functions are those of CPython's
    [datetime] module ([_ymd2ord], [_ord2ymd]); ordinal 1 is 0001-01-01. *)

Module Calendar.

Definition MINYEAR : Z := 1.
Definition MAXYEAR : Z := 9999.
Definition MAXORDINAL : Z := 3652059.

Definition is_leap (year : Z) : bool :=
  (year mod 4 =? 0) && (negb (year mod 100 =? 0) || (year mod 400 =? 0)).

Definition days_before_year (year : Z) : Z :=
  let y := year - 1 in y * 365 + y / 4 - y / 100 + y / 400.

Definition days_in_month_tbl (month : Z) : Z :=
  match month with
  | 1 => 31 | 2 => 28 | 3 => 31 | 4 => 30 | 5 => 31 | 6 => 30
  | 7 => 31 | 8 => 31 | 9 => 30 | 10 => 31 | 11 => 30 | 12 => 31
  | _ => -1
  end.

Definition days_before_month_tbl (month : Z) : Z :=
  match month with
  | 1 => 0 | 2 => 31 | 3 => 59 | 4 => 90 | 5 => 120 | 6 => 151
  | 7 => 181 | 8 => 212 | 9 => 243 | 10 => 273 | 11 => 304 | 12 => 334
  | _ => -1
  end.

Definition days_in_month (year month : Z) : Z :=
  if (month =? 2) && is_leap year then 29 else days_in_month_tbl month.

Definition days_before_month (year month : Z) : Z :=
  days_before_month_tbl month
  + (if (2 <? month) && is_leap year then 1 else 0).

Definition ymd2ord (year month day : Z) : Z :=
  days_before_year year + days_before_month year month + day.

Definition DI400Y : Z := 146097.
Definition DI100Y : Z := 36524.
Definition DI4Y : Z := 1461.

Definition ord2ymd (ordinal : Z) : Z * Z * Z :=
  let n := ordinal - 1 in
  let n400 := n / DI400Y in
  let n := n mod DI400Y in
  let year := n400 * 400 + 1 in
  let n100 := n / DI100Y in
  let n := n mod DI100Y in
  let n4 := n / DI4Y in
  let n := n mod DI4Y in
  let n1 := n / 365 in
  let n := n mod 365 in
  let year := year + n100 * 100 + n4 * 4 + n1 in
  if (n1 =? 4) || (n100 =? 4) then (year - 1, 12, 31)
  else
    let leapyear := (n1 =? 3) && (negb (n4 =? 24) || (n100 =? 3)) in
    let month := Z.shiftr (n + 50) 5 in
    let preceding :=
      days_before_month_tbl month
      + (if (2 <? month) && leapyear then 1 else 0) in
    if n <? preceding then
      let month' := month - 1 in
      let preceding' :=
        preceding - (days_in_month_tbl month'
                     + (if (month' =? 2) && leapyear then 1 else 0)) in
      (year, month', n - preceding' + 1)
    else (year, month, n - preceding + 1).

End Calendar.

(** ** [datetime] values

    A [datetime] is held as its position on the wall clock of its own
    zone, in microseconds since 0001-01-01T00:00:00, together with its
    [tzinfo]: [None] for a naive value, [Some off] for a fixed-offset
    [timezone] whose [utcoffset] is [off] microseconds.  The calendar
    fields are read off that position. *)

Definition us_per_second : Z := 1000000.
Definition us_per_minute : Z := 60 * us_per_second.
Definition us_per_hour : Z := 3600 * us_per_second.
Definition us_per_day : Z := 86400 * us_per_second.

Record datetime : Type := mkDT { wall : Z; tzinfo : option Z }.

Definition timezone_utc : Z := 0.
Definition timezone_hours (h : Z) : Z := h * us_per_hour.

(** [datetime.min <= d <= datetime.max] *)
Definition wall_in_range (w : Z) : bool :=
  (0 <=? w) && (w <? Calendar.MAXORDINAL * us_per_day).

Definition dt_valid (d : datetime) : Prop := wall_in_range (wall d) = true.

Definition toordinal (d : datetime) : Z := wall d / us_per_day + 1.
Definition dt_year (d : datetime) : Z := fst (fst (Calendar.ord2ymd (toordinal d))).
Definition dt_month (d : datetime) : Z := snd (fst (Calendar.ord2ymd (toordinal d))).
Definition dt_day (d : datetime) : Z := snd (Calendar.ord2ymd (toordinal d)).
Definition dt_hour (d : datetime) : Z := (wall d mod us_per_day) / us_per_hour.
Definition dt_minute (d : datetime) : Z := (wall d mod us_per_hour) / us_per_minute.
Definition dt_second (d : datetime) : Z := (wall d mod us_per_minute) / us_per_second.
Definition dt_microsecond (d : datetime) : Z := wall d mod us_per_second.

(** [datetime(year, month, day, hour, minute, second, tzinfo=tz)], with the
    field checks of the constructor. *)
Definition datetime_new (year month day hour minute second : Z)
    (tz : option Z) : outcome datetime :=
  if negb ((Calendar.MINYEAR <=? year) && (year <=? Calendar.MAXYEAR)) then
    Raised (ValueError "year is out of range")
  else if negb ((1 <=? month) && (month <=? 12)) then
    Raised (ValueError "month must be in 1..12")
  else if negb ((1 <=? day) && (day <=? Calendar.days_in_month year month)) then
    Raised (ValueError "day is out of range for month")
  else if negb ((0 <=? hour) && (hour <=? 23)) then
    Raised (ValueError "hour must be in 0..23")
  else if negb ((0 <=? minute) && (minute <=? 59)) then
    Raised (ValueError "minute must be in 0..59")
  else if negb ((0 <=? second) && (second <=? 59)) then
    Raised (ValueError "second must be in 0..59")
  else
    Returned
      (mkDT ((Calendar.ymd2ord year month day - 1) * us_per_day
             + hour * us_per_hour + minute * us_per_minute
             + second * us_per_second) tz).

(** [d.replace(tzinfo=tz)] *)
Definition replace_tzinfo (d : datetime) (tz : Z) : datetime :=
  mkDT (wall d) (Some tz).

(** [d.replace(hour=h, minute=0, second=0, microsecond=0)], [0 <= h <= 23] *)
Definition replace_time_hour (d : datetime) (h : Z) : datetime :=
  mkDT (wall d - wall d mod us_per_day + h * us_per_hour) (tzinfo d).

(** [d + timedelta(microseconds=delta)]; out of range raises. *)
Definition dt_add (d : datetime) (delta : Z) : outcome datetime :=
  if wall_in_range (wall d + delta) then Returned (mkDT (wall d + delta) (tzinfo d))
  else Raised OverflowError.

(** The [utcoffset] of a value; a naive value is read in the zone of the
    process, which is UTC in the Lambda runtime. *)
Definition utcoffset (d : datetime) : Z :=
  match tzinfo d with Some off => off | None => 0 end.

(** The instant a value denotes: microseconds since 0001-01-01T00:00:00 UTC. *)
Definition instant (d : datetime) : Z := wall d - utcoffset d.

(** [d.astimezone(tz)] for a fixed-offset [tz]: [(d - offset)] with the new
    zone attached, then [tz.fromutc], each step range-checked. *)
Definition astimezone (d : datetime) (tz : Z) : outcome datetime :=
  match dt_add d (- utcoffset d) with
  | Raised e => Raised e
  | Returned u => dt_add (mkDT (wall u) (Some tz)) tz
  end.

(** [a <= b] on datetimes: both naive compares the wall clocks, both aware
    compares the instants, mixed raises [TypeError]. *)
Definition dt_le (a b : datetime) : outcome bool :=
  match tzinfo a, tzinfo b with
  | None, None => Returned (wall a <=? wall b)
  | Some oa, Some ob => Returned (wall a - oa <=? wall b - ob)
  | _, _ => Raised TypeError
  end.

Definition dt_ge (a b : datetime) : outcome bool := dt_le b a.

(** [(a - b)] as a count of microseconds; mixed naive and aware raises. *)
Definition dt_sub (a b : datetime) : outcome Z :=
  match tzinfo a, tzinfo b with
  | None, None => Returned (wall a - wall b)
  | Some oa, Some ob => Returned ((wall a - oa) - (wall b - ob))
  | _, _ => Raised TypeError
  end.

(** [timedelta.days] *)
Definition timedelta_days (delta : Z) : Z := delta / us_per_day.

(** [n / d] on two [int]s is the double nearest to the quotient, ties
    going to the even mantissa.  [round_half_even n d] is the integer
    nearest to [n / d] by that rule, for [0 <= n] and [0 < d]. *)
Definition round_half_even (n d : Z) : Z :=
  let q := n / d in
  let r := 2 * (n mod d) in
  if r <? d then q
  else if d <? r then q + 1
  else if Z.even q then q else q + 1.

(** The binary exponent of [n / d]: the [e] with [2^e <= n / d < 2^(e+1)],
    for [0 < n] and [0 < d]. *)
Definition float_exponent (n d : Z) : Z :=
  if d <=? n then Z.log2 (n / d) else - Z.log2_up ((d + n - 1) / n).

(** [int(n / d)] for [0 < d]: the quotient is rounded to a mantissa of 53
    bits, and the double is then truncated towards zero.  Quotients
    beyond the range of the normal doubles do not occur here. *)
Definition int_true_div (n d : Z) : Z :=
  if n =? 0 then 0
  else
    let a := Z.abs n in
    let x := float_exponent a d - 52 in
    Z.sgn n * (if 0 <=? x then round_half_even a (d * 2 ^ x) * 2 ^ x
               else round_half_even (a * 2 ^ (- x)) d / 2 ^ (- x)).

(** [int(d.timestamp())] for a value with a zone: [timestamp()] is
    [(d - epoch).total_seconds()], the count of microseconds since
    1970-01-01T00:00:00 UTC divided by [10**6] as a float.  It is the exact
    count of seconds when that count is whole, and can be the next second
    when the microsecond field is close to a million.  For a value without
    a zone [timestamp()] reads the wall clock in the zone of the process
    and refuses the first day of year 1; such a value is read here as UTC,
    the zone of the Lambda runtime, and the properties below are stated
    for values with a zone, as every fire time the planner builds is. *)
Definition EPOCH_ORDINAL : Z := 719163.
Definition epoch_seconds (d : datetime) : Z :=
  int_true_div (instant d - (EPOCH_ORDINAL - 1) * us_per_day) us_per_second.

(** ** [hashlib.md5]: the MD5 message digest (RFC 1321) *)

Module MD5.

Definition mask32 (x : Z) : Z := x mod 4294967296.

Definition leftrotate (x c : Z) : Z :=
  mask32 (Z.lor (Z.shiftl x c) (Z.shiftr x (32 - c))).

Definition lnot32 (x : Z) : Z := Z.lxor x 4294967295.

Definition shift_amounts : list Z :=
  [7; 12; 17; 22; 7; 12; 17; 22; 7; 12; 17; 22; 7; 12; 17; 22;
   5; 9; 14; 20; 5; 9; 14; 20; 5; 9; 14; 20; 5; 9; 14; 20;
   4; 11; 16; 23; 4; 11; 16; 23; 4; 11; 16; 23; 4; 11; 16; 23;
   6; 10; 15; 21; 6; 10; 15; 21; 6; 10; 15; 21; 6; 10; 15; 21].

Definition sine_table : list Z :=
  [ 3614090360; 3905402710; 606105819; 3250441966;
    4118548399; 1200080426; 2821735955; 4249261313;
    1770035416; 2336552879; 4294925233; 2304563134;
    1804603682; 4254626195; 2792965006; 1236535329;
    4129170786; 3225465664; 643717713; 3921069994;
    3593408605; 38016083; 3634488961; 3889429448;
    568446438; 3275163606; 4107603335; 1163531501;
    2850285829; 4243563512; 1735328473; 2368359562;
    4294588738; 2272392833; 1839030562; 4259657740;
    2763975236; 1272893353; 4139469664; 3200236656;
    681279174; 3936430074; 3572445317; 76029189;
    3654602809; 3873151461; 530742520; 3299628645;
    4096336452; 1126891415; 2878612391; 4237533241;
    1700485571; 2399980690; 4293915773; 2240044497;
    1873313359; 4264355552; 2734768916; 1309151649;
    4149444226; 3174756917; 718787259; 3951481745 ].

Record state : Type := mkState { sA : Z; sB : Z; sC : Z; sD : Z }.

Definition initial : state := mkState 1732584193 4023233417 2562383102 271733878.

(** Little-endian 32-bit word from four bytes. *)
Definition word_of_bytes (bs : list Z) : Z :=
  nth 0 bs 0 + 256 * nth 1 bs 0 + 65536 * nth 2 bs 0 + 16777216 * nth 3 bs 0.

Fixpoint words_of_block (n : nat) (block : list Z) : list Z :=
  match n with
  | O => []
  | S n' => word_of_bytes (firstn 4 block) :: words_of_block n' (skipn 4 block)
  end.

Definition step (m : list Z) (st : state) (i : Z) : state :=
  let '(mkState a b c d) := st in
  let '(f, g) :=
    if i <? 16 then (Z.lor (Z.land b c) (Z.land (lnot32 b) d), i)
    else if i <? 32 then (Z.lor (Z.land d b) (Z.land (lnot32 d) c), (5 * i + 1) mod 16)
    else if i <? 48 then (Z.lxor (Z.lxor b c) d, (3 * i + 5) mod 16)
    else (Z.lxor c (Z.lor b (lnot32 d)), (7 * i) mod 16) in
  let f' := mask32 (f + a + nth (Z.to_nat i) sine_table 0 + nth (Z.to_nat g) m 0) in
  mkState d (mask32 (b + leftrotate f' (nth (Z.to_nat i) shift_amounts 0))) b c.

Definition rounds : list Z := map Z.of_nat (seq 0 64).

Definition compress (st : state) (block : list Z) : state :=
  let m := words_of_block 16 block in
  let st' := fold_left (step m) rounds st in
  mkState (mask32 (sA st + sA st')) (mask32 (sB st + sB st'))
          (mask32 (sC st + sC st')) (mask32 (sD st + sD st')).

Fixpoint le_bytes (n : nat) (x : Z) : list Z :=
  match n with
  | O => []
  | S n' => x mod 256 :: le_bytes n' (x / 256)
  end.

(** The message followed by 0x80, zeros up to 56 modulo 64, and the bit
    length as a 64-bit little-endian integer. *)
Definition pad (msg : list Z) : list Z :=
  let len := Z.of_nat (List.length msg) in
  let zeros := (55 - len) mod 64 in
  msg ++ [128] ++ repeat 0 (Z.to_nat zeros) ++ le_bytes 8 ((8 * len) mod 2 ^ 64).

Fixpoint blocks (fuel : nat) (st : state) (bytes : list Z) : state :=
  match fuel with
  | O => st
  | S fuel' =>
      match bytes with
      | [] => st
      | _ :: _ => blocks fuel' (compress st (firstn 64 bytes)) (skipn 64 bytes)
      end
  end.

Definition digest_state (msg : list Z) : state :=
  let padded := pad msg in blocks (List.length padded) initial padded.

Definition hexdigit (n : Z) : ascii :=
  match n with
  | 0 => "0" | 1 => "1" | 2 => "2" | 3 => "3" | 4 => "4" | 5 => "5"
  | 6 => "6" | 7 => "7" | 8 => "8" | 9 => "9" | 10 => "a" | 11 => "b"
  | 12 => "c" | 13 => "d" | 14 => "e" | _ => "f"
  end%char.

Definition hex_byte (b : Z) (rest : string) : string :=
  String (hexdigit (b / 16 mod 16)) (String (hexdigit (b mod 16)) rest).

Definition hex_word (x : Z) (rest : string) : string :=
  hex_byte (x mod 256) (hex_byte (x / 256 mod 256)
    (hex_byte (x / 65536 mod 256) (hex_byte (x / 16777216 mod 256) rest))).

Definition bytes_of_string (s : string) : list Z :=
  map (fun c => Z.of_N (N_of_ascii c)) (list_ascii_of_string s).

(** [hashlib.md5(s).hexdigest()] *)
Definition hexdigest (s : string) : string :=
  let st := digest_state (bytes_of_string s) in
  hex_word (sA st) (hex_word (sB st) (hex_word (sC st) (hex_word (sD st) ""))).

End MD5.

(** ** Strings

    The [str] methods the handlers use, on text held as its UTF-8 bytes.
    [strip] removes the white space of [str.isspace], the characters
    beyond ASCII included; [lower] folds the ASCII letters. *)

Module Str.

(** [s.startswith(prefix)] *)
Definition startswith (s prefix : string) : bool := String.prefix prefix s.

(** [sub in s] *)
Fixpoint contains (s sub : string) : bool :=
  String.prefix sub s
  || match s with
     | EmptyString => false
     | String _ rest => contains rest sub
     end.

(** [s.split(sep)] for a separator of one character *)
Fixpoint split (s : string) (sep : ascii) : list string :=
  match s with
  | EmptyString => [EmptyString]
  | String c rest =>
      if Ascii.eqb c sep then EmptyString :: split rest sep
      else match split rest sep with
           | [] => [String c EmptyString]
           | field :: fields => String c field :: fields
           end
  end.

(** [chr(code_point)] *)
Definition chr (code_point : N) : string :=
  let byte (n : N) := ascii_of_N n in
  let tail (n : N) := byte (128 + n mod 64)%N in
  if (code_point <? 128)%N then String (byte code_point) EmptyString
  else if (code_point <? 2048)%N then
    String (byte (192 + code_point / 64)%N) (String (tail code_point) EmptyString)
  else if (code_point <? 65536)%N then
    String (byte (224 + code_point / 4096)%N)
      (String (tail (code_point / 64)%N) (String (tail code_point) EmptyString))
  else
    String (byte (240 + code_point / 262144)%N)
      (String (tail (code_point / 4096)%N)
         (String (tail (code_point / 64)%N) (String (tail code_point) EmptyString))).

(** The characters [c] with [c.isspace()], which [strip] removes when it
    is called without an argument. *)
Definition white_space_code_points : list N :=
  [ 9; 10; 11; 12; 13; 28; 29; 30; 31; 32; 133; 160; 5760;
    8192; 8193; 8194; 8195; 8196; 8197; 8198; 8199; 8200; 8201; 8202;
    8232; 8233; 8239; 8287; 12288 ]%N.

Definition white_space : list string := map chr white_space_code_points.

(** The white-space character a string starts with, if it starts with one. *)
Definition leading_space (s : string) : option string :=
  find (fun space => String.prefix space s) white_space.

(** [s.lstrip()]; [skip] counts the bytes still to drop of the character
    being removed. *)
Fixpoint lstrip_from (skip : nat) (s : string) : string :=
  match s with
  | EmptyString => EmptyString
  | String _ rest =>
      match skip with
      | S skip' => lstrip_from skip' rest
      | O =>
          match leading_space s with
          | Some space => lstrip_from (String.length space - 1) rest
          | None => s
          end
      end
  end.

Definition lstrip (s : string) : string := lstrip_from O s.

(** [s.rstrip()]: the string is cut at the first place after which there
    is white space only. *)
Fixpoint rstrip (s : string) : string :=
  match s with
  | EmptyString => EmptyString
  | String c rest =>
      if String.eqb (lstrip s) EmptyString then EmptyString
      else String c (rstrip rest)
  end.

(** [s.strip()] *)
Definition strip (s : string) : string := rstrip (lstrip s).

Definition lower_char (c : ascii) : ascii :=
  let n := N_of_ascii c in
  if ((65 <=? n) && (n <=? 90))%N then ascii_of_N (n + 32) else c.

(** [s.lower()] *)
Fixpoint lower (s : string) : string :=
  match s with
  | EmptyString => EmptyString
  | String c rest => String (lower_char c) (lower rest)
  end.

(** [s.replace(old, new)] for a non-empty [old]: occurrences are replaced
    from the left and do not overlap; [skip] counts the characters of the
    occurrence being consumed. *)
Fixpoint replace_from (skip : nat) (old new s : string) : string :=
  match s with
  | EmptyString => EmptyString
  | String c rest =>
      match skip with
      | S skip' => replace_from skip' old new rest
      | O =>
          if String.prefix old s
          then new +++ replace_from (String.length old - 1) old new rest
          else String c (replace_from O old new rest)
      end
  end.

Definition replace (s old new : string) : string := replace_from O old new s.

(** [s[:n]] *)
Fixpoint take (n : nat) (s : string) : string :=
  match n, s with
  | S n', String c rest => String c (take n' rest)
  | _, _ => EmptyString
  end.

(** [items[i]] for [i >= 0] and [items[-k]] for [k >= 1] *)
Definition index {A} (items : list A) (i : nat) : outcome A :=
  match nth_error items i with
  | Some x => Returned x
  | None => Raised IndexError
  end.

Definition index_from_end {A} (items : list A) (k : nat) : outcome A :=
  index (rev items) (k - 1).

Definition digit_char (n : Z) : ascii := ascii_of_N (48 + Z.to_N n).

Fixpoint digits (fuel : nat) (n : Z) (acc : string) : string :=
  match fuel with
  | O => acc
  | S fuel' =>
      let acc' := String (digit_char (n mod 10)) acc in
      if n <? 10 then acc' else digits fuel' (n / 10) acc'
  end.

(** [str(n)] for an [int] *)
Definition of_int (n : Z) : string :=
  if n <? 0 then String "-" (digits (S (Z.to_nat (Z.log2 (- n)))) (- n) EmptyString)
  else digits (S (Z.to_nat (Z.log2 n))) n EmptyString.

End Str.

(** ** JSON values, as [json.loads] delivers them

    Numbers are the integers; no handler applies an arithmetic operation
    to an event field, only truth tests. *)

Inductive json : Type :=
| JNull
| JBool (b : bool)
| JInt (n : Z)
| JStr (s : string)
| JList (items : list json)
| JDict (entries : list (string * json)).

Definition dict := list (string * json).

Fixpoint dict_lookup (d : dict) (key : string) : option json :=
  match d with
  | [] => None
  | (k, v) :: rest => if String.eqb k key then Some v else dict_lookup rest key
  end.

(** [d.get(key)] and [d.get(key, default)] on a [dict] *)
Definition dict_get (d : dict) (key : string) : json :=
  match dict_lookup d key with Some v => v | None => JNull end.

Definition dict_get_default (d : dict) (key : string) (default : json) : json :=
  match dict_lookup d key with Some v => v | None => default end.

(** [v.get(key, default)] on any value: only a [dict] has the method. *)
Definition json_get_default (v : json) (key : string) (default : json) : outcome json :=
  match v with
  | JDict d => Returned (dict_get_default d key default)
  | _ => Raised AttributeError
  end.

Definition json_get (v : json) (key : string) : outcome json :=
  json_get_default v key JNull.

(** [v[key]] with a string key *)
Definition json_getitem (v : json) (key : string) : outcome json :=
  match v with
  | JDict d =>
      match dict_lookup d key with
      | Some x => Returned x
      | None => Raised (KeyError key)
      end
  | _ => Raised TypeError
  end.

(** Python truth value: [bool(v)] *)
Definition truthy (v : json) : bool :=
  match v with
  | JNull => false
  | JBool b => b
  | JInt n => negb (n =? 0)
  | JStr s => negb (String.eqb s "")
  | JList items => match items with [] => false | _ :: _ => true end
  | JDict entries => match entries with [] => false | _ :: _ => true end
  end.

(** [all(values)] *)
Definition py_all (values : list json) : bool := forallb truthy values.

(** [a or b] *)
Definition py_or (a b : json) : json := if truthy a then a else b.

(** ** Notifications, calls and the outside world *)

(** The [notification_data] records the handlers emit.  [isoformat] strings
    are carried as the [datetime] they print, [str(e)] as the exception;
    the free-text [message], a function of the other fields, is left out. *)
Inductive notification : Type :=
| PhdNoActionNeeded (maintenance_start maintenance_end : datetime)
    (days_until_maintenance : Z) (test_mode : json)
| PhdEarlyRestart (resource_id : string) (notification_time : datetime)
    (maintenance_start maintenance_end : datetime)
    (days_until_maintenance : Z) (restart_time : datetime) (test_mode : json)
| PhdProcessingError (error : exn) (test_mode : json) (timestamp : datetime)
| EcsRestartResult (resource_id cluster_name service_name : json)
    (status : string) (restart_reason : json) (test_mode : json)
    (result : option json) (timestamp : datetime) (error : option exn).

Inductive call : Type :=
| ClockNow
| SsmGetParameter (name : string)
| SsmPutParameter (name : string) (start_date end_date : datetime)
| EventsPutRule (name schedule_expression description : string)
| EventsPutTargets (rule arn : string) (input : json)
| EventsRemoveTargets (rule : json)
| EventsDeleteRule (name : json)
| EcsUpdateService (cluster service : json)
| EcsDescribeTasks (cluster task : string)
| EcsListServices (cluster : string)
| WebhookPost (url : string) (n : notification)
| LogNotification (n : notification).

Definition history := list call.

(** What [ssm.get_parameter] can do: deliver the decoded value of the
    parameter, raise [ParameterNotFound], or fail in any other way (no
    client, no permission, a value that is not JSON). *)
Inductive ssm_reply : Type :=
| ParameterFound (dates_config : json)
| ParameterNotFound
| SsmFailure (e : exn).

(** A task as [ecs.describe_tasks] describes it. *)
Record task_description : Type := mkTask {
  task_group : option string;
  task_serviceName : option string
}.

(** The collaborators.  Each answer is a function of the history up to and
    including the call being answered. *)
Record world : Type := mkWorld {
  environ_get : string -> option string;
  fromisoformat : string -> outcome datetime;
  clock : history -> Z;
  ssm_get_parameter : history -> ssm_reply;
  ssm_put_parameter : history -> outcome unit;
  events_reply : history -> outcome unit;
  ecs_update_service : history -> outcome (list string);
  ecs_describe_tasks : history -> outcome (list task_description);
  ecs_list_services : history -> outcome (list string);
  webhook_post : history -> outcome Z
}.

(** ** The effect monad: a history of calls and an outcome *)

Definition M (A : Type) : Type := world -> history -> history * outcome A.

Definition ret {A} (a : A) : M A := fun _ h => (h, Returned a).

Definition raise {A} (e : exn) : M A := fun _ h => (h, Raised e).

Definition bind {A B} (m : M A) (k : A -> M B) : M B :=
  fun w h =>
    match m w h with
    | (h', Returned a) => k a w h'
    | (h', Raised e) => (h', Raised e)
    end.

(** [try: m  except Exception as e: handler e] *)
Definition try_except {A} (m : M A) (handler : exn -> M A) : M A :=
  fun w h =>
    match m w h with
    | (h', Returned a) => (h', Returned a)
    | (h', Raised e) => handler e w h'
    end.

Definition lift {A} (o : outcome A) : M A := fun _ h => (h, o).

(** Make a call and read the collaborator's answer. *)
Definition perform {A} (c : call) (answer : world -> history -> outcome A) : M A :=
  fun w h => let h' := h ++ [c] in (h', answer w h').

Definition emit (c : call) : M unit := fun _ h => (h ++ [c], Returned tt).

Definition ask {A} (f : world -> A) : M A := fun w h => (h, Returned (f w)).

Declare Scope py_scope.
Delimit Scope py_scope with py.
Notation "x <- m ;; k" := (bind m (fun x => k))
  (at level 100, m at next level, right associativity) : py_scope.
Notation "m ;;; k" := (bind m (fun _ => k))
  (at level 100, right associativity) : py_scope.
Open Scope py_scope.

(** [datetime.now(timezone.utc)] and [datetime.now()] *)
Definition datetime_now_utc : M datetime :=
  perform ClockNow (fun w h => Returned (mkDT (clock w h) (Some timezone_utc))).

Definition datetime_now : M datetime :=
  perform ClockNow (fun w h => Returned (mkDT (clock w h) None)).

(** [os.environ.get(name)] *)
Definition os_environ_get (name : string) : M (option string) :=
  ask (fun w => environ_get w name).

(** [datetime.fromisoformat(v)]: the argument must be a [str]. *)
Definition datetime_fromisoformat (v : json) : M datetime :=
  match v with
  | JStr s => fun w h => (h, fromisoformat w s)
  | _ => raise TypeError
  end.

(** [d if d.tzinfo is not None else d.replace(tzinfo=tz)] *)
Definition default_tzinfo (d : datetime) (tz : Z) : datetime :=
  match tzinfo d with
  | None => replace_tzinfo d tz
  | Some _ => d
  end.

(** The response of a handler.  [json.dumps(v)] bodies are carried as the
    fields that are dumped. *)
Inductive body : Type :=
| BodyText (text : string)
| BodyPlanned (affected_resources : Z) (restart_time : datetime) (test_mode : json)
| BodyRestarted (message : string) (resource_id result test_mode : json)
| BodyRestartFailed (error : exn) (resource_id test_mode : json)
| BodyError (error : exn).

Record response : Type := mkResponse { statusCode : Z; resp_body : body }.

(** ** smart-handler/lambda_function.py *)

Module Planner.

Definition china_tz : Z := timezone_hours 8.

Definition spring_festival_dates : list (Z * ((Z * Z * Z) * (Z * Z * Z))) :=
  [ (2024, ((2024, 2, 10), (2024, 2, 17)));
    (2025, ((2025, 1, 29), (2025, 2, 5)));
    (2026, ((2026, 2, 17), (2026, 2, 24)));
    (2027, ((2027, 2, 6), (2027, 2, 13)));
    (2028, ((2028, 1, 26), (2028, 2, 2)));
    (2029, ((2029, 2, 13), (2029, 2, 20)));
    (2030, ((2030, 2, 3), (2030, 2, 10))) ].

Fixpoint table_get {A} (table : list (Z * A)) (year : Z) : option A :=
  match table with
  | [] => None
  | (y, v) :: rest => if y =? year then Some v else table_get rest year
  end.

(** A holiday that starts at 00:00:00 on one day and ends at 23:59:59 on
    another, both on the China wall clock. *)
Definition china_days (first last : Z * Z * Z) : outcome (datetime * datetime) :=
  let '(y1, m1, d1) := first in
  let '(y2, m2, d2) := last in
  match datetime_new y1 m1 d1 0 0 0 (Some china_tz) with
  | Raised e => Raised e
  | Returned s =>
      match datetime_new y2 m2 d2 23 59 59 (Some china_tz) with
      | Raised e => Raised e
      | Returned e => Returned (s, e)
      end
  end.

Definition get_default_spring_festival_dates (year : Z) : M (datetime * datetime) :=
  fallback <- lift (china_days (year, 2, 1) (year, 2, 8)) ;;
  default_dates <-
    match table_get spring_festival_dates year with
    | Some (first, last) => lift (china_days first last)
    | None => ret fallback
    end ;;
  start_utc <- lift (astimezone (fst default_dates) timezone_utc) ;;
  end_utc <- lift (astimezone (snd default_dates) timezone_utc) ;;
  ret (start_utc, end_utc).

Definition parameter_name (year : Z) : string :=
  "/ecs-phd-restart/spring-festival/" +++ Str.of_int year.

Definition get_spring_festival_dates (year : Z) : M (datetime * datetime) :=
  try_except
    (reply <- perform (SsmGetParameter (parameter_name year))
                (fun w h => Returned (ssm_get_parameter w h)) ;;
     match reply with
     | ParameterFound dates_config =>
         start_str <- lift (json_getitem dates_config "start") ;;
         start_date <- datetime_fromisoformat start_str ;;
         end_str <- lift (json_getitem dates_config "end") ;;
         end_date <- datetime_fromisoformat end_str ;;
         let start_date := default_tzinfo start_date china_tz in
         let end_date := default_tzinfo end_date china_tz in
         start_date_utc <- lift (astimezone start_date timezone_utc) ;;
         end_date_utc <- lift (astimezone end_date timezone_utc) ;;
         ret (start_date_utc, end_date_utc)
     | ParameterNotFound =>
         default_dates <- get_default_spring_festival_dates year ;;
         try_except
           (start_china <- lift (astimezone (fst default_dates) china_tz) ;;
            end_china <- lift (astimezone (snd default_dates) china_tz) ;;
            perform (SsmPutParameter (parameter_name year) start_china end_china)
                    ssm_put_parameter)
           (fun _ => ret tt) ;;;
         ret default_dates
     | SsmFailure e => raise e
     end)
    (fun _ => get_default_spring_festival_dates year).

(** The loop of [check_holiday_conflict] over the list [holidays]. *)
Fixpoint overlaps_any (maintenance_start maintenance_end : datetime)
    (holidays : list (datetime * datetime)) : M bool :=
  match holidays with
  | [] => ret false
  | (holiday_start, holiday_end) :: rest =>
      let holiday_start := default_tzinfo holiday_start timezone_utc in
      let holiday_end := default_tzinfo holiday_end timezone_utc in
      starts_before <- lift (dt_le maintenance_start holiday_end) ;;
      if starts_before then
        ends_after <- lift (dt_ge maintenance_end holiday_start) ;;
        if ends_after then ret true
        else overlaps_any maintenance_start maintenance_end rest
      else overlaps_any maintenance_start maintenance_end rest
  end.

(** The list [holidays] that [check_holiday_conflict] builds for a year. *)
Definition holidays_of (year : Z) : M (list (datetime * datetime)) :=
  nds <- lift (datetime_new year 10 1 0 0 0 (Some china_tz)) ;;
  national_day_start <- lift (astimezone nds timezone_utc) ;;
  nde <- lift (datetime_new year 10 8 23 59 59 (Some china_tz)) ;;
  national_day_end <- lift (astimezone nde timezone_utc) ;;
  spring_festival <- get_spring_festival_dates year ;;
  ret [(national_day_start, national_day_end); spring_festival].

Definition check_holiday_conflict (maintenance_start maintenance_end : datetime) : M bool :=
  let year := dt_year maintenance_start in
  let maintenance_start := default_tzinfo maintenance_start timezone_utc in
  let maintenance_end := default_tzinfo maintenance_end timezone_utc in
  holidays <- holidays_of year ;;
  overlaps_any maintenance_start maintenance_end holidays.

Definition calculate_next_4am : M datetime :=
  now <- datetime_now_utc ;;
  let next_4am := replace_time_hour now 4 in
  if (4 <=? dt_hour now) || ((dt_hour now =? 3) && (50 <=? dt_minute now)) then
    lift (dt_add next_4am (1 * us_per_day))
  else
    ret next_4am.

(** The name the schedule builder gives the one-shot rule. *)
Definition rule_name_of (resource_arn : string) (restart_time : datetime) : string :=
  let resource_hash := Str.take 8 (MD5.hexdigest resource_arn) in
  let timestamp := epoch_seconds restart_time in
  "ecs-restart-" +++ resource_hash +++ "-" +++ Str.of_int timestamp.

Definition cron_expression_of (restart_time : datetime) : string :=
  "cron(" +++ Str.of_int (dt_minute restart_time) +++ " "
  +++ Str.of_int (dt_hour restart_time) +++ " "
  +++ Str.of_int (dt_day restart_time) +++ " "
  +++ Str.of_int (dt_month restart_time) +++ " ? "
  +++ Str.of_int (dt_year restart_time) +++ ")".

(** The handler of the [try] re-raises, so the body is the function. *)
Definition create_restart_schedule (resource_id cluster_name service_name : string)
    (restart_time : datetime) (resource_arn : string) (test_mode : json) : M string :=
  let rule_name := rule_name_of resource_arn restart_time in
  if truthy test_mode then ret rule_name
  else
    let cron_expression := cron_expression_of restart_time in
    perform (EventsPutRule rule_name cron_expression
               ("ECS 节假日提前重启任务 - " +++ resource_id))
            events_reply ;;;
    restart_executor_arn <- os_environ_get "RESTART_EXECUTOR_ARN" ;;
    match restart_executor_arn with
    | Some arn =>
        if String.eqb arn "" then
          raise (ValueError "未配置 RESTART_EXECUTOR_ARN 环境变量")
        else
          let target_input :=
            JDict [ ("resource_id", JStr resource_id);
                    ("cluster_name", JStr cluster_name);
                    ("service_name", JStr service_name);
                    ("resource_arn", JStr resource_arn);
                    ("rule_name", JStr rule_name);
                    ("restart_reason", JStr "holiday_conflict_early_restart") ] in
          perform (EventsPutTargets rule_name arn target_input) events_reply ;;;
          ret rule_name
    | None => raise (ValueError "未配置 RESTART_EXECUTOR_ARN 环境变量")
    end.

Definition last_segment (s : string) : M string :=
  lift (Str.index_from_end (Str.split s "/") 1).

Definition get_service_from_task_arn (task_arn cluster_name : string) : M string :=
  try_except
    (task_id <- last_segment task_arn ;;
     tasks <- perform (EcsDescribeTasks cluster_name task_id) ecs_describe_tasks ;;
     let from_task :=
       match tasks with
       | task :: _ =>
           match task_group task with
           | Some group =>
               if Str.startswith group "service:"
               then Some (Str.replace group "service:" "")
               else task_serviceName task
           | None => task_serviceName task
           end
       | [] => None
       end in
     match from_task with
     | Some service => ret service
     | None =>
         service_arns <- perform (EcsListServices cluster_name) ecs_list_services ;;
         match service_arns with
         | first_service_arn :: _ => last_segment first_service_arn
         | [] => ret "unknown-service"
         end
     end)
    (fun _ => ret "unknown-service").

Definition sentinel : string * string := ("unknown-cluster", "unknown-service").

Definition parse_ecs_resource_info (entity_value : string) : M (string * string) :=
  try_except
    (if Str.startswith entity_value "arn:aws" then
       let parts := Str.split entity_value "/" in
       if (3 <=? List.length parts)%nat then
         type_segment <- lift (Str.index (Str.split entity_value ":") 5) ;;
         resource_type <- lift (Str.index (Str.split type_segment "/") 0) ;;
         cluster_name <- lift (Str.index_from_end parts 2) ;;
         service_name <-
           (if String.eqb resource_type "service" then
              lift (Str.index_from_end parts 1)
            else if String.eqb resource_type "task" then
              get_service_from_task_arn entity_value cluster_name
            else ret "unknown-service") ;;
         ret (cluster_name, service_name)
       else ret sentinel
     else if Str.contains entity_value "|" then
       match Str.split entity_value "|" with
       | [cluster; service] => ret (Str.strip cluster, Str.strip service)
       | _ => ret sentinel
       end
     else ret sentinel)
    (fun _ => ret sentinel).

(** The webhook card or text is built from the notification; delivery
    failures are caught, and the record is always printed to the log. *)
Definition send_notification (notification_data : notification) : M unit :=
  webhook_url <- os_environ_get "WEBHOOK_URL" ;;
  (match webhook_url with
   | Some url =>
       if String.eqb url "" then ret tt
       else
         try_except
           (perform (WebhookPost url notification_data) webhook_post ;;; ret tt)
           (fun _ => ret tt)
   | None => ret tt
   end) ;;;
  emit (LogNotification notification_data).

(** What [for entity in v] iterates over, and [len(v)].  A [str] yields
    its characters, each of which then fails on [.get]; only whether it is
    empty matters to the handler. *)
Definition py_iter (v : json) : outcome (list json) :=
  match v with
  | JList items => Returned items
  | JDict entries => Returned (map (fun kv => JStr (fst kv)) entries)
  | JStr s => Returned (map (fun c => JStr (String c EmptyString)) (list_ascii_of_string s))
  | _ => Raised TypeError
  end.

Definition py_len (v : json) : outcome Z :=
  match py_iter v with
  | Returned items => Returned (Z.of_nat (List.length items))
  | Raised e => Raised e
  end.

(** [v.lower()]: only a [str] has the method. *)
Definition json_lower (v : json) : outcome string :=
  match v with
  | JStr s => Returned (Str.lower s)
  | _ => Raised AttributeError
  end.

(** The body of the loop over [affected_entities]; [resource_id] is the
    variable the loop assigns. *)
Fixpoint schedule_entities (affected_entities : list json) (restart_time : datetime)
    (test_mode : json) (resource_id : option string) : M (option string) :=
  match affected_entities with
  | [] => ret resource_id
  | entity :: rest =>
      entity_value <- lift (json_get_default entity "entityValue" (JStr "")) ;;
      lowered <- lift (json_lower entity_value) ;;
      match entity_value with
      | JStr value =>
          if Str.contains lowered "ecs" || Str.contains value "|" then
            names <- parse_ecs_resource_info value ;;
            let '(cluster_name, service_name) := names in
            if negb (String.eqb cluster_name "unknown-cluster")
               && negb (String.eqb service_name "unknown-service") then
              create_restart_schedule service_name cluster_name service_name
                restart_time value test_mode ;;;
              schedule_entities rest restart_time test_mode
                (Some (cluster_name +++ "/" +++ service_name))
            else schedule_entities rest restart_time test_mode resource_id
          else schedule_entities rest restart_time test_mode resource_id
      | _ => raise AttributeError
      end
  end.

(** [datetime.fromisoformat(v.replace('Z', '+00:00'))] *)
Definition parse_time (v : json) : M datetime :=
  match v with
  | JStr s => datetime_fromisoformat (JStr (Str.replace s "Z" "+00:00"))
  | _ => raise AttributeError
  end.

Definition lambda_handler (event : dict) : M response :=
  try_except
    (let test_mode := dict_get_default event "test_mode" (JBool false) in
     let detail := dict_get_default event "detail" (JDict []) in
     start_time_str <- lift (json_get detail "startTime") ;;
     end_time_str <- lift (json_get detail "endTime") ;;
     if negb (truthy start_time_str) || negb (truthy end_time_str) then
       ret (mkResponse 200 (BodyText "No maintenance window found"))
     else
       maintenance_start <- parse_time start_time_str ;;
       maintenance_end <- parse_time end_time_str ;;
       has_conflict <- check_holiday_conflict maintenance_start maintenance_end ;;
       if negb has_conflict then
         now <- datetime_now_utc ;;
         until <- lift (dt_sub maintenance_start now) ;;
         send_notification
           (PhdNoActionNeeded maintenance_start maintenance_end
              (timedelta_days until) test_mode) ;;;
         ret (mkResponse 200 (BodyText "No holiday conflict detected"))
       else
         restart_time <- calculate_next_4am ;;
         affected_entities <- lift (json_get_default detail "affectedEntities" (JList [])) ;;
         entities <- lift (py_iter affected_entities) ;;
         resource_id <- schedule_entities entities restart_time test_mode None ;;
         now <- datetime_now_utc ;;
         until <- lift (dt_sub maintenance_start now) ;;
         send_notification
           (PhdEarlyRestart
              (match resource_id with Some r => if String.eqb r "" then "unknown" else r
                                    | None => "unknown" end)
              now maintenance_start maintenance_end (timedelta_days until)
              restart_time test_mode) ;;;
         affected_resources <- lift (py_len affected_entities) ;;
         ret (mkResponse 200 (BodyPlanned affected_resources restart_time test_mode)))
    (fun e =>
       timestamp <- datetime_now ;;
       send_notification
         (PhdProcessingError e (dict_get_default event "test_mode" (JBool false))
            timestamp) ;;;
       ret (mkResponse 500 (BodyError e))).

End Planner.

(** ** restart-executor/lambda_function.py *)

Module Executor.

(** The handler of the [try] re-raises, so the body is the function. *)
Definition restart_ecs_service (cluster_name service_name restart_reason : json) : M json :=
  deployments <- perform (EcsUpdateService cluster_name service_name) ecs_update_service ;;
  ret (JDict [ ("status", JStr "success");
               ("message", JStr "ECS服务重启成功");
               ("cluster", cluster_name);
               ("service", service_name);
               ("deployment_id",
                match deployments with
                | first :: _ => JStr first
                | [] => JNull
                end) ]).

Definition cleanup_rule (rule_name : json) : M unit :=
  try_except
    (perform (EventsRemoveTargets rule_name) events_reply ;;;
     perform (EventsDeleteRule rule_name) events_reply)
    (fun _ => ret tt).

(** The executor's [send_feishu_notification] catches every failure of the
    post itself. *)
Definition send_feishu_notification (url : string) (n : notification) : M unit :=
  try_except
    (perform (WebhookPost url n) webhook_post ;;; ret tt)
    (fun _ => ret tt).

Definition send_restart_notification (resource_id : json) (status : string)
    (cluster_name service_name restart_reason test_mode : json)
    (result : option json) (error_msg : option exn) : M unit :=
  timestamp <- datetime_now ;;
  let notification_data :=
    EcsRestartResult resource_id cluster_name service_name status
      (py_or restart_reason (JStr "scheduled_restart")) test_mode result
      timestamp error_msg in
  webhook_url <- os_environ_get "WEBHOOK_URL" ;;
  (match webhook_url with
   | Some url =>
       if String.eqb url "" then ret tt
       else try_except (send_feishu_notification url notification_data)
                       (fun _ => ret tt)
   | None => ret tt
   end) ;;;
  emit (LogNotification notification_data).

(** [v in ['success', 'test_success']] *)
Definition is_success_status (v : json) : bool :=
  match v with
  | JStr s => String.eqb s "success" || String.eqb s "test_success"
  | _ => false
  end.

Definition lambda_handler (event : dict) : M response :=
  try_except
    (let resource_id := dict_get event "resource_id" in
     let cluster_name := dict_get event "cluster_name" in
     let service_name := dict_get event "service_name" in
     let restart_reason := dict_get_default event "restart_reason" (JStr "scheduled_restart") in
     let rule_name := dict_get event "rule_name" in
     let test_mode := dict_get_default event "test_mode" (JBool false) in
     if negb (py_all [resource_id; cluster_name; service_name]) then
       raise (ValueError "缺少必要的参数: resource_id, cluster_name, service_name")
     else
       result <-
         (if truthy test_mode then
            ret (JDict [ ("status", JStr "test_success");
                         ("message", JStr "测试模式下模拟重启成功");
                         ("cluster", cluster_name);
                         ("service", service_name) ])
          else restart_ecs_service cluster_name service_name restart_reason) ;;
       (if truthy rule_name && negb (truthy test_mode) then cleanup_rule rule_name
        else ret tt) ;;;
       result_status <- lift (json_getitem result "status") ;;
       send_restart_notification resource_id
         (if is_success_status result_status then "SUCCESS" else "FAILED")
         cluster_name service_name restart_reason test_mode (Some result) None ;;;
       ret (mkResponse 200
              (BodyRestarted
                 (if negb (truthy test_mode) then "ECS服务重启成功"
                  else "ECS服务重启测试成功")
                 resource_id result test_mode)))
    (fun e =>
       send_restart_notification
         (dict_get_default event "resource_id" (JStr "unknown")) "FAILED"
         (dict_get_default event "cluster_name" (JStr "unknown"))
         (dict_get_default event "service_name" (JStr "unknown"))
         (dict_get_default event "restart_reason" (JStr "scheduled_restart"))
         (dict_get_default event "test_mode" (JBool false))
         None (Some e) ;;;
       ret (mkResponse 500
              (BodyRestartFailed e
                 (dict_get_default event "resource_id" (JStr "unknown"))
                 (dict_get_default event "test_mode" (JBool false))))).

(** The executor carries its own copies of the two resolver helpers. *)
Definition get_service_from_task_arn (task_arn cluster_name : string) : M string :=
  try_except
    (task_id <- lift (Str.index_from_end (Str.split task_arn "/") 1) ;;
     tasks <- perform (EcsDescribeTasks cluster_name task_id) ecs_describe_tasks ;;
     let from_task :=
       match tasks with
       | task :: _ =>
           match task_group task with
           | Some group =>
               if Str.startswith group "service:"
               then Some (Str.replace group "service:" "")
               else task_serviceName task
           | None => task_serviceName task
           end
       | [] => None
       end in
     match from_task with
     | Some service => ret service
     | None =>
         service_arns <- perform (EcsListServices cluster_name) ecs_list_services ;;
         match service_arns with
         | first_service_arn :: _ =>
             lift (Str.index_from_end (Str.split first_service_arn "/") 1)
         | [] => ret "unknown-service"
         end
     end)
    (fun _ => ret "unknown-service").

(** Unlike the planner's resolver, this one looks at the segments only:
    no [arn:aws] prefix test and no [cluster|service] form. *)
Definition parse_ecs_resource_info (entity_value : string) : M (string * string) :=
  try_except
    (let parts := Str.split entity_value "/" in
     if (3 <=? List.length parts)%nat then
       type_segment <- lift (Str.index (Str.split entity_value ":") 5) ;;
       resource_type <- lift (Str.index (Str.split type_segment "/") 0) ;;
       cluster_name <- lift (Str.index_from_end parts 2) ;;
       service_name <-
         (if String.eqb resource_type "service" then
            lift (Str.index_from_end parts 1)
          else if String.eqb resource_type "task" then
            get_service_from_task_arn entity_value cluster_name
          else ret "unknown-service") ;;
       ret (cluster_name, service_name)
     else ret ("unknown-cluster", "unknown-service"))
    (fun _ => ret ("unknown-cluster", "unknown-service")).

End Executor.

(** ** Vocabulary of the specification *)

(** Reading a history: which calls restart a service, which delete the
    schedule entry, and which notifications were emitted. *)
Definition is_restart_call (c : call) : bool :=
  match c with EcsUpdateService _ _ => true | _ => false end.

Definition is_cleanup_call (c : call) : bool :=
  match c with
  | EventsRemoveTargets _ | EventsDeleteRule _ => true
  | _ => false
  end.

Definition is_schedule_call (c : call) : bool :=
  match c with
  | EventsPutRule _ _ _ | EventsPutTargets _ _ _ => true
  | _ => false
  end.

Fixpoint notifications_in (calls : history) : list notification :=
  match calls with
  | [] => []
  | LogNotification n :: rest => n :: notifications_in rest
  | _ :: rest => notifications_in rest
  end.

Fixpoint webhook_posts_in (calls : history) : list notification :=
  match calls with
  | [] => []
  | WebhookPost _ n :: rest => n :: webhook_posts_in rest
  | _ :: rest => webhook_posts_in rest
  end.

(** The [status] field of an executor notification. *)
Definition notified_status (n : notification) : option string :=
  match n with
  | EcsRestartResult _ _ _ status _ _ _ _ _ => Some status
  | _ => None
  end.

(** Every cleanup call of a history comes after a restart call. *)
Definition cleanup_follows_restart (calls : history) : Prop :=
  forall before c after,
    calls = before ++ c :: after ->
    is_cleanup_call c = true ->
    existsb is_restart_call before = true.

(** The world [w] with EventBridge answering as [reply] says. *)
Definition with_events_reply (w : world) (reply : history -> outcome unit) : world :=
  mkWorld (environ_get w) (fromisoformat w) (clock w) (ssm_get_parameter w)
    (ssm_put_parameter w) reply (ecs_update_service w) (ecs_describe_tasks w)
    (ecs_list_services w) (webhook_post w).

(** 04:00:00 UTC on the day with the given ordinal. *)
Definition four_am_utc (ordinal : Z) : datetime :=
  mkDT ((ordinal - 1) * us_per_day + 4 * us_per_hour) (Some timezone_utc).

(** The two shapes of identifier the resolver recognises. *)
Definition structured_shape (s : string) : bool :=
  Str.startswith s "arn:aws"
  && (3 <=? List.length (Str.split s "/"))%nat
  && (6 <=? List.length (Str.split s ":"))%nat.

Definition pair_shape (s : string) : bool :=
  (List.length (Str.split s "|") =? 2)%nat.

Definition is_hex_digit (c : ascii) : bool :=
  let n := Z.of_N (N_of_ascii c) in
  ((48 <=? n) && (n <=? 57)) || ((97 <=? n) && (n <=? 102)).

Fixpoint all_chars (p : ascii -> bool) (s : string) : bool :=
  match s with
  | EmptyString => true
  | String c rest => p c && all_chars p rest
  end.

(** The webhook post a notification causes: one when [WEBHOOK_URL] is set
    and not empty, none otherwise. *)
Definition webhook_part (w : world) (n : notification) : history :=
  match environ_get w "WEBHOOK_URL" with
  | Some url => if String.eqb url "" then [] else [WebhookPost url n]
  | None => []
  end.

(** The calls [cleanup_rule] makes from history [h]: the rule is deleted
    only when its targets could be removed. *)
Definition cleanup_calls (w : world) (h : history) (rule_name : json) : history :=
  match events_reply w (h ++ [EventsRemoveTargets rule_name]) with
  | Returned _ => [EventsRemoveTargets rule_name; EventsDeleteRule rule_name]
  | Raised _ => [EventsRemoveTargets rule_name]
  end.

(** The calls of one executor notification sent from history [h]; [make]
    builds the record from the timestamp read. *)
Definition notification_calls (w : world) (h : history)
    (make : datetime -> notification) : history :=
  let n := make (mkDT (clock w (h ++ [ClockNow])) None) in
  ClockNow :: webhook_part w n ++ [LogNotification n].

(** The fields of an executor event, as the handler reads them. *)
Definition required_fields (event : dict) : list json :=
  [dict_get event "resource_id"; dict_get event "cluster_name";
   dict_get event "service_name"].

Definition missing_parameters : exn :=
  ValueError "缺少必要的参数: resource_id, cluster_name, service_name".

(** The notification of the failure path, for the exception [e]. *)
Definition failure_notification (event : dict) (e : exn) (timestamp : datetime)
    : notification :=
  EcsRestartResult
    (dict_get_default event "resource_id" (JStr "unknown")) 
    (dict_get_default event "cluster_name" (JStr "unknown"))
    (dict_get_default event "service_name" (JStr "unknown"))
    "FAILED"
    (py_or (dict_get_default event "restart_reason" (JStr "scheduled_restart"))
           (JStr "scheduled_restart"))
    (dict_get_default event "test_mode" (JBool false))
    None timestamp (Some e).

Definition failure_response (event : dict) (e : exn) : response :=
  mkResponse 500
    (BodyRestartFailed e
       (dict_get_default event "resource_id" (JStr "unknown"))
       (dict_get_default event "test_mode" (JBool false))).

(** The notification of the path that ran to the end with [result]. *)
Definition result_notification (event : dict) (status : string) (result : json)
    (timestamp : datetime) : notification :=
  EcsRestartResult
    (dict_get event "resource_id") (dict_get event "cluster_name")
    (dict_get event "service_name") status
    (py_or (dict_get_default event "restart_reason" (JStr "scheduled_restart"))
           (JStr "scheduled_restart"))
    (dict_get_default event "test_mode" (JBool false))
    (Some result) timestamp None.

Definition test_result (event : dict) : json :=
  JDict [ ("status", JStr "test_success");
          ("message", JStr "测试模式下模拟重启成功");
          ("cluster", dict_get event "cluster_name");
          ("service", dict_get event "service_name") ].

Definition success_result (event : dict) (deployments : list string) : json :=
  JDict [ ("status", JStr "success");
          ("message", JStr "ECS服务重启成功");
          ("cluster", dict_get event "cluster_name");
          ("service", dict_get event "service_name");
          ("deployment_id",
           match deployments with
           | first :: _ => JStr first
           | [] => JNull
           end) ].

(** Whether a character occurs in a string. *)
Fixpoint occurs (c : ascii) (s : string) : bool :=
  match s with
  | EmptyString => false
  | String c' rest => Ascii.eqb c' c || occurs c rest
  end.

(** [s.endswith(suffix)] *)
Fixpoint ends_with (s suffix : string) : bool :=
  String.eqb s suffix
  || match s with
     | EmptyString => false
     | String _ rest => ends_with rest suffix
     end.

(** Whether a string starts, or ends, with a white-space character. *)
Definition starts_with_space (s : string) : bool :=
  existsb (fun space => String.prefix space s) Str.white_space.

Definition ends_with_space (s : string) : bool :=
  existsb (ends_with s) Str.white_space.

(** A computation only appends to the history, and every call it appends
    is one that [allowed] accepts. *)
Definition appends {A} (allowed : call -> bool) (m : M A) : Prop :=
  forall w h, exists calls,
    fst (m w h) = h ++ calls /\ forallb allowed calls = true.

Definition is_ssm_call (c : call) : bool :=
  match c with
  | SsmGetParameter _ | SsmPutParameter _ _ _ => true
  | _ => false
  end.

Definition is_lookup_call (c : call) : bool :=
  match c with
  | EcsDescribeTasks _ _ | EcsListServices _ => true
  | _ => false
  end.

Definition is_clock_call (c : call) : bool :=
  match c with ClockNow => true | _ => false end.

Definition is_notification_call (c : call) : bool :=
  match c with
  | WebhookPost _ _ | LogNotification _ => true
  | _ => false
  end.

(** Whatever a computation returns satisfies [P]. *)
Definition returns_only {A} (P : A -> Prop) (m : M A) : Prop :=
  forall w h h' a, m w h = (h', Returned a) -> P a.

(** In the world [w] a computation raises from every history. *)
Definition raises_in {A} (w : world) (m : M A) : Prop :=
  forall h, exists h' e, m w h = (h', Raised e).

(** The calls the planner makes: clock readings, parameter-store reads
    and writes, ECS look-ups, notifications and, outside test mode,
    schedule creation. *)
Definition planner_may_call (test_mode : json) (c : call) : bool :=
  is_clock_call c || is_ssm_call c || is_lookup_call c || is_notification_call c
  || (is_schedule_call c && negb (truthy test_mode)).

(** The calls the executor makes: the restart, the schedule clean-up,
    clock readings and notifications. *)
Definition executor_may_call (c : call) : bool :=
  is_restart_call c || is_cleanup_call c || is_clock_call c || is_notification_call c.

(** The UTC instant a bound is read as: in its own zone when it carries
    one, in the zone [assumed] when it carries none. *)
Definition utc_reading (assumed : Z) (d : datetime) : Z :=
  match tzinfo d with
  | Some off => wall d - off
  | None => wall d - assumed
  end.

(** A described task whose [group] does not name a service: the key is
    absent, or its value does not start with [service:]. *)
Definition names_no_group_service (task : task_description) : bool :=
  match task_group task with
  | Some group => negb (Str.startswith group "service:")
  | None => true
  end.

(** An affected entity that the planner's loop passes over: its
    [entityValue] is a string with neither 'ecs' (in any case) nor '|'. *)
Definition is_passed_over (entity : json) : bool :=
  match json_get_default entity "entityValue" (JStr "") with
  | Returned (JStr value) =>
      negb (Str.contains (Str.lower value) "ecs") && negb (Str.contains value "|")
  | _ => false
  end.


(** The UTC instants at which the National Day holiday of a year starts
    and ends: 1 October 00:00:00 and 8 October 23:59:59, China time. *)
Definition national_day_start_instant (year : Z) : Z :=
  (Calendar.ymd2ord year 10 1 - 1) * us_per_day - 8 * us_per_hour.

Definition national_day_end_instant (year : Z) : Z :=
  (Calendar.ymd2ord year 10 8 - 1) * us_per_day + (us_per_day - us_per_second)
  - 8 * us_per_hour.

(** ** Sample worlds and inputs *)

Module Sample.

(** A naive or aware value from its calendar fields, for readable samples. *)
Definition at_time (year month day hour minute second : Z) (tz : option Z) : datetime :=
  mkDT ((Calendar.ymd2ord year month day - 1) * us_per_day
        + hour * us_per_hour + minute * us_per_minute + second * us_per_second) tz.

Definition sample_fromisoformat (s : string) : outcome datetime :=
  if String.eqb s "2025-10-02T00:00:00+00:00" then Returned (at_time 2025 10 2 0 0 0 (Some 0))
  else if String.eqb s "2025-10-03T00:00:00+00:00" then Returned (at_time 2025 10 3 0 0 0 (Some 0))
  else if String.eqb s "2025-06-01T00:00:00+00:00" then Returned (at_time 2025 6 1 0 0 0 (Some 0))
  else if String.eqb s "2025-06-02T00:00:00+00:00" then Returned (at_time 2025 6 2 0 0 0 (Some 0))
  else if String.eqb s "2025-01-28T00:00:00" then Returned (at_time 2025 1 28 0 0 0 None)
  else if String.eqb s "2025-02-04T23:59:59" then Returned (at_time 2025 2 4 23 59 59 None)
  else Raised (ValueError "Invalid isoformat string").

(** 2025-09-20T03:55:00 UTC on every reading; nothing configured, the
    parameter store has no entry, every other call succeeds. *)
Definition quiet : world :=
  mkWorld (fun _ => None) sample_fromisoformat
    (fun _ => wall (at_time 2025 9 20 3 55 0 None))
    (fun _ => ParameterNotFound) (fun _ => Returned tt) (fun _ => Returned tt)
    (fun _ => Returned ["ecs-svc/0001"]) (fun _ => Returned []) (fun _ => Returned [])
    (fun _ => Returned 200).

(** As [quiet], with a Spring Festival override in the parameter store
    whose dates carry no zone. *)
Definition with_override : world :=
  mkWorld (fun _ => None) sample_fromisoformat
    (fun _ => wall (at_time 2025 9 20 3 55 0 None))
    (fun _ => ParameterFound (JDict [ ("start", JStr "2025-01-28T00:00:00");
                                      ("end", JStr "2025-02-04T23:59:59") ]))
    (fun _ => Returned tt) (fun _ => Returned tt)
    (fun _ => Returned ["ecs-svc/0001"]) (fun _ => Returned []) (fun _ => Returned [])
    (fun _ => Returned 200).

(** As [with_override], the start of the override carrying its zone and
    the end carrying none. *)
Definition mixed_fromisoformat (s : string) : outcome datetime :=
  if String.eqb s "2025-01-28T00:00:00+08:00"
  then Returned (at_time 2025 1 28 0 0 0 (Some (timezone_hours 8)))
  else sample_fromisoformat s.

Definition with_mixed_override : world :=
  mkWorld (fun _ => None) mixed_fromisoformat
    (fun _ => wall (at_time 2025 9 20 3 55 0 None))
    (fun _ => ParameterFound (JDict [ ("start", JStr "2025-01-28T00:00:00+08:00");
                                      ("end", JStr "2025-02-04T23:59:59") ]))
    (fun _ => Returned tt) (fun _ => Returned tt)
    (fun _ => Returned ["ecs-svc/0001"]) (fun _ => Returned []) (fun _ => Returned [])
    (fun _ => Returned 200).

(** A maintenance notification for one ECS service. *)
Definition planner_event (start_time end_time : string) (test_mode : bool) : dict :=
  [ ("detail",
     JDict [ ("startTime", JStr start_time);
             ("endTime", JStr end_time);
             ("affectedEntities",
              JList [ JDict [ ("entityValue",
                               JStr "arn:aws:ecs:us-east-1:111:service/prod-cluster/checkout-svc") ] ]) ]);
    ("test_mode", JBool test_mode) ].

Definition executor_event (test_mode : bool) : dict :=
  [ ("resource_id", JStr "checkout-svc");
    ("cluster_name", JStr "prod-cluster");
    ("service_name", JStr "checkout-svc");
    ("rule_name", JStr "ecs-restart-076b6842-1758427200");
    ("restart_reason", JStr "holiday_conflict_early_restart");
    ("test_mode", JBool test_mode) ].


(** As [quiet], with the executor and the webhook configured. *)
Definition configured : world :=
  mkWorld (fun name =>
             if String.eqb name "RESTART_EXECUTOR_ARN"
             then Some "arn:aws:lambda:us-east-1:111:function:restart-executor"
             else if String.eqb name "WEBHOOK_URL"
             then Some "https://open.feishu.cn/hook/1"
             else None)
    sample_fromisoformat
    (fun _ => wall (at_time 2025 9 20 3 55 0 None))
    (fun _ => ParameterNotFound) (fun _ => Returned tt) (fun _ => Returned tt)
    (fun _ => Returned ["ecs-svc/0001"])
    (fun _ => Returned [mkTask (Some "service:checkout-svc") None])
    (fun _ => Returned []) (fun _ => Returned 200).

(** As [quiet], with the parameter store holding the 2025 entry the
    planner writes back, dates on the China wall clock with their zone. *)
Definition seeded_fromisoformat (s : string) : outcome datetime :=
  if String.eqb s "2025-01-29T00:00:00+08:00"
  then Returned (at_time 2025 1 29 0 0 0 (Some (timezone_hours 8)))
  else if String.eqb s "2025-02-05T23:59:59+08:00"
  then Returned (at_time 2025 2 5 23 59 59 (Some (timezone_hours 8)))
  else sample_fromisoformat s.

Definition seeded_config : json :=
  JDict [ ("start", JStr "2025-01-29T00:00:00+08:00");
          ("end", JStr "2025-02-05T23:59:59+08:00");
          ("timezone", JStr "Asia/Shanghai") ].

(** As [quiet], with a task described by its [serviceName] only (its
    group is that of a stand-alone task). *)
Definition named_by_service_name : world :=
  mkWorld (fun _ => None) sample_fromisoformat
    (fun _ => wall (at_time 2025 9 20 3 55 0 None))
    (fun _ => ParameterNotFound) (fun _ => Returned tt) (fun _ => Returned tt)
    (fun _ => Returned ["ecs-svc/0001"])
    (fun _ => Returned [mkTask (Some "family:billing") (Some "billing-svc")])
    (fun _ => Returned []) (fun _ => Returned 200).

(** As [quiet], with a task that names no service and a cluster whose
    first listed service is [orders-svc]. *)
Definition named_by_listing : world :=
  mkWorld (fun _ => None) sample_fromisoformat
    (fun _ => wall (at_time 2025 9 20 3 55 0 None))
    (fun _ => ParameterNotFound) (fun _ => Returned tt) (fun _ => Returned tt)
    (fun _ => Returned ["ecs-svc/0001"])
    (fun _ => Returned [mkTask (Some "family:billing") None])
    (fun _ => Returned ["arn:aws:ecs:us-east-1:111:service/prod-cluster/orders-svc"])
    (fun _ => Returned 200).

(** A notification whose window carries no zone designator. *)
Definition zoneless_event : dict :=
  planner_event "2025-01-28T00:00:00" "2025-02-04T23:59:59" false.

(** Entities of other services. *)
Definition other_entities : list json :=
  [ JDict [ ("entityValue", JStr "arn:aws:rds:us-east-1:111:db:orders") ];
    JDict [ ("entityValue", JStr "i-0123456789abcdef0") ];
    JDict [] ].

Definition seeded : world :=
  mkWorld (fun _ => None) seeded_fromisoformat
    (fun _ => wall (at_time 2025 9 20 3 55 0 None))
    (fun _ => ParameterFound seeded_config)
    (fun _ => Returned tt) (fun _ => Returned tt)
    (fun _ => Returned ["ecs-svc/0001"]) (fun _ => Returned []) (fun _ => Returned [])
    (fun _ => Returned 200).

(** As [quiet], with every AWS call failing. *)
Definition unreachable : world :=
  mkWorld (fun _ => None) sample_fromisoformat
    (fun _ => wall (at_time 2025 9 20 3 55 0 None))
    (fun _ => SsmFailure (ClientError "EndpointConnectionError"))
    (fun _ => Raised (ClientError "EndpointConnectionError"))
    (fun _ => Raised (ClientError "EndpointConnectionError"))
    (fun _ => Raised (ClientError "EndpointConnectionError"))
    (fun _ => Raised (ClientError "EndpointConnectionError"))
    (fun _ => Raised (ClientError "EndpointConnectionError"))
    (fun _ => Raised (ClientError "EndpointConnectionError")).

End Sample.

(** * Properties *)

Example ymd2ord_epoch : Calendar.ymd2ord 1970 1 1 = EPOCH_ORDINAL.
Proof. reflexivity. Qed.

Example ord2ymd_leap_day : Calendar.ord2ymd (Calendar.ymd2ord 2024 2 29) = (2024, 2, 29).
Proof. reflexivity. Qed.

Example ord2ymd_last_day : Calendar.ord2ymd Calendar.MAXORDINAL = (9999, 12, 31).
Proof. reflexivity. Qed.

Example ord2ymd_ymd2ord_samples :
  forallb (fun date => let '(y, m, d) := date in
                       match Calendar.ord2ymd (Calendar.ymd2ord y m d) with
                       | (y', m', d') => (y' =? y) && (m' =? m) && (d' =? d)
                       end)
    [ (1, 1, 1); (1900, 2, 28); (1900, 3, 1); (2000, 2, 29); (2000, 12, 31);
      (2024, 12, 31); (2025, 1, 1); (2025, 10, 8); (2100, 3, 1); (9999, 12, 31) ]
  = true.
Proof. vm_compute. reflexivity. Qed.

Example fields_of_sample_time :
  let d := mkDT 63894024000000000 (Some timezone_utc) in
  (dt_year d, dt_month d, dt_day d, dt_hour d, dt_minute d, dt_second d,
   dt_microsecond d, epoch_seconds d)
  = (2025, 9, 21, 4, 0, 0, 0, 1758427200).
Proof. vm_compute. reflexivity. Qed.

Lemma ord2ymd_year_range (ordinal : Z) :
  1 <= ordinal <= Calendar.MAXORDINAL ->
  Calendar.MINYEAR <= fst (fst (Calendar.ord2ymd ordinal)) <= Calendar.MAXYEAR.
Proof.
  unfold Calendar.MAXORDINAL, Calendar.MINYEAR, Calendar.MAXYEAR, Calendar.ord2ymd,
    Calendar.DI400Y, Calendar.DI100Y, Calendar.DI4Y.
  intros H. cbv zeta.
  set (n := ordinal - 1). assert (Hn : 0 <= n < 3652059) by (subst n; lia).
  clearbody n. clear H.
  pose proof (Z.mod_pos_bound n 146097 ltac:(lia)) as B400.
  pose proof (Z.div_mod n 146097 ltac:(lia)) as E400.
  set (n400 := n / 146097) in *. set (r400 := n mod 146097) in *.
  clearbody n400 r400.
  pose proof (Z.mod_pos_bound r400 36524 ltac:(lia)) as B100.
  pose proof (Z.div_mod r400 36524 ltac:(lia)) as E100.
  set (n100 := r400 / 36524) in *. set (r100 := r400 mod 36524) in *.
  clearbody n100 r100.
  pose proof (Z.mod_pos_bound r100 1461 ltac:(lia)) as B4.
  pose proof (Z.div_mod r100 1461 ltac:(lia)) as E4.
  set (n4 := r100 / 1461) in *. set (r4 := r100 mod 1461) in *.
  clearbody n4 r4.
  pose proof (Z.mod_pos_bound r4 365 ltac:(lia)) as B1.
  pose proof (Z.div_mod r4 365 ltac:(lia)) as E1.
  set (n1 := r4 / 365) in *. set (r1 := r4 mod 365) in *.
  clearbody n1 r1.
  assert (0 <= n400 <= 24) by lia.
  assert (0 <= n100 <= 4) by lia.
  assert (0 <= n4 <= 24) by lia.
  assert (0 <= n1 <= 4) by lia.
  destruct ((n1 =? 4) || (n100 =? 4)) eqn:Elast.
  - cbn [fst]. apply orb_prop in Elast.
    destruct Elast as [E | E]; apply Z.eqb_eq in E; lia.
  - apply orb_false_elim in Elast. destruct Elast as [Ea Eb].
    apply Z.eqb_neq in Ea. apply Z.eqb_neq in Eb.
    match goal with |- context [if ?c then _ else _] => destruct c end;
      cbn [fst]; lia.
Qed.

Lemma dt_valid_bounds (d : datetime) :
  dt_valid d <-> 0 <= wall d < Calendar.MAXORDINAL * us_per_day.
Proof.
  unfold dt_valid, wall_in_range. rewrite andb_true_iff, Z.leb_le, Z.ltb_lt.
  tauto.
Qed.

Lemma toordinal_range (d : datetime) :
  dt_valid d -> 1 <= toordinal d <= Calendar.MAXORDINAL.
Proof.
  rewrite dt_valid_bounds. unfold toordinal, Calendar.MAXORDINAL, us_per_day, us_per_second.
  intros H.
  assert (0 <= wall d / (86400 * 1000000) < 3652059).
  { split; [apply Z.div_pos; lia | apply Z.div_lt_upper_bound; lia]. }
  lia.
Qed.

Lemma dt_year_range (d : datetime) :
  dt_valid d -> Calendar.MINYEAR <= dt_year d <= Calendar.MAXYEAR.
Proof.
  intros H. apply ord2ymd_year_range, toordinal_range, H.
Qed.

Example split_arn :
  Str.split "arn:aws:ecs:us-east-1:111:service/prod-cluster/checkout-svc" "/"
  = ["arn:aws:ecs:us-east-1:111:service"; "prod-cluster"; "checkout-svc"].
Proof. reflexivity. Qed.

Example split_empty_fields : Str.split "a||b" "|" = ["a"; ""; "b"].
Proof. reflexivity. Qed.

Example strip_both : Str.strip "  prod cluster  " = "prod cluster".
Proof. reflexivity. Qed.

Example replace_all : Str.replace "2025-10-02T00:00:00Z" "Z" "+00:00" = "2025-10-02T00:00:00+00:00".
Proof. reflexivity. Qed.

Example replace_prefix : Str.replace "service:checkout-svc" "service:" "" = "checkout-svc".
Proof. reflexivity. Qed.

Example of_int_samples :
  (Str.of_int 0, Str.of_int 1759377600, Str.of_int (-62135596800), Str.of_int 1000)
  = ("0", "1759377600", "-62135596800", "1000").
Proof. vm_compute. reflexivity. Qed.

Example md5_rfc1321_vectors :
  (MD5.hexdigest "", MD5.hexdigest "abc")
  = ("d41d8cd98f00b204e9800998ecf8427e", "900150983cd24fb0d6963f7d28e17f72").
Proof. vm_compute. reflexivity. Qed.

(** ** The restart-time calculator *)

Lemma day_split (t : Z) :
  t = us_per_day * (t / us_per_day) + t mod us_per_day
  /\ 0 <= t mod us_per_day < us_per_day.
Proof.
  split.
  - apply Z.div_mod. unfold us_per_day, us_per_second. lia.
  - apply Z.mod_pos_bound. unfold us_per_day, us_per_second. lia.
Qed.

(** C5: whatever the clock reads (before the last day [datetime] can
    represent), the calculator returns 04:00 UTC of the next day when the
    hour is at or past 4, or is 3 with the minute at or past 50, and 04:00
    UTC of the same day otherwise; the returned time is at least ten
    minutes after the reading. *)
Theorem calculate_next_4am_guard (w : world) (h : history) :
  let now := mkDT (clock w (h ++ [ClockNow])) (Some timezone_utc) in
  0 <= wall now < (Calendar.MAXORDINAL - 1) * us_per_day ->
  exists next_4am,
    Planner.calculate_next_4am w h = (h ++ [ClockNow], Returned next_4am)
    /\ (4 <= dt_hour now \/ (dt_hour now = 3 /\ 50 <= dt_minute now) ->
        next_4am = four_am_utc (toordinal now + 1))
    /\ (~ (4 <= dt_hour now \/ (dt_hour now = 3 /\ 50 <= dt_minute now)) ->
        next_4am = four_am_utc (toordinal now))
    /\ instant now + 10 * us_per_minute <= instant next_4am.
Proof.
  intros now Hrange. subst now.
  unfold Planner.calculate_next_4am, bind, datetime_now_utc, perform, lift, ret.
  unfold replace_time_hour, dt_add, wall_in_range, four_am_utc, toordinal,
    instant, utcoffset, dt_hour, dt_minute in *.
  cbn [wall tzinfo] in *.
  set (t := clock w (h ++ [ClockNow])) in *. clearbody t.
  unfold timezone_utc, Calendar.MAXORDINAL, us_per_day, us_per_hour,
    us_per_minute, us_per_second in *.
  destruct ((4 <=? t mod (86400 * 1000000) / (3600 * 1000000))
            || ((t mod (86400 * 1000000) / (3600 * 1000000) =? 3)
                && (50 <=? t mod (3600 * 1000000) / (60 * 1000000)))) eqn:G.
  - assert (Hlate : 4 <= t mod (86400 * 1000000) / (3600 * 1000000)
                    \/ (t mod (86400 * 1000000) / (3600 * 1000000) = 3
                        /\ 50 <= t mod (3600 * 1000000) / (60 * 1000000))).
    { apply orb_prop in G. destruct G as [G | G].
      - left. apply Z.leb_le in G. exact G.
      - right. apply andb_prop in G. destruct G as [G1 G2].
        apply Z.eqb_eq in G1. apply Z.leb_le in G2. split; assumption. }
    clear G.
    assert (Hin : ((0 <=? t - t mod (86400 * 1000000) + 4 * (3600 * 1000000)
                          + 1 * (86400 * 1000000))
                   && (t - t mod (86400 * 1000000) + 4 * (3600 * 1000000)
                       + 1 * (86400 * 1000000) <? 3652059 * (86400 * 1000000))) = true).
    { apply andb_true_intro. split; [apply Z.leb_le | apply Z.ltb_lt];
        Z.div_mod_to_equations; lia. }
    rewrite Hin.
    eexists. split; [reflexivity|].
    split; [| split].
    + intros _. f_equal. Z.div_mod_to_equations. lia.
    + intros Hn. contradiction.
    + cbn [wall tzinfo]. Z.div_mod_to_equations. lia.
  - assert (Hearly : ~ (4 <= t mod (86400 * 1000000) / (3600 * 1000000)
                    \/ (t mod (86400 * 1000000) / (3600 * 1000000) = 3
                        /\ 50 <= t mod (3600 * 1000000) / (60 * 1000000)))).
    { apply orb_false_elim in G. destruct G as [G1 G2].
      apply Z.leb_gt in G1. intros [L | [L1 L2]]; [lia|].
      apply andb_false_elim in G2. destruct G2 as [G2 | G2].
      - apply Z.eqb_neq in G2. contradiction.
      - apply Z.leb_gt in G2. lia. }
    clear G.
    eexists. split; [reflexivity|].
    split; [| split].
    + intros Hl. contradiction.
    + intros _. f_equal. Z.div_mod_to_equations. lia.
    + cbn [wall tzinfo]. Z.div_mod_to_equations. lia.
Qed.

Lemma calculate_next_4am_guard_witness :
  exists next_4am,
    Planner.calculate_next_4am Sample.quiet [] = ([ClockNow], Returned next_4am)
    /\ next_4am = Sample.at_time 2025 9 21 4 0 0 (Some timezone_utc).
Proof.
  destruct (calculate_next_4am_guard Sample.quiet []) as [r [Hrun [Hlate _]]].
  - vm_compute. split; [discriminate | reflexivity].
  - exists r. split; [exact Hrun|].
    rewrite Hlate; [reflexivity|].
    right. vm_compute. split; [reflexivity | discriminate].
Defined.

(** ** Calendar facts used by the blackout catalogue *)

Lemma days_before_year_range (year : Z) :
  Calendar.MINYEAR <= year <= Calendar.MAXYEAR ->
  0 <= Calendar.days_before_year year <= 3651695.
Proof.
  unfold Calendar.MINYEAR, Calendar.MAXYEAR, Calendar.days_before_year.
  intros H. cbv zeta. Z.div_mod_to_equations. lia.
Qed.

Lemma astimezone_in_range (d : datetime) (tz : Z) :
  wall_in_range (wall d - utcoffset d) = true ->
  wall_in_range (wall d - utcoffset d + tz) = true ->
  astimezone d tz = Returned (mkDT (wall d - utcoffset d + tz) (Some tz)).
Proof.
  intros H1 H2. unfold astimezone, dt_add.
  replace (wall d + - utcoffset d) with (wall d - utcoffset d) by lia.
  rewrite H1. cbn [wall tzinfo]. rewrite H2. reflexivity.
Qed.

Lemma wall_in_range_iff (t : Z) :
  wall_in_range t = true <-> 0 <= t < Calendar.MAXORDINAL * us_per_day.
Proof.
  unfold wall_in_range. rewrite andb_true_iff, Z.leb_le, Z.ltb_lt. tauto.
Qed.

(** A day of October or February of a representable year, on the China
    wall clock, converts to UTC without leaving the range of [datetime]. *)
Lemma china_day_to_utc (year month day hour minute second : Z) :
  Calendar.MINYEAR <= year <= Calendar.MAXYEAR ->
  (month = 2 \/ month = 10) -> 1 <= day <= 8 ->
  0 <= hour <= 23 -> 0 <= minute <= 59 -> 0 <= second <= 59 ->
  exists local,
    datetime_new year month day hour minute second (Some Planner.china_tz)
    = Returned local
    /\ tzinfo local = Some Planner.china_tz
    /\ astimezone local timezone_utc
       = Returned (mkDT (wall local - Planner.china_tz) (Some timezone_utc))
    /\ wall_in_range (wall local - Planner.china_tz) = true.
Proof.
  intros Hy Hm Hd Hh Hmi Hs.
  pose proof (days_before_year_range year Hy) as Hdby.
  unfold datetime_new, Calendar.MINYEAR, Calendar.MAXYEAR in *.
  replace ((1 <=? year) && (year <=? 9999)) with true
    by (symmetry; apply andb_true_intro; split; apply Z.leb_le; lia).
  replace ((1 <=? month) && (month <=? 12)) with true
    by (symmetry; apply andb_true_intro; split; apply Z.leb_le; lia).
  assert (Hdim : 28 <= Calendar.days_in_month year month).
  { unfold Calendar.days_in_month.
    destruct Hm as [-> | ->]; destruct (Calendar.is_leap year); cbn; lia. }
  replace ((1 <=? day) && (day <=? Calendar.days_in_month year month)) with true
    by (symmetry; apply andb_true_intro; split; apply Z.leb_le; lia).
  replace ((0 <=? hour) && (hour <=? 23)) with true
    by (symmetry; apply andb_true_intro; split; apply Z.leb_le; lia).
  replace ((0 <=? minute) && (minute <=? 59)) with true
    by (symmetry; apply andb_true_intro; split; apply Z.leb_le; lia).
  replace ((0 <=? second) && (second <=? 59)) with true
    by (symmetry; apply andb_true_intro; split; apply Z.leb_le; lia).
  cbn [negb].
  eexists. split; [reflexivity|]. split; [reflexivity|].
  assert (Hord : 32 <= Calendar.ymd2ord year month day <= 3651695 + 282).
  { unfold Calendar.ymd2ord, Calendar.days_before_month.
    destruct Hm as [-> | ->]; destruct (Calendar.is_leap year); cbn; lia. }
  assert (Hr : wall_in_range
                 ((Calendar.ymd2ord year month day - 1) * us_per_day
                  + hour * us_per_hour + minute * us_per_minute
                  + second * us_per_second - Planner.china_tz) = true).
  { apply wall_in_range_iff.
    unfold Planner.china_tz, timezone_hours, Calendar.MAXORDINAL, us_per_day,
      us_per_hour, us_per_minute, us_per_second. lia. }
  split; [| exact Hr].
  rewrite astimezone_in_range; cbn [wall tzinfo utcoffset];
    unfold utcoffset; cbn [wall tzinfo]; unfold timezone_utc.
  - rewrite Z.add_0_r. reflexivity.
  - exact Hr.
  - rewrite Z.add_0_r. exact Hr.
Qed.

Lemma china_days_february (year : Z) :
  Calendar.MINYEAR <= year <= Calendar.MAXYEAR ->
  exists s e,
    Planner.china_days (year, 2, 1) (year, 2, 8) = Returned (s, e)
    /\ astimezone s timezone_utc
       = Returned (mkDT (wall s - Planner.china_tz) (Some timezone_utc))
    /\ astimezone e timezone_utc
       = Returned (mkDT (wall e - Planner.china_tz) (Some timezone_utc)).
Proof.
  intros Hy. unfold Planner.china_days.
  destruct (china_day_to_utc year 2 1 0 0 0 Hy) as [s [Hs [_ [Has _]]]]; try lia.
  destruct (china_day_to_utc year 2 8 23 59 59 Hy) as [e [He [_ [Hae _]]]]; try lia.
  rewrite Hs, He. exists s, e. auto.
Qed.

(** The built-in table and the synthesized default never fail. *)
Lemma get_default_spring_festival_dates_returns (year : Z) (w : world) (h : history) :
  Calendar.MINYEAR <= year <= Calendar.MAXYEAR ->
  exists s e,
    Planner.get_default_spring_festival_dates year w h = (h, Returned (s, e))
    /\ tzinfo s = Some timezone_utc /\ tzinfo e = Some timezone_utc.
Proof.
  intros Hy.
  destruct (china_days_february year Hy) as [fs [fe [Hf [Hfs Hfe]]]].
  unfold Planner.get_default_spring_festival_dates, bind, lift, ret.
  rewrite Hf.
  unfold Planner.spring_festival_dates, Planner.table_get.
  repeat match goal with
         | |- context [if ?y =? year then _ else _] =>
             destruct (y =? year);
             [ vm_compute; eexists; eexists; split; [reflexivity | split; reflexivity] | ]
         end.
  cbn [fst snd]. rewrite Hfs, Hfe.
  eexists. eexists. split; [reflexivity | split; reflexivity].
Qed.

Lemma get_spring_festival_dates_returns (year : Z) (w : world) (h : history) :
  Calendar.MINYEAR <= year <= Calendar.MAXYEAR ->
  exists h' s e,
    Planner.get_spring_festival_dates year w h = (h', Returned (s, e)).
Proof.
  intros Hy. unfold Planner.get_spring_festival_dates, try_except.
  match goal with |- context [match ?m w h with _ => _ end] => destruct (m w h) as [h1 [[s e] | err]] end.
  - exists h1, s, e. reflexivity.
  - destruct (get_default_spring_festival_dates_returns year w h1 Hy) as [s [e [H _]]].
    exists h1, s, e. exact H.
Qed.

Lemma holidays_of_returns (year : Z) (w : world) (h : history) :
  Calendar.MINYEAR <= year <= Calendar.MAXYEAR ->
  exists h' national_day spring_festival,
    Planner.holidays_of year w h = (h', Returned [national_day; spring_festival])
    /\ Planner.get_spring_festival_dates year w h = (h', Returned spring_festival)
    /\ instant (fst national_day) + Planner.china_tz
       = (Calendar.ymd2ord year 10 1 - 1) * us_per_day
    /\ instant (snd national_day) + Planner.china_tz
       = (Calendar.ymd2ord year 10 8 - 1) * us_per_day + (us_per_day - us_per_second).
Proof.
  intros Hy.
  destruct (china_day_to_utc year 10 1 0 0 0 Hy) as [s [Hs [_ [Has _]]]]; try lia.
  destruct (china_day_to_utc year 10 8 23 59 59 Hy) as [e [He [_ [Hae _]]]]; try lia.
  destruct (get_spring_festival_dates_returns year w h Hy) as [h' [fs [fe Hsf]]].
  unfold Planner.holidays_of, bind, lift, ret.
  rewrite Hs, Has, He, Hae, Hsf.
  eexists. eexists. eexists. split; [reflexivity|]. split; [reflexivity|].
  cbn [fst snd]. unfold instant, utcoffset. cbn [wall tzinfo].
  unfold datetime_new in Hs, He.
  repeat match type of Hs with (if ?c then _ else _) = _ => destruct c; [discriminate|] end.
  repeat match type of He with (if ?c then _ else _) = _ => destruct c; [discriminate|] end.
  injection Hs as <-. injection He as <-. cbn [wall].
  unfold timezone_utc, us_per_day, us_per_hour, us_per_minute, us_per_second. lia.
Qed.

(** ** The blackout-overlap engine *)

Lemma instant_default_tzinfo (d : datetime) :
  instant (default_tzinfo d timezone_utc) = instant d.
Proof.
  unfold default_tzinfo, instant, utcoffset, replace_tzinfo.
  destruct (tzinfo d) eqn:E; cbn [wall tzinfo]; rewrite ?E; reflexivity.
Qed.

Lemma default_tzinfo_aware (d : datetime) (tz : Z) :
  exists off, tzinfo (default_tzinfo d tz) = Some off.
Proof.
  unfold default_tzinfo. destruct (tzinfo d) eqn:E.
  - exists z. exact E.
  - exists tz. reflexivity.
Qed.

Lemma dt_le_aware (a b : datetime) (oa ob : Z) :
  tzinfo a = Some oa -> tzinfo b = Some ob ->
  dt_le a b = Returned (instant a <=? instant b).
Proof.
  intros Ha Hb. unfold dt_le, instant, utcoffset. rewrite Ha, Hb. reflexivity.
Qed.

(** The loop makes no call, never raises on aware bounds, and answers
    whether some interval of the list overlaps the window. *)
Lemma overlaps_any_spec (ms me : datetime) (oms ome : Z)
    (holidays : list (datetime * datetime)) (w : world) (h : history) :
  tzinfo ms = Some oms -> tzinfo me = Some ome ->
  exists b,
    Planner.overlaps_any ms me holidays w h = (h, Returned b)
    /\ (b = true <->
        exists ib, In ib holidays
                   /\ instant ms <= instant (snd ib)
                   /\ instant me >= instant (fst ib)).
Proof.
  intros Hms Hme. induction holidays as [| [hs he] rest IH].
  - exists false. split; [reflexivity|].
    split; [discriminate | intros [ib [[] _]]].
  - destruct IH as [b [Hrun Hb]].
    destruct (default_tzinfo_aware hs timezone_utc) as [ohs Hhs].
    destruct (default_tzinfo_aware he timezone_utc) as [ohe Hhe].
    cbn [Planner.overlaps_any]. unfold bind, lift, dt_ge.
    rewrite (dt_le_aware _ _ _ _ Hms Hhe), (dt_le_aware _ _ _ _ Hhs Hme).
    rewrite !instant_default_tzinfo.
    destruct (instant ms <=? instant he) eqn:E1.
    + destruct (instant hs <=? instant me) eqn:E2.
      * exists true. split; [reflexivity|]. split; [|reflexivity].
        intros _. exists (hs, he). cbn [fst snd].
        apply Z.leb_le in E1. apply Z.leb_le in E2.
        split; [left; reflexivity | lia].
      * exists b. split; [exact Hrun|]. rewrite Hb.
        apply Z.leb_gt in E2.
        split.
        -- intros [ib [Hin Hov]]. exists ib. split; [right; exact Hin | exact Hov].
        -- intros [ib [[Heq | Hin] Hov]].
           ++ subst ib. cbn [fst snd] in Hov. lia.
           ++ exists ib. split; assumption.
    + exists b. split; [exact Hrun|]. rewrite Hb.
      apply Z.leb_gt in E1.
      split.
      * intros [ib [Hin Hov]]. exists ib. split; [right; exact Hin | exact Hov].
      * intros [ib [[Heq | Hin] Hov]].
        -- subst ib. cbn [fst snd] in Hov. lia.
        -- exists ib. split; assumption.
Qed.

Lemma dt_year_default_tzinfo (d : datetime) (tz : Z) :
  dt_year (default_tzinfo d tz) = dt_year d.
Proof.
  unfold default_tzinfo, replace_tzinfo. destruct (tzinfo d); reflexivity.
Qed.

(** The verdict of the check, in terms of the catalogue it builds. *)
Lemma check_holiday_conflict_spec (ms me : datetime) (w : world) (h : history) :
  dt_valid ms ->
  exists h' holidays b,
    Planner.holidays_of (dt_year ms) w h = (h', Returned holidays)
    /\ Planner.check_holiday_conflict ms me w h = (h', Returned b)
    /\ (b = true <->
        exists ib, In ib holidays
                   /\ instant (default_tzinfo ms timezone_utc) <= instant (snd ib)
                   /\ instant (default_tzinfo me timezone_utc) >= instant (fst ib)).
Proof.
  intros Hv.
  destruct (holidays_of_returns (dt_year ms) w h (dt_year_range ms Hv))
    as [h' [nd [sf [Hhol _]]]].
  destruct (default_tzinfo_aware ms timezone_utc) as [oms Hms].
  destruct (default_tzinfo_aware me timezone_utc) as [ome Hme].
  destruct (overlaps_any_spec _ _ _ _ [nd; sf] w h' Hms Hme) as [b [Hrun Hb]].
  exists h', [nd; sf], b. split; [exact Hhol|]. split; [|exact Hb].
  unfold Planner.check_holiday_conflict, bind. rewrite Hhol. exact Hrun.
Qed.

(** C1: for every maintenance window [W] and every catalogue [B], the
    overlap loop returns true exactly when some interval [ib] of [B] has
    [W.start <= ib.end] and [W.end >= ib.start], all bounds compared as
    UTC instants, and false otherwise; and the conflict check, whatever
    the parameter store holds, returns that verdict for the catalogue it
    builds for the window's year. *)
Theorem check_holiday_conflict_iff_overlap (ms me : datetime) (w : world) (h : history) :
  dt_valid ms ->
  (forall B : list (datetime * datetime),
      exists b,
        Planner.overlaps_any (default_tzinfo ms timezone_utc)
          (default_tzinfo me timezone_utc) B w h = (h, Returned b)
        /\ (b = true <->
            exists ib, In ib B
                       /\ instant (default_tzinfo ms timezone_utc) <= instant (snd ib)
                       /\ instant (default_tzinfo me timezone_utc) >= instant (fst ib)))
  /\ exists h' holidays b,
       Planner.holidays_of (dt_year ms) w h = (h', Returned holidays)
       /\ Planner.check_holiday_conflict ms me w h = (h', Returned b)
       /\ (b = true <->
           exists ib, In ib holidays
                      /\ instant (default_tzinfo ms timezone_utc) <= instant (snd ib)
                      /\ instant (default_tzinfo me timezone_utc) >= instant (fst ib))
       /\ (b = false <->
           forall ib, In ib holidays ->
                      ~ (instant (default_tzinfo ms timezone_utc) <= instant (snd ib)
                         /\ instant (default_tzinfo me timezone_utc) >= instant (fst ib))).
Proof.
  intros Hv. split.
  - intros B.
    destruct (default_tzinfo_aware ms timezone_utc) as [oms Hms].
    destruct (default_tzinfo_aware me timezone_utc) as [ome Hme].
    exact (overlaps_any_spec _ _ _ _ B w h Hms Hme).
  - destruct (check_holiday_conflict_spec ms me w h Hv) as [h' [hol [b [H1 [H2 H3]]]]].
    exists h', hol, b. repeat split; try assumption; try (apply H3).
    + intros Hb ib Hin Hov. subst b.
      assert (false = true) as Habs by (apply H3; exists ib; split; assumption).
      discriminate Habs.
    + intros Hnone. destruct b; [|reflexivity].
      destruct (proj1 H3 eq_refl) as [ib [Hin Hov]].
      exfalso. exact (Hnone ib Hin Hov).
Qed.

Lemma check_holiday_conflict_iff_overlap_witness :
  exists h' holidays b,
    Planner.holidays_of 2025 Sample.quiet [] = (h', Returned holidays)
    /\ Planner.check_holiday_conflict
         (Sample.at_time 2025 10 2 0 0 0 (Some timezone_utc))
         (Sample.at_time 2025 10 3 0 0 0 (Some timezone_utc)) Sample.quiet []
       = (h', Returned b).
Proof.
  destruct (check_holiday_conflict_iff_overlap
              (Sample.at_time 2025 10 2 0 0 0 (Some timezone_utc))
              (Sample.at_time 2025 10 3 0 0 0 (Some timezone_utc)) Sample.quiet [])
    as [_ [h' [hol [b [H1 [H2 _]]]]]].
  - vm_compute. reflexivity.
  - exists h', hol, b. split; [exact H1 | exact H2].
Defined.

(** The two overlap scenarios of the specification, run on the default
    catalogue. *)
Example overlap_national_day_2025 :
  snd (Planner.check_holiday_conflict
         (Sample.at_time 2025 10 2 0 0 0 (Some timezone_utc))
         (Sample.at_time 2025 10 3 0 0 0 (Some timezone_utc)) Sample.quiet [])
  = Returned true.
Proof. vm_compute. reflexivity. Qed.

Example no_overlap_june_2025 :
  snd (Planner.check_holiday_conflict
         (Sample.at_time 2025 6 1 0 0 0 (Some timezone_utc))
         (Sample.at_time 2025 6 2 0 0 0 (Some timezone_utc)) Sample.quiet [])
  = Returned false.
Proof. vm_compute. reflexivity. Qed.

(** ** Zone normalization *)

(** An override in the parameter store whose dates carry no zone is read
    on the China wall clock and converted to UTC. *)
Lemma get_spring_festival_dates_naive_override
    (year : Z) (w : world) (h : history) (dates_config : json)
    (s1 s2 : string) (d1 d2 : datetime) :
  ssm_get_parameter w (h ++ [SsmGetParameter (Planner.parameter_name year)])
  = ParameterFound dates_config ->
  json_getitem dates_config "start" = Returned (JStr s1) ->
  json_getitem dates_config "end" = Returned (JStr s2) ->
  fromisoformat w s1 = Returned d1 -> fromisoformat w s2 = Returned d2 ->
  tzinfo d1 = None -> tzinfo d2 = None ->
  wall_in_range (wall d1 - Planner.china_tz) = true ->
  wall_in_range (wall d2 - Planner.china_tz) = true ->
  Planner.get_spring_festival_dates year w h
  = (h ++ [SsmGetParameter (Planner.parameter_name year)],
     Returned (mkDT (wall d1 - Planner.china_tz) (Some timezone_utc),
               mkDT (wall d2 - Planner.china_tz) (Some timezone_utc))).
Proof.
  intros Hget Hstart Hend Hp1 Hp2 Hn1 Hn2 Hr1 Hr2.
  unfold Planner.get_spring_festival_dates, try_except, bind, perform, lift, ret.
  rewrite Hget, Hstart. cbn [datetime_fromisoformat]. rewrite Hp1, Hend.
  cbn [datetime_fromisoformat]. rewrite Hp2.
  unfold default_tzinfo. rewrite Hn1, Hn2.
  rewrite !astimezone_in_range;
    unfold replace_tzinfo, utcoffset, timezone_utc; cbn [wall tzinfo];
    rewrite ?Z.add_0_r; try assumption.
  reflexivity.
Qed.

(** An override in the parameter store, whatever zone each of its two
    dates carries or lacks: each date is read on its own. *)
Lemma get_spring_festival_dates_override
    (year : Z) (w : world) (h : history) (dates_config : json)
    (s1 s2 : string) (d1 d2 : datetime) :
  ssm_get_parameter w (h ++ [SsmGetParameter (Planner.parameter_name year)])
  = ParameterFound dates_config ->
  json_getitem dates_config "start" = Returned (JStr s1) ->
  json_getitem dates_config "end" = Returned (JStr s2) ->
  fromisoformat w s1 = Returned d1 -> fromisoformat w s2 = Returned d2 ->
  wall_in_range (utc_reading Planner.china_tz d1) = true ->
  wall_in_range (utc_reading Planner.china_tz d2) = true ->
  Planner.get_spring_festival_dates year w h
  = (h ++ [SsmGetParameter (Planner.parameter_name year)],
     Returned (mkDT (utc_reading Planner.china_tz d1) (Some timezone_utc),
               mkDT (utc_reading Planner.china_tz d2) (Some timezone_utc))).
Proof.
  intros Hget Hstart Hend Hp1 Hp2 Hr1 Hr2.
  assert (Hconv : forall d,
             wall_in_range (utc_reading Planner.china_tz d) = true ->
             astimezone (default_tzinfo d Planner.china_tz) timezone_utc
             = Returned (mkDT (utc_reading Planner.china_tz d) (Some timezone_utc))).
  { intros d Hr. unfold utc_reading, default_tzinfo in *.
    destruct (tzinfo d) as [off |] eqn:E.
    - rewrite astimezone_in_range; unfold utcoffset, timezone_utc;
        rewrite ?E, ?Z.add_0_r; try assumption. reflexivity.
    - rewrite astimezone_in_range;
        unfold replace_tzinfo, utcoffset, timezone_utc; cbn [wall tzinfo];
        rewrite ?Z.add_0_r; try assumption. reflexivity. }
  unfold Planner.get_spring_festival_dates, try_except, bind, perform, lift, ret.
  rewrite Hget, Hstart. cbn [datetime_fromisoformat]. rewrite Hp1, Hend.
  cbn [datetime_fromisoformat]. rewrite Hp2.
  rewrite (Hconv d1 Hr1), (Hconv d2 Hr2). reflexivity.
Qed.

Lemma utc_reading_utc (d : datetime) : utc_reading timezone_utc d = instant d.
Proof.
  unfold utc_reading, instant, utcoffset, timezone_utc. destruct (tzinfo d); reflexivity.
Qed.

(** C2, as the code has it.  Each bound is read on its own, whatever the
    other bounds carry.  A window bound without a zone is read as UTC, not
    as UTC+8; a window bound with a zone is read in its zone.  The National
    Day bounds are the days of October in UTC+8.  A bound of the Spring
    Festival override in the parameter store is read as UTC+8 when it
    carries no zone and in its own zone when it carries one, and comes
    back in UTC.  The verdict compares the UTC instants so obtained, and
    nothing else. *)
Theorem naive_bounds_normalization (ms me : datetime) (w : world) (h : history) :
  dt_valid ms ->
  exists h' national_day spring_festival b,
    Planner.holidays_of (dt_year ms) w h
    = (h', Returned [national_day; spring_festival])
    /\ Planner.check_holiday_conflict ms me w h = (h', Returned b)
    /\ (b = true <->
        (utc_reading timezone_utc ms <= instant (snd national_day)
         /\ utc_reading timezone_utc me >= instant (fst national_day))
        \/ (utc_reading timezone_utc ms <= instant (snd spring_festival)
            /\ utc_reading timezone_utc me >= instant (fst spring_festival)))
    /\ instant (fst national_day)
       = (Calendar.ymd2ord (dt_year ms) 10 1 - 1) * us_per_day - 8 * us_per_hour
    /\ instant (snd national_day)
       = (Calendar.ymd2ord (dt_year ms) 10 8 - 1) * us_per_day
         + (us_per_day - us_per_second) - 8 * us_per_hour
    /\ (forall dates_config s1 s2 d1 d2,
          ssm_get_parameter w
            (h ++ [SsmGetParameter (Planner.parameter_name (dt_year ms))])
          = ParameterFound dates_config ->
          json_getitem dates_config "start" = Returned (JStr s1) ->
          json_getitem dates_config "end" = Returned (JStr s2) ->
          fromisoformat w s1 = Returned d1 -> fromisoformat w s2 = Returned d2 ->
          wall_in_range (utc_reading (8 * us_per_hour) d1) = true ->
          wall_in_range (utc_reading (8 * us_per_hour) d2) = true ->
          h' = h ++ [SsmGetParameter (Planner.parameter_name (dt_year ms))]
          /\ tzinfo (fst spring_festival) = Some timezone_utc
          /\ tzinfo (snd spring_festival) = Some timezone_utc
          /\ instant (fst spring_festival) = utc_reading (8 * us_per_hour) d1
          /\ instant (snd spring_festival) = utc_reading (8 * us_per_hour) d2)
    /\ (forall d assumed,
          (tzinfo d = None -> utc_reading assumed d = wall d - assumed)
          /\ (forall off, tzinfo d = Some off -> utc_reading assumed d = wall d - off)).
Proof.
  intros Hv.
  destruct (check_holiday_conflict_spec ms me w h Hv) as [h' [hol [b [Hhol [Hrun Hb]]]]].
  destruct (holidays_of_returns (dt_year ms) w h (dt_year_range ms Hv))
    as [h2 [nd [sf [Hhol2 [Hsf [Hnd1 Hnd2]]]]]].
  rewrite Hhol in Hhol2. injection Hhol2 as -> ->.
  exists h2, nd, sf, b.
  split; [exact Hhol|]. split; [exact Hrun|].
  split; [| split; [| split; [| split]]].
  - rewrite Hb. rewrite !instant_default_tzinfo, !utc_reading_utc.
    split.
    + intros [ib [[Heq | [Heq | []]] Hov]]; subst ib; [left | right]; exact Hov.
    + intros [Hov | Hov].
      * exists nd. split; [left; reflexivity | exact Hov].
      * exists sf. split; [right; left; reflexivity | exact Hov].
  - unfold Planner.china_tz, timezone_hours in Hnd1. lia.
  - unfold Planner.china_tz, timezone_hours in Hnd2. lia.
  - intros dates_config s1 s2 d1 d2 Hget Hstart Hend Hp1 Hp2 Hr1 Hr2.
    rewrite (get_spring_festival_dates_override _ _ _ _ _ _ _ _
               Hget Hstart Hend Hp1 Hp2 Hr1 Hr2) in Hsf.
    injection Hsf as <- <-. cbn [fst snd tzinfo].
    split; [reflexivity|]. split; [reflexivity|]. split; [reflexivity|].
    unfold instant, utcoffset, timezone_utc. cbn [wall tzinfo].
    change Planner.china_tz with (8 * us_per_hour). split; lia.
  - intros d assumed. unfold utc_reading. split.
    + intros ->. reflexivity.
    + intros off ->. reflexivity.
Qed.

Lemma naive_bounds_normalization_witness :
  exists national_day spring_festival b,
    Planner.check_holiday_conflict
      (Sample.at_time 2025 2 4 16 0 0 (Some Planner.china_tz))
      (Sample.at_time 2025 2 4 17 0 0 None)
      Sample.with_mixed_override []
    = ([SsmGetParameter (Planner.parameter_name 2025)], Returned b)
    /\ (b = true <->
        (utc_reading timezone_utc (Sample.at_time 2025 2 4 16 0 0 (Some Planner.china_tz))
         <= instant (snd national_day)
         /\ utc_reading timezone_utc (Sample.at_time 2025 2 4 17 0 0 None)
            >= instant (fst national_day))
        \/ (utc_reading timezone_utc
              (Sample.at_time 2025 2 4 16 0 0 (Some Planner.china_tz))
            <= instant (snd spring_festival)
            /\ utc_reading timezone_utc (Sample.at_time 2025 2 4 17 0 0 None)
               >= instant (fst spring_festival)))
    /\ instant (fst spring_festival)
       = wall (Sample.at_time 2025 1 28 0 0 0 None) - 8 * us_per_hour
    /\ instant (snd spring_festival)
       = wall (Sample.at_time 2025 2 4 23 59 59 None) - 8 * us_per_hour.
Proof.
  destruct (naive_bounds_normalization
              (Sample.at_time 2025 2 4 16 0 0 (Some Planner.china_tz))
              (Sample.at_time 2025 2 4 17 0 0 None)
              Sample.with_mixed_override [])
    as [h' [nd [sf [b [_ [Hrun [Hb [_ [_ [Hoverride _]]]]]]]]]].
  - vm_compute. reflexivity.
  - destruct (Hoverride
                (JDict [ ("start", JStr "2025-01-28T00:00:00+08:00");
                         ("end", JStr "2025-02-04T23:59:59") ])
                "2025-01-28T00:00:00+08:00" "2025-02-04T23:59:59"
                (Sample.at_time 2025 1 28 0 0 0 (Some Planner.china_tz))
                (Sample.at_time 2025 2 4 23 59 59 None)
                eq_refl eq_refl eq_refl eq_refl eq_refl eq_refl eq_refl)
      as [Hh [_ [_ [Hs He]]]].
    exists nd, sf, b. rewrite Hrun, Hh.
    split; [reflexivity|]. split; [exact Hb|]. split; [exact Hs | exact He].
Defined.

(** An override whose start carries a zone and whose end carries none: the
    end is still read as UTC+8.  The window 16:30 to 17:00 UTC on
    4 February 2025 starts after the override's end in China time
    (15:59:59 UTC) and would start before it were the end read as UTC. *)
Example mixed_override_end_is_read_as_china_time :
  snd (Planner.check_holiday_conflict
         (Sample.at_time 2025 2 4 16 30 0 (Some timezone_utc))
         (Sample.at_time 2025 2 4 17 0 0 (Some timezone_utc))
         Sample.with_mixed_override [])
  = Returned false
  /\ snd (Planner.check_holiday_conflict
            (Sample.at_time 2025 2 4 15 30 0 (Some timezone_utc))
            (Sample.at_time 2025 2 4 17 0 0 (Some timezone_utc))
            Sample.with_mixed_override [])
     = Returned true.
Proof. vm_compute. split; reflexivity. Qed.

(** The same wall-clock window gives opposite verdicts when it is read as
    UTC, as the check does, and when it is read as UTC+8: 17:00 to 18:00
    on 8 October 2025 is after the end of the holiday in UTC and inside it
    in China time. *)
Lemma naive_window_is_read_as_utc_not_china_time :
  snd (Planner.check_holiday_conflict
         (Sample.at_time 2025 10 8 17 0 0 None)
         (Sample.at_time 2025 10 8 18 0 0 None) Sample.quiet [])
  = Returned false
  /\ snd (Planner.check_holiday_conflict
            (Sample.at_time 2025 10 8 17 0 0 (Some Planner.china_tz))
            (Sample.at_time 2025 10 8 18 0 0 (Some Planner.china_tz)) Sample.quiet [])
     = Returned true
  /\ snd (Planner.check_holiday_conflict
            (Sample.at_time 2025 10 8 17 0 0 None)
            (Sample.at_time 2025 10 8 18 0 0 None) Sample.quiet [])
     <> snd (Planner.check_holiday_conflict
               (replace_tzinfo (Sample.at_time 2025 10 8 17 0 0 None) Planner.china_tz)
               (replace_tzinfo (Sample.at_time 2025 10 8 18 0 0 None) Planner.china_tz)
               Sample.quiet [])
  /\ snd (Planner.check_holiday_conflict
            (Sample.at_time 2025 10 8 17 0 0 None)
            (Sample.at_time 2025 10 8 18 0 0 None) Sample.quiet [])
     = snd (Planner.check_holiday_conflict
              (replace_tzinfo (Sample.at_time 2025 10 8 17 0 0 None) timezone_utc)
              (replace_tzinfo (Sample.at_time 2025 10 8 18 0 0 None) timezone_utc)
              Sample.quiet []).
Proof. vm_compute. repeat split. discriminate. Qed.

(** ** The executor workflow *)

Lemma notifications_in_app (a b : history) :
  notifications_in (a ++ b) = notifications_in a ++ notifications_in b.
Proof.
  induction a as [| c a IH]; [reflexivity|].
  destruct c; cbn [app notifications_in]; rewrite IH; reflexivity.
Qed.

Lemma notifications_in_webhook_part (w : world) (n : notification) :
  notifications_in (webhook_part w n) = [].
Proof.
  unfold webhook_part. destruct (environ_get w "WEBHOOK_URL") as [url|]; [|reflexivity].
  destruct (String.eqb url ""); reflexivity.
Qed.

Lemma no_restart_in_webhook_part (w : world) (n : notification) :
  existsb is_restart_call (webhook_part w n) = false
  /\ existsb is_cleanup_call (webhook_part w n) = false.
Proof.
  unfold webhook_part. destruct (environ_get w "WEBHOOK_URL") as [url|]; [|split; reflexivity].
  destruct (String.eqb url ""); split; reflexivity.
Qed.

(** One notification is one clock reading, at most one webhook post and
    one log record; it never raises. *)
Lemma send_restart_notification_calls (resource_id : json) (status : string)
    (cluster_name service_name restart_reason test_mode : json)
    (result : option json) (error_msg : option exn) (w : world) (h : history) :
  let n := EcsRestartResult resource_id cluster_name service_name status
             (py_or restart_reason (JStr "scheduled_restart")) test_mode result
             (mkDT (clock w (h ++ [ClockNow])) None) error_msg in
  Executor.send_restart_notification resource_id status cluster_name service_name
    restart_reason test_mode result error_msg w h
  = (h ++ ClockNow :: webhook_part w n ++ [LogNotification n], Returned tt).
Proof.
  intros n.
  unfold Executor.send_restart_notification, bind, datetime_now, perform,
    os_environ_get, ask, emit, webhook_part.
  fold n.
  destruct (environ_get w "WEBHOOK_URL") as [url|].
  - destruct (String.eqb url "") eqn:E.
    + unfold ret. cbn [app]. rewrite <- app_assoc. reflexivity.
    + unfold try_except, Executor.send_feishu_notification, try_except, bind,
        perform, ret.
      destruct (webhook_post w ((h ++ [ClockNow]) ++ [WebhookPost url n]));
        rewrite <- !app_assoc; reflexivity.
  - unfold ret. cbn [app]. rewrite <- app_assoc. reflexivity.
Qed.

(** Cleanup never raises, whatever EventBridge answers. *)
Lemma cleanup_rule_calls (rule_name : json) (w : world) (h : history) :
  Executor.cleanup_rule rule_name w h = (h ++ cleanup_calls w h rule_name, Returned tt).
Proof.
  unfold Executor.cleanup_rule, try_except, bind, perform, ret, cleanup_calls.
  destruct (events_reply w (h ++ [EventsRemoveTargets rule_name])) as [[]|e].
  - destruct (events_reply w ((h ++ [EventsRemoveTargets rule_name])
                              ++ [EventsDeleteRule rule_name])) as [[]|e];
      rewrite <- app_assoc; reflexivity.
  - reflexivity.
Qed.

(** Validation failure: nothing but the FAILED notification. *)
Lemma run_validation_failure (event : dict) (w : world) (h : history) :
  py_all (required_fields event) = false ->
  Executor.lambda_handler event w h
  = (h ++ notification_calls w h (failure_notification event missing_parameters),
     Returned (failure_response event missing_parameters)).
Proof.
  intros Hreq. unfold Executor.lambda_handler, try_except.
  unfold required_fields in Hreq. rewrite Hreq. cbn [negb]. unfold raise at 1.
  unfold bind. rewrite send_restart_notification_calls.
  reflexivity.
Qed.

(** Test mode: the simulated result, then the notification. *)
Lemma run_test_mode (event : dict) (w : world) (h : history) :
  let test_mode := dict_get_default event "test_mode" (JBool false) in
  py_all (required_fields event) = true ->
  truthy test_mode = true ->
  Executor.lambda_handler event w h
  = (h ++ notification_calls w h (result_notification event "SUCCESS" (test_result event)),
     Returned (mkResponse 200
                 (BodyRestarted "ECS服务重启测试成功" (dict_get event "resource_id")
                    (test_result event) test_mode))).
Proof.
  intros test_mode Hreq Htest. unfold Executor.lambda_handler, try_except.
  unfold required_fields in Hreq. rewrite Hreq. cbn [negb].
  subst test_mode. unfold bind at 1. unfold bind at 1.
  rewrite Htest. cbn [negb andb]. rewrite andb_false_r.
  unfold ret at 1. unfold bind at 1. unfold ret at 1.
  unfold bind at 1. unfold lift. cbn [json_getitem dict_lookup String.eqb Ascii.eqb Bool.eqb].
  unfold bind at 1. cbn [Executor.is_success_status String.eqb Ascii.eqb Bool.eqb orb].
  rewrite send_restart_notification_calls. unfold ret.
  reflexivity.
Qed.

(** A restart that fails: the call, then the FAILED notification; cleanup
    is not reached. *)
Lemma run_restart_failed (event : dict) (w : world) (h : history) (e : exn) :
  let restart_call :=
    EcsUpdateService (dict_get event "cluster_name") (dict_get event "service_name") in
  py_all (required_fields event) = true ->
  truthy (dict_get_default event "test_mode" (JBool false)) = false ->
  ecs_update_service w (h ++ [restart_call]) = Raised e ->
  Executor.lambda_handler event w h
  = (h ++ restart_call
       :: notification_calls w (h ++ [restart_call]) (failure_notification event e),
     Returned (failure_response event e)).
Proof.
  intros restart_call Hreq Htest Hecs. unfold Executor.lambda_handler, try_except.
  unfold required_fields in Hreq. rewrite Hreq. cbn [negb].
  subst restart_call. unfold bind at 1. unfold bind at 1.
  rewrite Htest. unfold Executor.restart_ecs_service, bind at 1, perform.
  rewrite Hecs.
  unfold bind. rewrite send_restart_notification_calls.
  unfold notification_calls, failure_response. rewrite <- app_assoc. reflexivity.
Qed.

(** A restart that succeeds: the call, the cleanup when a rule is named,
    then the SUCCESS notification. *)
Lemma run_restart_succeeded (event : dict) (w : world) (h : history)
    (deployments : list string) :
  let test_mode := dict_get_default event "test_mode" (JBool false) in
  let rule_name := dict_get event "rule_name" in
  let restart_call :=
    EcsUpdateService (dict_get event "cluster_name") (dict_get event "service_name") in
  py_all (required_fields event) = true ->
  truthy test_mode = false ->
  ecs_update_service w (h ++ [restart_call]) = Returned deployments ->
  let cleanup := if truthy rule_name
                 then cleanup_calls w (h ++ [restart_call]) rule_name else [] in
  Executor.lambda_handler event w h
  = (h ++ restart_call :: cleanup
       ++ notification_calls w (h ++ restart_call :: cleanup)
            (result_notification event "SUCCESS" (success_result event deployments)),
     Returned (mkResponse 200
                 (BodyRestarted "ECS服务重启成功" (dict_get event "resource_id")
                    (success_result event deployments) test_mode))).
Proof.
  intros test_mode rule_name restart_call Hreq Htest Hecs cleanup.
  unfold Executor.lambda_handler, try_except.
  unfold required_fields in Hreq. rewrite Hreq. cbn [negb].
  subst test_mode restart_call cleanup rule_name. unfold bind at 1. unfold bind at 1.
  rewrite Htest. unfold Executor.restart_ecs_service, bind at 1, perform.
  rewrite Hecs. unfold ret at 1. cbn [negb]. rewrite andb_true_r.
  unfold bind at 1.
  destruct (truthy (dict_get event "rule_name")).
  - rewrite cleanup_rule_calls. unfold bind at 1, lift.
    cbn [json_getitem dict_lookup String.eqb Ascii.eqb Bool.eqb].
    unfold bind at 1. cbn [Executor.is_success_status String.eqb Ascii.eqb Bool.eqb orb].
    rewrite send_restart_notification_calls. unfold ret, notification_calls.
    rewrite <- !app_assoc. reflexivity.
  - unfold ret at 1. unfold bind at 1, lift.
    cbn [json_getitem dict_lookup String.eqb Ascii.eqb Bool.eqb].
    unfold bind at 1. cbn [Executor.is_success_status String.eqb Ascii.eqb Bool.eqb orb].
    rewrite send_restart_notification_calls. unfold ret, notification_calls.
    rewrite <- !app_assoc. reflexivity.
Qed.

Lemma notifications_in_notification_calls (w : world) (h : history)
    (make : datetime -> notification) :
  notifications_in (notification_calls w h make)
  = [make (mkDT (clock w (h ++ [ClockNow])) None)].
Proof.
  unfold notification_calls. cbn [notifications_in].
  rewrite notifications_in_app, notifications_in_webhook_part. reflexivity.
Qed.

Lemma notification_calls_quiet (w : world) (h : history)
    (make : datetime -> notification) :
  existsb is_restart_call (notification_calls w h make) = false
  /\ existsb is_cleanup_call (notification_calls w h make) = false.
Proof.
  unfold notification_calls. cbn [existsb is_restart_call is_cleanup_call orb].
  rewrite !existsb_app.
  destruct (no_restart_in_webhook_part w
              (make (mkDT (clock w (h ++ [ClockNow])) None))) as [-> ->].
  split; reflexivity.
Qed.

Lemma webhook_posts_in_notification_calls (w : world) (h : history)
    (make : datetime -> notification) :
  (List.length (webhook_posts_in (notification_calls w h make)) <= 1)%nat.
Proof.
  unfold notification_calls, webhook_part. cbn [webhook_posts_in].
  destruct (environ_get w "WEBHOOK_URL") as [url|]; [|cbn; lia].
  destruct (String.eqb url ""); cbn; lia.
Qed.

Lemma no_cleanup_follows_restart (calls : history) :
  existsb is_cleanup_call calls = false -> cleanup_follows_restart calls.
Proof.
  intros Hnone before c after Heq Hc. subst calls.
  rewrite existsb_app in Hnone. cbn [existsb] in Hnone. rewrite Hc in Hnone.
  rewrite orb_true_r in Hnone. discriminate Hnone.
Qed.

(** The failure path of validation, shared by the claims on required
    fields: no restart, no cleanup, one FAILED notification, status 500. *)
Lemma validation_failure_outcome (event : dict) (w : world) (h : history) :
  py_all (required_fields event) = false ->
  exists calls n,
    Executor.lambda_handler event w h
    = (h ++ calls, Returned (failure_response event missing_parameters))
    /\ existsb is_restart_call calls = false
    /\ existsb is_cleanup_call calls = false
    /\ notifications_in calls = [n]
    /\ notified_status n = Some "FAILED".
Proof.
  intros Hreq.
  exists (notification_calls w h (failure_notification event missing_parameters)).
  eexists. split; [apply run_validation_failure; exact Hreq|].
  destruct (notification_calls_quiet w h
              (failure_notification event missing_parameters)) as [Hr Hc].
  split; [exact Hr|]. split; [exact Hc|].
  split; [apply notifications_in_notification_calls | reflexivity].
Qed.

Lemma py_all_required (event : dict) :
  py_all (required_fields event)
  = truthy (dict_get event "resource_id")
    && truthy (dict_get event "cluster_name")
    && truthy (dict_get event "service_name").
Proof.
  unfold py_all, required_fields. cbn [forallb].
  rewrite andb_true_r, andb_assoc. reflexivity.
Qed.

(** C8: an event that lacks [resource_id], [cluster_name] or
    [service_name] takes the validation-failure path: no restart call, one
    FAILED notification, and a response with statusCode 500. *)
Theorem missing_field_fails_validation (event : dict) (w : world) (h : history) :
  dict_lookup event "resource_id" = None
  \/ dict_lookup event "cluster_name" = None
  \/ dict_lookup event "service_name" = None ->
  exists calls n,
    Executor.lambda_handler event w h
    = (h ++ calls, Returned (failure_response event missing_parameters))
    /\ statusCode (failure_response event missing_parameters) = 500
    /\ existsb is_restart_call calls = false
    /\ existsb is_cleanup_call calls = false
    /\ notifications_in calls = [n]
    /\ notified_status n = Some "FAILED".
Proof.
  intros Hmissing.
  assert (Hreq : py_all (required_fields event) = false).
  { rewrite py_all_required. unfold dict_get.
    destruct Hmissing as [-> | [-> | ->]]; cbn [truthy];
      rewrite ?andb_false_r; reflexivity. }
  destruct (validation_failure_outcome event w h Hreq) as [calls [n [H1 [H2 [H3 [H4 H5]]]]]].
  exists calls, n. repeat split; assumption.
Qed.

Lemma missing_field_fails_validation_witness :
  exists calls n,
    Executor.lambda_handler
      [ ("resource_id", JStr "checkout-svc"); ("cluster_name", JStr "prod-cluster") ]
      Sample.quiet []
    = ([] ++ calls,
       Returned (failure_response
                   [ ("resource_id", JStr "checkout-svc");
                     ("cluster_name", JStr "prod-cluster") ] missing_parameters))
    /\ notifications_in calls = [n]
    /\ notified_status n = Some "FAILED".
Proof.
  destruct (missing_field_fails_validation
              [ ("resource_id", JStr "checkout-svc"); ("cluster_name", JStr "prod-cluster") ]
              Sample.quiet [])
    as [calls [n [H1 [_ [_ [_ [H4 H5]]]]]]].
  - right. right. reflexivity.
  - exists calls, n. split; [exact H1 | split; [exact H4 | exact H5]].
Defined.

(** C10: a required field that is present but is the empty string is
    treated as an absent one: the validation-failure path, with no restart
    call, one FAILED notification and statusCode 500. *)
Theorem empty_field_fails_validation (event : dict) (w : world) (h : history) :
  dict_lookup event "resource_id" = Some (JStr "")
  \/ dict_lookup event "cluster_name" = Some (JStr "")
  \/ dict_lookup event "service_name" = Some (JStr "") ->
  exists calls n,
    Executor.lambda_handler event w h
    = (h ++ calls, Returned (failure_response event missing_parameters))
    /\ statusCode (failure_response event missing_parameters) = 500
    /\ existsb is_restart_call calls = false
    /\ existsb is_cleanup_call calls = false
    /\ notifications_in calls = [n]
    /\ notified_status n = Some "FAILED".
Proof.
  intros Hempty.
  assert (Hreq : py_all (required_fields event) = false).
  { rewrite py_all_required. unfold dict_get.
    destruct Hempty as [-> | [-> | ->]]; cbn [truthy String.eqb negb];
      rewrite ?andb_false_r; reflexivity. }
  destruct (validation_failure_outcome event w h Hreq) as [calls [n [H1 [H2 [H3 [H4 H5]]]]]].
  exists calls, n. repeat split; assumption.
Qed.

Lemma empty_field_fails_validation_witness :
  exists calls n,
    Executor.lambda_handler
      [ ("resource_id", JStr "checkout-svc"); ("cluster_name", JStr "");
        ("service_name", JStr "checkout-svc") ]
      Sample.quiet []
    = ([] ++ calls,
       Returned (failure_response
                   [ ("resource_id", JStr "checkout-svc"); ("cluster_name", JStr "");
                     ("service_name", JStr "checkout-svc") ] missing_parameters))
    /\ notifications_in calls = [n]
    /\ notified_status n = Some "FAILED".
Proof.
  destruct (empty_field_fails_validation
              [ ("resource_id", JStr "checkout-svc"); ("cluster_name", JStr "");
                ("service_name", JStr "checkout-svc") ]
              Sample.quiet [])
    as [calls [n [H1 [_ [_ [_ [H4 H5]]]]]]].
  - right. left. reflexivity.
  - exists calls, n. split; [exact H1 | split; [exact H4 | exact H5]].
Defined.

(** C3, as the code has it: with [test_mode] true and the required fields
    present, no restart call and no schedule-delete call is made, exactly
    one notification is emitted, and its status is SUCCESS, flagged as a
    test run and carrying the simulated result whose own status is
    [test_success]; the response has statusCode 200. *)
Theorem test_mode_outcome (event : dict) (w : world) (h : history) :
  dict_lookup event "test_mode" = Some (JBool true) ->
  py_all (required_fields event) = true ->
  exists calls timestamp resp,
    Executor.lambda_handler event w h = (h ++ calls, Returned resp)
    /\ statusCode resp = 200
    /\ existsb is_restart_call calls = false
    /\ existsb is_cleanup_call calls = false
    /\ (List.length (webhook_posts_in calls) <= 1)%nat
    /\ notifications_in calls
       = [EcsRestartResult (dict_get event "resource_id")
            (dict_get event "cluster_name") (dict_get event "service_name")
            "SUCCESS"
            (py_or (dict_get_default event "restart_reason" (JStr "scheduled_restart"))
                   (JStr "scheduled_restart"))
            (JBool true) (Some (test_result event)) timestamp None]
    /\ json_getitem (test_result event) "status" = Returned (JStr "test_success").
Proof.
  intros Htest Hreq.
  assert (Hmode : dict_get_default event "test_mode" (JBool false) = JBool true)
    by (unfold dict_get_default; rewrite Htest; reflexivity).
  pose proof (run_test_mode event w h Hreq) as Hrun.
  rewrite Hmode in Hrun. specialize (Hrun eq_refl).
  destruct (notification_calls_quiet w h
              (result_notification event "SUCCESS" (test_result event))) as [Hr Hc].
  eexists. eexists. eexists. split; [exact Hrun|].
  split; [reflexivity|]. split; [exact Hr|]. split; [exact Hc|].
  split; [apply webhook_posts_in_notification_calls|].
  split; [| reflexivity].
  rewrite notifications_in_notification_calls.
  unfold result_notification. rewrite Hmode. reflexivity.
Qed.

Lemma test_mode_outcome_witness :
  exists calls timestamp resp,
    Executor.lambda_handler (Sample.executor_event true) Sample.quiet []
    = ([] ++ calls, Returned resp)
    /\ statusCode resp = 200
    /\ notifications_in calls
       = [EcsRestartResult (JStr "checkout-svc") (JStr "prod-cluster")
            (JStr "checkout-svc") "SUCCESS" (JStr "holiday_conflict_early_restart")
            (JBool true) (Some (test_result (Sample.executor_event true)))
            timestamp None].
Proof.
  destruct (test_mode_outcome (Sample.executor_event true) Sample.quiet [])
    as [calls [ts [resp [H1 [H2 [_ [_ [_ [H6 _]]]]]]]]].
  - reflexivity.
  - reflexivity.
  - exists calls, ts, resp. split; [exact H1 | split; [exact H2 | exact H6]].
Defined.

(** In test mode the notified status is SUCCESS, not TEST_SUCCESS. *)
Lemma test_mode_status_is_not_test_success :
  map notified_status
    (notifications_in
       (fst (Executor.lambda_handler (Sample.executor_event true) Sample.quiet [])))
  = [Some "SUCCESS"]
  /\ map notified_status
       (notifications_in
          (fst (Executor.lambda_handler (Sample.executor_event true) Sample.quiet [])))
     <> [Some "TEST_SUCCESS"].
Proof.
  assert (E : map notified_status
                (notifications_in
                   (fst (Executor.lambda_handler (Sample.executor_event true)
                           Sample.quiet [])))
              = [Some "SUCCESS"]) by (vm_compute; reflexivity).
  split; [exact E|]. rewrite E. discriminate.
Qed.

Lemma cleanup_after_restart_call (restart : call) (rest : history) :
  is_restart_call restart = true -> is_cleanup_call restart = false ->
  cleanup_follows_restart (restart :: rest).
Proof.
  intros Hr Hc before c after Heq Hcleanup.
  destruct before as [| first before'].
  - cbn [app] in Heq. injection Heq as <- _. rewrite Hc in Hcleanup. discriminate.
  - cbn [app] in Heq. injection Heq as <- _. cbn [existsb]. rewrite Hr. reflexivity.
Qed.

Lemma cleanup_calls_has_cleanup (w : world) (h : history) (rule_name : json) :
  existsb is_cleanup_call (cleanup_calls w h rule_name) = true.
Proof.
  unfold cleanup_calls.
  destruct (events_reply w (h ++ [EventsRemoveTargets rule_name])); reflexivity.
Qed.

Lemma cleanup_calls_no_notification (w : world) (h : history) (rule_name : json) :
  notifications_in (cleanup_calls w h rule_name) = [].
Proof.
  unfold cleanup_calls.
  destruct (events_reply w (h ++ [EventsRemoveTargets rule_name])); reflexivity.
Qed.

(** C4: in every invocation, a cleanup call is made only when the event
    names a rule and only after a restart call (precisely: when the
    fields are valid, the run is not a test, a rule is named and the
    restart call returned); cleanup itself never raises; and however
    EventBridge answers the cleanup calls, the statusCode of the response
    and the notified status stay the same. *)
Theorem cleanup_is_guarded_and_swallowed (event : dict) (w : world) (h : history) :
  exists calls resp,
    Executor.lambda_handler event w h = (h ++ calls, Returned resp)
    /\ (existsb is_cleanup_call calls = true ->
        truthy (dict_get event "rule_name") = true)
    /\ cleanup_follows_restart calls
    /\ (existsb is_cleanup_call calls = true <->
        py_all (required_fields event) = true
        /\ truthy (dict_get_default event "test_mode" (JBool false)) = false
        /\ truthy (dict_get event "rule_name") = true
        /\ exists deployments,
             ecs_update_service w
               (h ++ [EcsUpdateService (dict_get event "cluster_name")
                        (dict_get event "service_name")])
             = Returned deployments)
    /\ (forall rule h0, exists calls0,
          Executor.cleanup_rule rule w h0 = (h0 ++ calls0, Returned tt))
    /\ (forall reply, exists calls' resp',
          Executor.lambda_handler event (with_events_reply w reply) h
          = (h ++ calls', Returned resp')
          /\ statusCode resp' = statusCode resp
          /\ map notified_status (notifications_in calls')
             = map notified_status (notifications_in calls)).
Proof.
  assert (Hcleanup : forall rule h0, exists calls0,
            Executor.cleanup_rule rule w h0 = (h0 ++ calls0, Returned tt)).
  { intros rule h0. eexists. apply cleanup_rule_calls. }
  destruct (py_all (required_fields event)) eqn:Hreq.
  2:{ (* validation failure *)
    eexists. eexists. split; [apply run_validation_failure; exact Hreq|].
    destruct (notification_calls_quiet w h
                (failure_notification event missing_parameters)) as [_ Hc].
    split; [rewrite Hc; discriminate|].
    split; [apply no_cleanup_follows_restart; exact Hc|].
    split; [rewrite Hc; split; [discriminate | intros [Habs _]; discriminate Habs]|].
    split; [exact Hcleanup|].
    intros reply. eexists. eexists.
    split; [apply run_validation_failure; exact Hreq|].
    split; [reflexivity|].
    rewrite !notifications_in_notification_calls. reflexivity. }
  destruct (truthy (dict_get_default event "test_mode" (JBool false))) eqn:Htest.
  { (* test mode *)
    eexists. eexists. split; [apply run_test_mode; assumption|].
    destruct (notification_calls_quiet w h
                (result_notification event "SUCCESS" (test_result event))) as [_ Hc].
    split; [rewrite Hc; discriminate|].
    split; [apply no_cleanup_follows_restart; exact Hc|].
    split; [rewrite Hc; split; [discriminate | intros [_ [Habs _]]; discriminate Habs]|].
    split; [exact Hcleanup|].
    intros reply. eexists. eexists.
    split; [apply run_test_mode; assumption|].
    split; [reflexivity|].
    rewrite !notifications_in_notification_calls. reflexivity. }
  set (restart := EcsUpdateService (dict_get event "cluster_name")
                    (dict_get event "service_name")).
  destruct (ecs_update_service w (h ++ [restart])) as [deployments | e] eqn:Hecs.
  - (* the restart succeeded *)
    pose proof (run_restart_succeeded event w h deployments Hreq Htest Hecs) as Hrun.
    cbv zeta in Hrun. fold restart in Hrun.
    match type of Hrun with
    | _ = (h ++ ?c, Returned ?r) => exists c, r
    end.
    split; [exact Hrun|].
    match goal with
    | |- (existsb is_cleanup_call ?c = true -> _) /\ _ =>
        assert (Hiff : existsb is_cleanup_call c = truthy (dict_get event "rule_name"))
    end.
    { cbn [existsb is_cleanup_call restart orb]. rewrite existsb_app.
      match goal with
      | |- context [existsb is_cleanup_call (notification_calls ?w0 ?h0 ?mk)] =>
          rewrite (proj2 (notification_calls_quiet w0 h0 mk))
      end.
      rewrite orb_false_r.
      destruct (truthy (dict_get event "rule_name"));
        [apply cleanup_calls_has_cleanup | reflexivity]. }
    split; [rewrite Hiff; auto|].
    split; [apply cleanup_after_restart_call; reflexivity|].
    split; [rewrite Hiff; split;
            [intros Hrule; repeat split; try assumption; exists deployments; reflexivity
            | intros [_ [_ [Hrule _]]]; exact Hrule]|].
    split; [exact Hcleanup|].
    intros reply. eexists. eexists.
    split; [apply (run_restart_succeeded event (with_events_reply w reply) h deployments);
            [assumption | assumption | exact Hecs]|].
    split; [reflexivity|].
    cbn [notifications_in restart]. rewrite !notifications_in_app.
    rewrite !notifications_in_notification_calls.
    destruct (truthy (dict_get event "rule_name"));
      rewrite ?cleanup_calls_no_notification; reflexivity.
  - (* the restart failed *)
    pose proof (run_restart_failed event w h e Hreq Htest Hecs) as Hrun.
    cbv zeta in Hrun. fold restart in Hrun.
    match type of Hrun with
    | _ = (h ++ ?c, Returned ?r) => exists c, r
    end.
    split; [exact Hrun|].
    destruct (notification_calls_quiet w (h ++ [restart])
                (failure_notification event e)) as [_ Hc].
    match goal with
    | |- (existsb is_cleanup_call ?c = true -> _) /\ _ =>
        assert (Hnone : existsb is_cleanup_call c = false)
    end.
    { cbn [existsb is_cleanup_call restart orb]. exact Hc. }
    split; [rewrite Hnone; discriminate|].
    split; [apply cleanup_after_restart_call; reflexivity|].
    split; [rewrite Hnone; split;
            [discriminate
            | intros [_ [_ [_ [deployments Habs]]]]; discriminate Habs]|].
    split; [exact Hcleanup|].
    intros reply. eexists. eexists.
    split; [apply (run_restart_failed event (with_events_reply w reply) h e);
            [assumption | assumption | exact Hecs]|].
    split; [reflexivity|].
    cbn [notifications_in restart].
    rewrite !notifications_in_notification_calls. reflexivity.
Qed.

(** ** The planner's silent no-action path *)

(** C9: when the event's detail lacks [startTime] or [endTime], the
    handler returns statusCode 200 with the body 'No maintenance window
    found' and makes no call at all: no overlap evaluation, no schedule,
    no notification. *)
Theorem no_window_is_silent_no_action (event : dict) (detail : dict)
    (w : world) (h : history) :
  dict_get_default event "detail" (JDict []) = JDict detail ->
  dict_lookup detail "startTime" = None \/ dict_lookup detail "endTime" = None ->
  Planner.lambda_handler event w h
  = (h, Returned (mkResponse 200 (BodyText "No maintenance window found"))).
Proof.
  intros Hdetail Hlacks.
  unfold Planner.lambda_handler, try_except. rewrite Hdetail.
  unfold bind, lift, json_get, json_get_default, dict_get_default.
  destruct Hlacks as [-> | ->].
  - cbn [truthy negb orb]. reflexivity.
  - destruct (dict_lookup detail "startTime") as [v|]; cbn [truthy negb orb];
      rewrite ?orb_true_r; reflexivity.
Qed.

Lemma no_window_is_silent_no_action_witness :
  Planner.lambda_handler
    [ ("detail", JDict [ ("startTime", JStr "2025-10-02T00:00:00Z") ]) ] Sample.quiet []
  = ([], Returned (mkResponse 200 (BodyText "No maintenance window found"))).
Proof.
  apply (no_window_is_silent_no_action
           [ ("detail", JDict [ ("startTime", JStr "2025-10-02T00:00:00Z") ]) ]
           [ ("startTime", JStr "2025-10-02T00:00:00Z") ]).
  - reflexivity.
  - right. reflexivity.
Defined.

(** ** The resource-identity resolver *)

Lemma try_except_ret_returns {A} (m : M A) (fallback : A) (w : world) (h : history) :
  exists h' a, try_except m (fun _ => ret fallback) w h = (h', Returned a).
Proof.
  unfold try_except, ret. destruct (m w h) as [h1 [a | e]].
  - exists h1, a. reflexivity.
  - exists h1, fallback. reflexivity.
Qed.

Lemma index_out_of_range {A} (items : list A) (i : nat) :
  (List.length items <= i)%nat -> Str.index items i = Raised IndexError.
Proof.
  intros Hlen. unfold Str.index.
  destruct (nth_error items i) eqn:E; [|reflexivity].
  apply nth_error_None in Hlen. rewrite Hlen in E. discriminate E.
Qed.

(** C7: for every string the resolver returns a pair and does not raise;
    a string that has neither the structured shape nor the two-field pair
    shape yields the sentinel, without any lookup. *)
Theorem parse_ecs_resource_info_total (entity_value : string) (w : world) (h : history) :
  exists h' cluster_name service_name,
    Planner.parse_ecs_resource_info entity_value w h
    = (h', Returned (cluster_name, service_name))
    /\ (structured_shape entity_value = false ->
        pair_shape entity_value = false ->
        h' = h /\ (cluster_name, service_name) = ("unknown-cluster", "unknown-service")).
Proof.
  unfold Planner.parse_ecs_resource_info.
  match goal with
  | |- context [try_except ?m _] =>
      destruct (try_except_ret_returns m Planner.sentinel w h) as [h' [[c s] Hrun]]
  end.
  exists h', c, s. split; [exact Hrun|].
  intros Hstruct Hpair.
  unfold structured_shape in Hstruct. unfold pair_shape in Hpair.
  unfold try_except in Hrun.
  destruct (Str.startswith entity_value "arn:aws") eqn:Harn.
  - destruct (3 <=? List.length (Str.split entity_value "/"))%nat eqn:Hparts.
    + cbn [andb] in Hstruct. apply Nat.leb_gt in Hstruct.
      unfold bind at 1 in Hrun. unfold lift at 1 in Hrun.
      rewrite index_out_of_range in Hrun by lia.
      unfold ret, Planner.sentinel in Hrun. injection Hrun as <- <- <-. auto.
    + unfold ret, Planner.sentinel in Hrun. injection Hrun as <- <- <-. auto.
  - destruct (Str.contains entity_value "|").
    + destruct (Str.split entity_value "|") as [| a [| b [| c' rest]]];
        try (unfold ret, Planner.sentinel in Hrun; injection Hrun as <- <- <-; auto).
      cbn in Hpair. discriminate Hpair.
    + unfold ret, Planner.sentinel in Hrun. injection Hrun as <- <- <-. auto.
Qed.

(** The two identifier scenarios of the specification. *)
Example resolve_service_arn :
  snd (Planner.parse_ecs_resource_info
         "arn:aws:ecs:us-east-1:111:service/prod-cluster/checkout-svc" Sample.quiet [])
  = Returned ("prod-cluster", "checkout-svc").
Proof. vm_compute. reflexivity. Qed.

Example resolve_pair :
  snd (Planner.parse_ecs_resource_info "prod-cluster | checkout-svc" Sample.quiet [])
  = Returned ("prod-cluster", "checkout-svc").
Proof. vm_compute. reflexivity. Qed.

Example resolve_short_arn :
  Planner.parse_ecs_resource_info "arn:aws/a/b" Sample.quiet []
  = ([], Returned ("unknown-cluster", "unknown-service")).
Proof. vm_compute. reflexivity. Qed.

Example resolve_unknown_type :
  snd (Planner.parse_ecs_resource_info
         "arn:aws:ecs:us-east-1:111:cluster/prod-cluster/x" Sample.quiet [])
  = Returned ("prod-cluster", "unknown-service").
Proof. vm_compute. reflexivity. Qed.

Lemma parse_ecs_resource_info_total_witness :
  Planner.parse_ecs_resource_info "i-0123456789abcdef0" Sample.quiet []
  = ([], Returned ("unknown-cluster", "unknown-service")).
Proof.
  destruct (parse_ecs_resource_info_total "i-0123456789abcdef0" Sample.quiet [])
    as [h' [c [s [Hrun Hsentinel]]]].
  destruct Hsentinel as [Hh Hpair]; [reflexivity | reflexivity |].
  rewrite Hrun, Hh, Hpair. reflexivity.
Defined.

(** ** The schedule-request builder *)

Lemma string_length_append (a b : string) :
  String.length (a +++ b) = (String.length a + String.length b)%nat.
Proof.
  induction a as [| c a IH]; cbn [String.append String.length]; [reflexivity|].
  rewrite IH. reflexivity.
Qed.

Lemma digits_length (fuel : nat) :
  forall (k : nat) (n : Z) (acc : string),
    0 <= n < 10 ^ Z.of_nat (S k) ->
    (String.length (Str.digits fuel n acc) <= S k + String.length acc)%nat.
Proof.
  induction fuel as [| fuel IH]; intros k n acc Hn.
  - cbn [Str.digits]. lia.
  - cbn [Str.digits]. destruct (n <? 10) eqn:Hsmall.
    + cbn [String.length]. lia.
    + apply Z.ltb_ge in Hsmall.
      destruct k as [| k].
      * change (10 ^ Z.of_nat 1) with 10 in Hn. lia.
      * assert (Hdiv : 0 <= n / 10 < 10 ^ Z.of_nat (S k)).
        { replace (10 ^ Z.of_nat (S (S k))) with (10 * 10 ^ Z.of_nat (S k)) in Hn
            by (rewrite (Nat2Z.inj_succ (S k)), Z.pow_succ_r by lia; reflexivity).
          split; [apply Z.div_pos; lia | apply Z.div_lt_upper_bound; lia]. }
        specialize (IH k (n / 10) (String (Str.digit_char (n mod 10)) acc) Hdiv).
        cbn [String.length] in IH. lia.
Qed.

Lemma of_int_length (n : Z) :
  - 10 ^ 11 < n < 10 ^ 12 -> (String.length (Str.of_int n) <= 12)%nat.
Proof.
  intros Hn. unfold Str.of_int. destruct (n <? 0) eqn:Hneg.
  - apply Z.ltb_lt in Hneg. cbn [String.length].
    pose proof (digits_length (S (Z.to_nat (Z.log2 (- n)))) 10 (- n) EmptyString) as H.
    change (Z.of_nat 11) with 11 in H. cbn [String.length] in H. lia.
  - apply Z.ltb_ge in Hneg.
    pose proof (digits_length (S (Z.to_nat (Z.log2 n))) 11 n EmptyString) as H.
    change (Z.of_nat 12) with 12 in H. cbn [String.length] in H. lia.
Qed.

Lemma round_half_even_bounds (n d : Z) :
  0 < d -> n / d <= round_half_even n d <= n / d + 1.
Proof.
  intros Hd. unfold round_half_even. cbv zeta.
  destruct (2 * (n mod d) <? d); [lia|].
  destruct (d <? 2 * (n mod d)); [lia|].
  destruct (Z.even (n / d)); lia.
Qed.

Lemma round_half_even_exact (q d : Z) : 0 < d -> round_half_even (q * d) d = q.
Proof.
  intros Hd. unfold round_half_even. cbv zeta.
  rewrite Z.mod_mul, Z.div_mul by lia.
  replace (2 * 0 <? d) with true by (symmetry; apply Z.ltb_lt; lia). reflexivity.
Qed.

Lemma float_exponent_small (a d : Z) :
  0 < a -> 0 < d -> a / d < 2 ^ 53 -> float_exponent a d - 52 <= 0.
Proof.
  intros Ha Hd Hq. unfold float_exponent.
  destruct (d <=? a) eqn:E.
  - apply Z.leb_le in E.
    assert (0 < a / d) by (apply Z.div_str_pos; lia).
    assert (Z.log2 (a / d) < 53) by (apply Z.log2_lt_pow2; lia). lia.
  - pose proof (Z.log2_up_nonneg ((d + a - 1) / a)). lia.
Qed.

Lemma scaled_div (a d k : Z) : 0 < d -> 0 <= k -> a * 2 ^ k / d / 2 ^ k = a / d.
Proof.
  intros Hd Hk. assert (0 < 2 ^ k) by (apply Z.pow_pos_nonneg; lia).
  rewrite Z.div_div by lia. rewrite Z.div_mul_cancel_r by lia. reflexivity.
Qed.

(** The float never moves the count of seconds by more than one. *)
Lemma int_true_div_abs (n d : Z) :
  0 < d -> Z.abs n / d < 2 ^ 53 ->
  exists v, int_true_div n d = Z.sgn n * v /\ Z.abs n / d <= v <= Z.abs n / d + 1.
Proof.
  intros Hd Hq. unfold int_true_div.
  destruct (n =? 0) eqn:E0.
  - apply Z.eqb_eq in E0. subst n. exists 0. change (Z.abs 0) with 0.
    rewrite Zdiv_0_l. split; [reflexivity | lia].
  - apply Z.eqb_neq in E0. cbv zeta.
    assert (Ha : 0 < Z.abs n) by lia.
    pose proof (float_exponent_small (Z.abs n) d Ha Hd Hq) as Hx.
    set (x := float_exponent (Z.abs n) d - 52) in *.
    destruct (0 <=? x) eqn:Ex.
    + apply Z.leb_le in Ex. assert (x = 0) as -> by lia.
      change (2 ^ 0) with 1. rewrite !Z.mul_1_r.
      eexists. split; [reflexivity|]. apply round_half_even_bounds. exact Hd.
    + apply Z.leb_gt in Ex.
      eexists. split; [reflexivity|].
      assert (Hp : 0 < 2 ^ (- x)) by (apply Z.pow_pos_nonneg; lia).
      pose proof (round_half_even_bounds (Z.abs n * 2 ^ (- x)) d Hd) as [Hlo Hhi].
      pose proof (scaled_div (Z.abs n) d (- x) Hd ltac:(lia)) as Hs.
      split.
      * rewrite <- Hs. apply Z.div_le_mono; lia.
      * rewrite <- Hs.
        set (Q := Z.abs n * 2 ^ (- x) / d) in *.
        apply Z.le_trans with ((Q + 1 * 2 ^ (- x)) / 2 ^ (- x)).
        -- apply Z.div_le_mono; lia.
        -- rewrite Z.div_add by lia. lia.
Qed.

(** A whole count of seconds is exact. *)
Lemma int_true_div_exact (s d : Z) :
  0 < d -> Z.abs s < 2 ^ 53 -> int_true_div (s * d) d = s.
Proof.
  intros Hd Hs. unfold int_true_div.
  destruct (s * d =? 0) eqn:E0.
  - apply Z.eqb_eq in E0. nia.
  - apply Z.eqb_neq in E0. cbv zeta.
    assert (Habs : Z.abs (s * d) = Z.abs s * d) by (rewrite Z.abs_mul; lia).
    rewrite Habs.
    assert (Ha : 0 < Z.abs s * d) by nia.
    assert (Hq : Z.abs s * d / d < 2 ^ 53) by (rewrite Z.div_mul by lia; exact Hs).
    pose proof (float_exponent_small (Z.abs s * d) d Ha Hd Hq) as Hx.
    set (x := float_exponent (Z.abs s * d) d - 52) in *.
    assert (Hsgn : Z.sgn (s * d) = Z.sgn s) by (rewrite Z.sgn_mul; lia).
    rewrite Hsgn.
    destruct (0 <=? x) eqn:Ex.
    + apply Z.leb_le in Ex. assert (x = 0) as -> by lia.
      change (2 ^ 0) with 1. rewrite !Z.mul_1_r.
      rewrite round_half_even_exact by lia. lia.
    + apply Z.leb_gt in Ex.
      assert (Hp : 0 < 2 ^ (- x)) by (apply Z.pow_pos_nonneg; lia).
      replace (Z.abs s * d * 2 ^ (- x)) with (Z.abs s * 2 ^ (- x) * d) by lia.
      rewrite round_half_even_exact by lia.
      rewrite Z.div_mul by lia. lia.
Qed.

(** [int(n / 10**6)] on the values the float is known for: a count of
    microseconds ending in 999999 rounds up to the next second once the
    seconds need 35 bits or more, a whole count is exact, and small counts
    truncate towards zero. *)
Example int_true_div_samples :
  map (fun n => int_true_div n us_per_second)
    [ 19880899200999999; 1758427200000000; 1758427200999999; 999999; -1; -1500000;
      -62135596800000000; 253402300799999999 ]
  = [ 19880899201; 1758427200; 1758427200; 0; 0; -1; -62135596800; 253402300800 ].
Proof. vm_compute. reflexivity. Qed.

Lemma epoch_offset_bounds (t : datetime) :
  dt_valid t -> - us_per_day < utcoffset t < us_per_day ->
  Z.abs (instant t - (EPOCH_ORDINAL - 1) * us_per_day) / us_per_second < 10 ^ 12 - 1
  /\ (instant t - (EPOCH_ORDINAL - 1) * us_per_day < 0 ->
      Z.abs (instant t - (EPOCH_ORDINAL - 1) * us_per_day) / us_per_second < 10 ^ 11 - 1).
Proof.
  rewrite dt_valid_bounds. unfold instant, EPOCH_ORDINAL,
    Calendar.MAXORDINAL, us_per_day, us_per_second.
  intros Hv Hoff.
  change (10 ^ 11) with 100000000000. change (10 ^ 12) with 1000000000000.
  split; [| intros Hneg]; apply Z.div_lt_upper_bound; lia.
Qed.

Lemma epoch_seconds_range (t : datetime) :
  dt_valid t -> - us_per_day < utcoffset t < us_per_day ->
  - 10 ^ 11 < epoch_seconds t < 10 ^ 12.
Proof.
  intros Hv Hoff.
  destruct (epoch_offset_bounds t Hv Hoff) as [Hbig Hneg].
  unfold epoch_seconds.
  set (n := instant t - (EPOCH_ORDINAL - 1) * us_per_day) in *.
  assert (Hsmall : Z.abs n / us_per_second < 2 ^ 53).
  { change (2 ^ 53) with 9007199254740992.
    change (10 ^ 12) with 1000000000000 in Hbig. lia. }
  destruct (int_true_div_abs n us_per_second eq_refl Hsmall) as [v [-> [Hlo Hhi]]].
  change (10 ^ 11) with 100000000000 in *. change (10 ^ 12) with 1000000000000 in *.
  assert (0 <= Z.abs n / us_per_second) by (apply Z.div_pos; [lia | reflexivity]).
  destruct (Z.sgn_spec n) as [[Hn ->] | [[Hn ->] | [Hn ->]]]; lia.
Qed.

(** The count is the exact one, or one second further from the epoch. *)
Lemma epoch_seconds_near_exact (t : datetime) :
  dt_valid t -> - us_per_day < utcoffset t < us_per_day ->
  Z.abs (epoch_seconds t
         - Z.quot (instant t - (EPOCH_ORDINAL - 1) * us_per_day) us_per_second) <= 1.
Proof.
  intros Hv Hoff.
  destruct (epoch_offset_bounds t Hv Hoff) as [Hbig _].
  unfold epoch_seconds.
  set (n := instant t - (EPOCH_ORDINAL - 1) * us_per_day) in *.
  assert (Hsmall : Z.abs n / us_per_second < 2 ^ 53).
  { change (2 ^ 53) with 9007199254740992.
    change (10 ^ 12) with 1000000000000 in Hbig. lia. }
  destruct (int_true_div_abs n us_per_second eq_refl Hsmall) as [v [-> [Hlo Hhi]]].
  rewrite Z.quot_div by discriminate.
  change (Z.sgn us_per_second) with 1. change (Z.abs us_per_second) with us_per_second.
  destruct (Z.sgn_spec n) as [[Hn ->] | [[Hn ->] | [Hn ->]]]; lia.
Qed.

(** On a whole second the count is exact. *)
Lemma epoch_seconds_whole (t : datetime) (s : Z) :
  dt_valid t -> - us_per_day < utcoffset t < us_per_day ->
  instant t = (EPOCH_ORDINAL - 1) * us_per_day + s * us_per_second ->
  epoch_seconds t = s.
Proof.
  intros Hv Hoff Hs.
  destruct (epoch_offset_bounds t Hv Hoff) as [Hbig _].
  unfold epoch_seconds.
  replace (instant t - (EPOCH_ORDINAL - 1) * us_per_day) with (s * us_per_second) in * by lia.
  apply int_true_div_exact; [reflexivity|].
  rewrite Z.abs_mul, Z.div_mul in Hbig by discriminate.
  change (2 ^ 53) with 9007199254740992. change (10 ^ 12) with 1000000000000 in Hbig.
  lia.
Qed.

Lemma hexdigit_is_hex (n : Z) : is_hex_digit (MD5.hexdigit n) = true.
Proof.
  unfold MD5.hexdigit.
  repeat match goal with
         | |- context [match ?x with _ => _ end] => destruct x
         end; reflexivity.
Qed.

(** The hash fragment is eight hexadecimal digits. *)
Lemma resource_hash_shape (resource_arn : string) :
  String.length (Str.take 8 (MD5.hexdigest resource_arn)) = 8%nat
  /\ all_chars is_hex_digit (Str.take 8 (MD5.hexdigest resource_arn)) = true.
Proof.
  unfold MD5.hexdigest, MD5.hex_word, MD5.hex_byte.
  cbn [Str.take String.length all_chars].
  rewrite !hexdigit_is_hex. split; reflexivity.
Qed.

(** C6: the rule identifier is a function of the raw identifier and the
    fire time alone: the prefix [ecs-restart-], the first eight
    hexadecimal digits of the MD5 digest of the raw identifier, a dash and
    the epoch seconds of the fire time as [int(restart_time.timestamp())]
    gives them: the exact count when the fire time is on a whole second,
    and never more than one second away from it.  The identifier is at
    most 64 characters long.  Every call of the builder with that pair,
    whatever its other arguments and whatever the collaborators answer,
    returns this identifier or raises, registers the rule under this
    identifier, and in test mode returns it without making a call.  The
    fire time is one with a zone, as the planner builds it. *)
Theorem rule_id_reproducible_and_short (resource_arn : string) (restart_time : datetime)
    (off : Z) :
  dt_valid restart_time ->
  tzinfo restart_time = Some off ->
  - us_per_day < off < us_per_day ->
  let rule_id := Planner.rule_name_of resource_arn restart_time in
  let hash := Str.take 8 (MD5.hexdigest resource_arn) in
  rule_id = "ecs-restart-" +++ hash +++ "-" +++ Str.of_int (epoch_seconds restart_time)
  /\ String.length hash = 8%nat
  /\ all_chars is_hex_digit hash = true
  /\ (forall seconds,
        wall restart_time - off
        = (EPOCH_ORDINAL - 1) * us_per_day + seconds * us_per_second ->
        epoch_seconds restart_time = seconds)
  /\ Z.abs (epoch_seconds restart_time
            - Z.quot (wall restart_time - off - (EPOCH_ORDINAL - 1) * us_per_day)
                us_per_second) <= 1
  /\ (String.length rule_id <= 64)%nat
  /\ (forall resource_id cluster_name service_name test_mode w h,
        exists h' result,
          Planner.create_restart_schedule resource_id cluster_name service_name
            restart_time resource_arn test_mode w h = (h', result)
          /\ (result = Returned rule_id \/ exists e, result = Raised e)
          /\ (truthy test_mode = true -> h' = h /\ result = Returned rule_id)
          /\ (truthy test_mode = false ->
              exists schedule description rest,
                h' = h ++ EventsPutRule rule_id schedule description :: rest)).
Proof.
  intros Hv Hzone Hoff0 rule_id hash.
  assert (Hutc : utcoffset restart_time = off) by (unfold utcoffset; rewrite Hzone; reflexivity).
  assert (Hinstant : instant restart_time = wall restart_time - off)
    by (unfold instant; rewrite Hutc; reflexivity).
  assert (Hoff : - us_per_day < utcoffset restart_time < us_per_day)
    by (rewrite Hutc; exact Hoff0).
  destruct (resource_hash_shape resource_arn) as [Hlen Hhex].
  split; [reflexivity|]. split; [exact Hlen|]. split; [exact Hhex|].
  split; [| split; [| split]].
  - intros seconds Hs. apply (epoch_seconds_whole restart_time seconds Hv Hoff).
    rewrite Hinstant. exact Hs.
  - rewrite <- Hinstant. exact (epoch_seconds_near_exact restart_time Hv Hoff).
  - subst rule_id. unfold Planner.rule_name_of.
    rewrite !string_length_append, Hlen.
    pose proof (of_int_length _ (epoch_seconds_range restart_time Hv Hoff)) as Hdigits.
    cbn [String.length]. lia.
  - intros resource_id cluster_name service_name test_mode w h.
    unfold Planner.create_restart_schedule. fold rule_id.
    destruct (truthy test_mode).
    + exists h, (Returned rule_id). unfold ret.
      split; [reflexivity|]. split; [left; reflexivity|].
      split; [auto | discriminate].
    + unfold bind at 1. unfold perform at 1.
      destruct (events_reply w (h ++ [EventsPutRule rule_id _ _])) as [[]|e1] eqn:Hput.
      * unfold bind at 1, os_environ_get, ask.
        destruct (environ_get w "RESTART_EXECUTOR_ARN") as [arn|].
        -- destruct (String.eqb arn "").
           ++ eexists. eexists. unfold raise.
              split; [reflexivity|]. split; [right; eexists; reflexivity|].
              split; [discriminate|]. intros _.
              eexists. eexists. exists []. reflexivity.
           ++ unfold bind, perform, ret.
              destruct (events_reply w ((h ++ [EventsPutRule rule_id _ _])
                                        ++ [EventsPutTargets rule_id arn _]))
                as [[]|e2];
                (eexists; eexists; split; [reflexivity|];
                 split; [first [left; reflexivity | right; eexists; reflexivity]|];
                 split; [discriminate|]; intros _;
                 eexists; eexists; eexists; rewrite <- app_assoc; reflexivity).
        -- eexists. eexists. unfold raise.
           split; [reflexivity|]. split; [right; eexists; reflexivity|].
           split; [discriminate|]. intros _.
           eexists. eexists. exists []. reflexivity.
      * eexists. eexists. split; [reflexivity|].
        split; [right; eexists; reflexivity|].
        split; [discriminate|]. intros _.
        eexists. eexists. exists []. reflexivity.
Qed.

Lemma rule_id_reproducible_and_short_witness :
  Planner.rule_name_of "arn:aws:ecs:us-east-1:111:service/prod-cluster/checkout-svc"
    (Sample.at_time 2025 9 21 4 0 0 (Some timezone_utc))
  = "ecs-restart-076b6842-1758427200"
  /\ (String.length
        (Planner.rule_name_of
           "arn:aws:ecs:us-east-1:111:service/prod-cluster/checkout-svc"
           (Sample.at_time 2025 9 21 4 0 0 (Some timezone_utc))) <= 64)%nat.
Proof.
  destruct (rule_id_reproducible_and_short
              "arn:aws:ecs:us-east-1:111:service/prod-cluster/checkout-svc"
              (Sample.at_time 2025 9 21 4 0 0 (Some timezone_utc)) timezone_utc)
    as [_ [_ [_ [_ [_ [Hshort _]]]]]].
  - vm_compute. reflexivity.
  - reflexivity.
  - vm_compute. split; reflexivity.
  - split; [vm_compute; reflexivity | exact Hshort].
Defined.

(** A fire time one microsecond short of a second, far enough from the
    epoch: the float rounds to the next second, and the identifier
    carries that second. *)
Example rule_id_when_the_float_rounds_up :
  Planner.rule_name_of "arn:aws:ecs:us-east-1:111:service/prod-cluster/checkout-svc"
    (mkDT (wall (Sample.at_time 2600 1 1 0 0 0 None) + 999999) (Some timezone_utc))
  = "ecs-restart-076b6842-19880899201".
Proof. vm_compute. reflexivity. Qed.

(** ** The scenarios of the specification, run end to end *)

(** A window inside the National Day holiday, in test mode: the rule
    identifier is computed, no rule is created, one notification is
    emitted. *)
Example planner_conflict_in_test_mode :
  Planner.lambda_handler
    (Sample.planner_event "2025-10-02T00:00:00Z" "2025-10-03T00:00:00Z" true)
    Sample.quiet []
  = ([ SsmGetParameter "/ecs-phd-restart/spring-festival/2025";
       SsmPutParameter "/ecs-phd-restart/spring-festival/2025"
         (Sample.at_time 2025 1 29 0 0 0 (Some Planner.china_tz))
         (Sample.at_time 2025 2 5 23 59 59 (Some Planner.china_tz));
       ClockNow; ClockNow;
       LogNotification
         (PhdEarlyRestart "prod-cluster/checkout-svc"
            (Sample.at_time 2025 9 20 3 55 0 (Some timezone_utc))
            (Sample.at_time 2025 10 2 0 0 0 (Some timezone_utc))
            (Sample.at_time 2025 10 3 0 0 0 (Some timezone_utc)) 11
            (Sample.at_time 2025 9 21 4 0 0 (Some timezone_utc)) (JBool true)) ],
     Returned (mkResponse 200
                 (BodyPlanned 1 (Sample.at_time 2025 9 21 4 0 0 (Some timezone_utc))
                    (JBool true)))).
Proof. vm_compute. reflexivity. Qed.

(** The same window outside test mode, with no executor configured: the
    rule is put, the missing [RESTART_EXECUTOR_ARN] raises, and the
    handler answers 500 after an error notification. *)
Example planner_conflict_without_executor :
  map (fun c => is_schedule_call c)
      (fst (Planner.lambda_handler
              (Sample.planner_event "2025-10-02T00:00:00Z" "2025-10-03T00:00:00Z" false)
              Sample.quiet []))
  = [false; false; false; true; false; false]
  /\ match snd (Planner.lambda_handler
                  (Sample.planner_event "2025-10-02T00:00:00Z" "2025-10-03T00:00:00Z" false)
                  Sample.quiet []) with
     | Returned resp => statusCode resp = 500
     | Raised _ => False
     end.
Proof. vm_compute. split; reflexivity. Qed.

(** A window in June: no conflict, no schedule, one notification. *)
Example planner_no_conflict :
  Planner.lambda_handler
    (Sample.planner_event "2025-06-01T00:00:00Z" "2025-06-02T00:00:00Z" false)
    Sample.quiet []
  = ([ SsmGetParameter "/ecs-phd-restart/spring-festival/2025";
       SsmPutParameter "/ecs-phd-restart/spring-festival/2025"
         (Sample.at_time 2025 1 29 0 0 0 (Some Planner.china_tz))
         (Sample.at_time 2025 2 5 23 59 59 (Some Planner.china_tz));
       ClockNow;
       LogNotification
         (PhdNoActionNeeded
            (Sample.at_time 2025 6 1 0 0 0 (Some timezone_utc))
            (Sample.at_time 2025 6 2 0 0 0 (Some timezone_utc)) (-112) (JBool false)) ],
     Returned (mkResponse 200 (BodyText "No holiday conflict detected"))).
Proof. vm_compute. reflexivity. Qed.

(** The executor outside test mode: restart, cleanup, notification. *)
Example executor_live_run :
  map (fun c => (is_restart_call c, is_cleanup_call c))
      (fst (Executor.lambda_handler (Sample.executor_event false) Sample.quiet []))
  = [(true, false); (false, true); (false, true); (false, false); (false, false)]
  /\ map notified_status
       (notifications_in
          (fst (Executor.lambda_handler (Sample.executor_event false) Sample.quiet [])))
     = [Some "SUCCESS"].
Proof. vm_compute. split; reflexivity. Qed.

(** * Further properties of the code *)

(** ** The movable-blackout resolver *)

Lemma datetime_new_fields (year month day hour minute second : Z) (tz : option Z)
    (d : datetime) :
  datetime_new year month day hour minute second tz = Returned d ->
  wall d = (Calendar.ymd2ord year month day - 1) * us_per_day
           + hour * us_per_hour + minute * us_per_minute + second * us_per_second
  /\ tzinfo d = tz.
Proof.
  unfold datetime_new. intros H.
  repeat match type of H with
         | (if ?c then _ else _) = _ => destruct c; [discriminate H|]
         end.
  injection H as <-. split; reflexivity.
Qed.

(** What the built-in table and the synthesized default deliver. *)
Lemma get_default_spring_festival_dates_value (year : Z) (w : world) (h : history) :
  Calendar.MINYEAR <= year <= Calendar.MAXYEAR ->
  exists s e,
    Planner.get_default_spring_festival_dates year w h = (h, Returned (s, e))
    /\ tzinfo s = Some timezone_utc /\ tzinfo e = Some timezone_utc
    /\ wall e - wall s = 8 * us_per_day - us_per_second
    /\ 0 <= wall s
    /\ wall e < national_day_start_instant year
    /\ (Planner.table_get Planner.spring_festival_dates year = None ->
        wall s = (Calendar.ymd2ord year 2 1 - 1) * us_per_day - 8 * us_per_hour).
Proof.
  intros Hy.
  pose proof (days_before_year_range year Hy) as Hdby.
  destruct (china_day_to_utc year 2 1 0 0 0 Hy) as [fs [Hs [_ [Has _]]]]; try lia.
  destruct (china_day_to_utc year 2 8 23 59 59 Hy) as [fe [He [_ [Hae _]]]]; try lia.
  destruct (datetime_new_fields _ _ _ _ _ _ _ _ Hs) as [Hws _].
  destruct (datetime_new_fields _ _ _ _ _ _ _ _ He) as [Hwe _].
  unfold Planner.get_default_spring_festival_dates, bind, lift, ret, Planner.china_days.
  rewrite Hs, He.
  unfold Planner.spring_festival_dates, Planner.table_get.
  repeat match goal with
         | |- context [if ?y =? year then _ else _] =>
             let E := fresh "E" in
             destruct (y =? year) eqn:E;
             [ apply Z.eqb_eq in E; subst year;
               eexists; eexists; split; [cbv; reflexivity|];
               vm_compute;
               repeat split; try reflexivity; try discriminate;
               intros Habs; discriminate Habs
             | ]
         end.
  cbn [fst snd]. rewrite Has, Hae.
  eexists. eexists. split; [reflexivity|].
  cbn [wall tzinfo]. rewrite Hws, Hwe.
  unfold national_day_start_instant, Planner.china_tz, timezone_hours,
    Calendar.ymd2ord, Calendar.days_before_month,
    us_per_day, us_per_hour, us_per_minute, us_per_second.
  destruct (Calendar.is_leap year); cbn [andb Z.ltb Z.compare Pos.compare
    Pos.compare_cont Calendar.days_before_month_tbl];
    repeat split; try reflexivity; try lia.
Qed.

Lemma national_day_instants_in_range (year : Z) :
  Calendar.MINYEAR <= year <= Calendar.MAXYEAR ->
  0 <= national_day_start_instant year
  /\ national_day_start_instant year < national_day_end_instant year
  /\ national_day_end_instant year < Calendar.MAXORDINAL * us_per_day.
Proof.
  intros Hy. pose proof (days_before_year_range year Hy) as Hdby.
  unfold national_day_start_instant, national_day_end_instant, Calendar.ymd2ord,
    Calendar.days_before_month, Calendar.MAXORDINAL,
    us_per_day, us_per_hour, us_per_second.
  destruct (Calendar.is_leap year); cbn [andb Z.ltb Z.compare Pos.compare
    Pos.compare_cont Calendar.days_before_month_tbl]; lia.
Qed.

(** X1: for every representable year the built-in resolver makes no call
    and returns a UTC interval that starts before it ends, lasts eight
    days less one second, lies within the range of [datetime], and ends
    before that year's National Day holiday starts. *)
Theorem default_spring_festival_interval (year : Z) (w : world) (h : history) :
  Calendar.MINYEAR <= year <= Calendar.MAXYEAR ->
  exists s e,
    Planner.get_default_spring_festival_dates year w h = (h, Returned (s, e))
    /\ tzinfo s = Some timezone_utc /\ tzinfo e = Some timezone_utc
    /\ instant s < instant e
    /\ instant e - instant s = 8 * us_per_day - us_per_second
    /\ dt_valid s /\ dt_valid e
    /\ instant e < national_day_start_instant year.
Proof.
  intros Hy.
  destruct (get_default_spring_festival_dates_value year w h Hy)
    as [s [e [Hrun [Hs [He [Hspan [Hlow [Hhigh _]]]]]]]].
  destruct (national_day_instants_in_range year Hy) as [_ [Hnd1 Hnd2]].
  exists s, e. split; [exact Hrun|]. split; [exact Hs|]. split; [exact He|].
  unfold instant, utcoffset. rewrite Hs, He. unfold timezone_utc.
  rewrite !dt_valid_bounds.
  unfold us_per_day, us_per_second, national_day_end_instant, Calendar.MAXORDINAL in *.
  repeat split; lia.
Qed.

Lemma default_spring_festival_interval_witness :
  exists s e,
    Planner.get_default_spring_festival_dates 2031 Sample.quiet [] = ([], Returned (s, e))
    /\ instant e - instant s = 8 * us_per_day - us_per_second.
Proof.
  destruct (default_spring_festival_interval 2031 Sample.quiet [])
    as [s [e [Hrun [_ [_ [_ [Hspan _]]]]]]].
  - vm_compute. split; discriminate.
  - exists s, e. split; [exact Hrun | exact Hspan].
Defined.

Lemma get_default_spring_festival_dates_pure (year : Z) (w w' : world) (h h' : history) :
  Planner.get_default_spring_festival_dates year w h
  = (h, snd (Planner.get_default_spring_festival_dates year w' h')).
Proof.
  unfold Planner.get_default_spring_festival_dates, bind, lift, ret.
  destruct (Planner.china_days (year, 2, 1) (year, 2, 8)) as [fallback | e];
    [| reflexivity].
  destruct (Planner.table_get Planner.spring_festival_dates year) as [[first last] |].
  - destruct (Planner.china_days first last) as [dates | e]; [| reflexivity].
    destruct (astimezone (fst dates) timezone_utc); [| reflexivity].
    destruct (astimezone (snd dates) timezone_utc); reflexivity.
  - destruct (astimezone (fst fallback) timezone_utc); [| reflexivity].
    destruct (astimezone (snd fallback) timezone_utc); reflexivity.
Qed.

(** X2: when the parameter store cannot be read (any failure other than
    not-found), or the stored value lacks its [start] or [end] key, the
    resolver returns the built-in dates after that single read and writes
    nothing back. *)
Theorem spring_festival_falls_back_on_failure (year : Z) (w : world) (h : history) :
  Calendar.MINYEAR <= year <= Calendar.MAXYEAR ->
  (exists err,
      ssm_get_parameter w (h ++ [SsmGetParameter (Planner.parameter_name year)])
      = SsmFailure err)
  \/ (exists dates_config err,
        ssm_get_parameter w (h ++ [SsmGetParameter (Planner.parameter_name year)])
        = ParameterFound dates_config
        /\ (json_getitem dates_config "start" = Raised err
            \/ json_getitem dates_config "end" = Raised err)) ->
  exists s e,
    Planner.get_default_spring_festival_dates year w h = (h, Returned (s, e))
    /\ Planner.get_spring_festival_dates year w h
       = (h ++ [SsmGetParameter (Planner.parameter_name year)], Returned (s, e)).
Proof.
  intros Hy Hfail.
  destruct (get_default_spring_festival_dates_value year w h Hy)
    as [s [e [Hrun _]]].
  exists s, e. split; [exact Hrun|].
  assert (Hdefault :
            Planner.get_default_spring_festival_dates year w
              (h ++ [SsmGetParameter (Planner.parameter_name year)])
            = (h ++ [SsmGetParameter (Planner.parameter_name year)], Returned (s, e))).
  { rewrite (get_default_spring_festival_dates_pure year w w _ h), Hrun. reflexivity. }
  unfold Planner.get_spring_festival_dates, try_except, bind at 1, perform.
  destruct Hfail as [[err Hget] | [cfg [err [Hget Hkey]]]]; rewrite Hget.
  - unfold raise. exact Hdefault.
  - unfold bind, lift.
    destruct Hkey as [Hkey | Hkey].
    + rewrite Hkey. exact Hdefault.
    + destruct (json_getitem cfg "start") as [start_str | e1]; [| exact Hdefault].
      destruct (datetime_fromisoformat start_str w
                  (h ++ [SsmGetParameter (Planner.parameter_name year)]))
        as [h1 [d1 | e1]] eqn:Hparse.
      * assert (h1 = h ++ [SsmGetParameter (Planner.parameter_name year)]) as ->.
        { destruct start_str; cbn in Hparse; injection Hparse as <- _; reflexivity. }
        rewrite Hkey. exact Hdefault.
      * assert (h1 = h ++ [SsmGetParameter (Planner.parameter_name year)]) as ->.
        { destruct start_str; cbn in Hparse; injection Hparse as <- _; reflexivity. }
        exact Hdefault.
Qed.

Lemma spring_festival_falls_back_on_failure_witness :
  exists s e,
    Planner.get_spring_festival_dates 2025 Sample.unreachable []
    = ([SsmGetParameter (Planner.parameter_name 2025)], Returned (s, e)).
Proof.
  destruct (spring_festival_falls_back_on_failure 2025 Sample.unreachable [])
    as [s [e [_ Hrun]]].
  - vm_compute. split; discriminate.
  - left. eexists. reflexivity.
  - exists s, e. exact Hrun.
Defined.

(** X3: when the parameter store has no entry for the year, the resolver
    returns the built-in dates and writes them back once, as the same
    instants on the China wall clock; whether that write succeeds or
    fails changes neither the result nor the calls made. *)
Theorem spring_festival_seeds_store_when_missing (year : Z) (w : world) (h : history) :
  Calendar.MINYEAR <= year <= Calendar.MAXYEAR ->
  ssm_get_parameter w (h ++ [SsmGetParameter (Planner.parameter_name year)])
  = ParameterNotFound ->
  exists s e,
    Planner.get_default_spring_festival_dates year w h = (h, Returned (s, e))
    /\ Planner.get_spring_festival_dates year w h
       = (h ++ [ SsmGetParameter (Planner.parameter_name year);
                 SsmPutParameter (Planner.parameter_name year)
                   (mkDT (wall s + Planner.china_tz) (Some Planner.china_tz))
                   (mkDT (wall e + Planner.china_tz) (Some Planner.china_tz)) ],
          Returned (s, e))
    /\ instant (mkDT (wall s + Planner.china_tz) (Some Planner.china_tz)) = instant s
    /\ instant (mkDT (wall e + Planner.china_tz) (Some Planner.china_tz)) = instant e.
Proof.
  intros Hy Hget.
  destruct (get_default_spring_festival_dates_value year w h Hy)
    as [s [e [Hrun [Hs [He [Hspan [Hlow [Hhigh _]]]]]]]].
  destruct (national_day_instants_in_range year Hy) as [_ [Hnd1 Hnd2]].
  exists s, e. split; [exact Hrun|].
  assert (Hrange : forall d, tzinfo d = Some timezone_utc ->
                     0 <= wall d -> wall d < national_day_start_instant year ->
                     astimezone d Planner.china_tz
                     = Returned (mkDT (wall d + Planner.china_tz) (Some Planner.china_tz))).
  { intros d Hd H0 H1.
    rewrite astimezone_in_range; unfold utcoffset; rewrite Hd; unfold timezone_utc;
      rewrite ?Z.sub_0_r; try reflexivity; apply wall_in_range_iff;
      unfold Planner.china_tz, timezone_hours, national_day_end_instant,
        Calendar.MAXORDINAL, us_per_day, us_per_hour, us_per_second in *; lia. }
  split; [| split].
  - unfold Planner.get_spring_festival_dates, try_except, bind at 1, perform.
    rewrite Hget. unfold bind at 1.
    rewrite (get_default_spring_festival_dates_pure year w w _ h), Hrun.
    cbn [snd fst]. unfold bind at 1. unfold try_except, bind, lift, perform, ret.
    rewrite (Hrange s Hs Hlow) by (unfold us_per_day, us_per_second in *; lia).
    rewrite (Hrange e He) by (unfold us_per_day, us_per_second in *; lia).
    destruct (ssm_put_parameter w _) as [[] | err];
      rewrite <- app_assoc; reflexivity.
  - unfold instant, utcoffset. cbn [wall tzinfo]. rewrite Hs. unfold timezone_utc. lia.
  - unfold instant, utcoffset. cbn [wall tzinfo]. rewrite He. unfold timezone_utc. lia.
Qed.

Lemma spring_festival_seeds_store_when_missing_witness :
  exists s e,
    Planner.get_spring_festival_dates 2025 Sample.quiet []
    = ([ SsmGetParameter (Planner.parameter_name 2025);
         SsmPutParameter (Planner.parameter_name 2025)
           (mkDT (wall s + Planner.china_tz) (Some Planner.china_tz))
           (mkDT (wall e + Planner.china_tz) (Some Planner.china_tz)) ],
        Returned (s, e)).
Proof.
  destruct (spring_festival_seeds_store_when_missing 2025 Sample.quiet [])
    as [s [e [_ [Hrun _]]]].
  - vm_compute. split; discriminate.
  - reflexivity.
  - exists s, e. exact Hrun.
Defined.

(** An override whose dates carry a zone is converted to UTC. *)
Lemma get_spring_festival_dates_aware_override
    (year : Z) (w : world) (h : history) (dates_config : json)
    (s1 s2 : string) (d1 d2 : datetime) (o1 o2 : Z) :
  ssm_get_parameter w (h ++ [SsmGetParameter (Planner.parameter_name year)])
  = ParameterFound dates_config ->
  json_getitem dates_config "start" = Returned (JStr s1) ->
  json_getitem dates_config "end" = Returned (JStr s2) ->
  fromisoformat w s1 = Returned d1 -> fromisoformat w s2 = Returned d2 ->
  tzinfo d1 = Some o1 -> tzinfo d2 = Some o2 ->
  wall_in_range (instant d1) = true ->
  wall_in_range (instant d2) = true ->
  Planner.get_spring_festival_dates year w h
  = (h ++ [SsmGetParameter (Planner.parameter_name year)],
     Returned (mkDT (instant d1) (Some timezone_utc),
               mkDT (instant d2) (Some timezone_utc))).
Proof.
  intros Hget Hstart Hend Hp1 Hp2 Hz1 Hz2 Hr1 Hr2.
  unfold Planner.get_spring_festival_dates, try_except, bind, perform, lift, ret.
  rewrite Hget, Hstart. cbn [datetime_fromisoformat]. rewrite Hp1, Hend.
  cbn [datetime_fromisoformat]. rewrite Hp2.
  unfold default_tzinfo. rewrite Hz1, Hz2.
  unfold instant in *.
  rewrite !astimezone_in_range; unfold timezone_utc; rewrite ?Z.add_0_r;
    try assumption.
  reflexivity.
Qed.

(** X4: the override is taken as stored: dates with an explicit zone are
    converted to UTC with their instants unchanged, nothing is written
    back, and the order of the two dates is not checked. *)
Theorem spring_festival_override_keeps_instants
    (year : Z) (w : world) (h : history) (dates_config : json)
    (s1 s2 : string) (d1 d2 : datetime) (o1 o2 : Z) :
  ssm_get_parameter w (h ++ [SsmGetParameter (Planner.parameter_name year)])
  = ParameterFound dates_config ->
  json_getitem dates_config "start" = Returned (JStr s1) ->
  json_getitem dates_config "end" = Returned (JStr s2) ->
  fromisoformat w s1 = Returned d1 -> fromisoformat w s2 = Returned d2 ->
  tzinfo d1 = Some o1 -> tzinfo d2 = Some o2 ->
  wall_in_range (instant d1) = true ->
  wall_in_range (instant d2) = true ->
  exists s e,
    Planner.get_spring_festival_dates year w h
    = (h ++ [SsmGetParameter (Planner.parameter_name year)], Returned (s, e))
    /\ tzinfo s = Some timezone_utc /\ tzinfo e = Some timezone_utc
    /\ instant s = instant d1 /\ instant e = instant d2.
Proof.
  intros Hget Hstart Hend Hp1 Hp2 Hz1 Hz2 Hr1 Hr2.
  eexists. eexists.
  split; [exact (get_spring_festival_dates_aware_override _ _ _ _ _ _ _ _ _ _
                   Hget Hstart Hend Hp1 Hp2 Hz1 Hz2 Hr1 Hr2)|].
  split; [reflexivity|]. split; [reflexivity|].
  split; unfold instant at 1, utcoffset at 1, timezone_utc; cbn [wall tzinfo]; lia.
Qed.

Lemma spring_festival_override_keeps_instants_witness :
  exists s e,
    Planner.get_spring_festival_dates 2025 Sample.seeded []
    = ([SsmGetParameter (Planner.parameter_name 2025)], Returned (s, e))
    /\ instant s = instant (Sample.at_time 2025 1 29 0 0 0 (Some Planner.china_tz)).
Proof.
  destruct (spring_festival_override_keeps_instants 2025 Sample.seeded []
              Sample.seeded_config
              "2025-01-29T00:00:00+08:00" "2025-02-05T23:59:59+08:00"
              (Sample.at_time 2025 1 29 0 0 0 (Some Planner.china_tz))
              (Sample.at_time 2025 2 5 23 59 59 (Some Planner.china_tz))
              Planner.china_tz Planner.china_tz)
    as [s [e [Hrun [_ [_ [Hs _]]]]]]; try (vm_compute; reflexivity).
  exists s, e. split; [exact Hrun | exact Hs].
Defined.

(** X5: what the resolver writes back is what it will read: if a later
    lookup finds the dates that were written (on the China wall clock),
    the resolver returns the same interval as the built-in one. *)
Theorem spring_festival_seed_round_trip
    (year : Z) (w w' : world) (h h' : history) (dates_config : json) (s1 s2 : string) :
  Calendar.MINYEAR <= year <= Calendar.MAXYEAR ->
  ssm_get_parameter w' (h' ++ [SsmGetParameter (Planner.parameter_name year)])
  = ParameterFound dates_config ->
  json_getitem dates_config "start" = Returned (JStr s1) ->
  json_getitem dates_config "end" = Returned (JStr s2) ->
  (forall s e,
      Planner.get_default_spring_festival_dates year w h = (h, Returned (s, e)) ->
      fromisoformat w' s1
      = Returned (mkDT (wall s + Planner.china_tz) (Some Planner.china_tz))
      /\ fromisoformat w' s2
         = Returned (mkDT (wall e + Planner.china_tz) (Some Planner.china_tz))) ->
  exists s e,
    Planner.get_default_spring_festival_dates year w h = (h, Returned (s, e))
    /\ Planner.get_spring_festival_dates year w' h'
       = (h' ++ [SsmGetParameter (Planner.parameter_name year)], Returned (s, e)).
Proof.
  intros Hy Hget Hstart Hend Hparse.
  destruct (get_default_spring_festival_dates_value year w h Hy)
    as [s [e [Hrun [Hs [He [Hspan [Hlow [Hhigh _]]]]]]]].
  destruct (national_day_instants_in_range year Hy) as [_ [Hnd1 Hnd2]].
  destruct (Hparse s e Hrun) as [Hp1 Hp2].
  exists s, e. split; [exact Hrun|].
  rewrite (get_spring_festival_dates_aware_override year w' h' dates_config s1 s2
             _ _ Planner.china_tz Planner.china_tz Hget Hstart Hend Hp1 Hp2
             eq_refl eq_refl).
  - unfold instant, utcoffset. cbn [wall tzinfo].
    destruct s as [ws tzs], e as [we tze]. cbn [wall tzinfo] in *. subst tzs tze.
    repeat f_equal; lia.
  - apply wall_in_range_iff. unfold instant, utcoffset. cbn [wall tzinfo].
    unfold national_day_end_instant, Calendar.MAXORDINAL, us_per_day, us_per_second in *.
    lia.
  - apply wall_in_range_iff. unfold instant, utcoffset. cbn [wall tzinfo].
    unfold national_day_end_instant, Calendar.MAXORDINAL, us_per_day, us_per_second in *.
    lia.
Qed.


Lemma spring_festival_seed_round_trip_witness :
  exists s e,
    Planner.get_default_spring_festival_dates 2025 Sample.quiet [] = ([], Returned (s, e))
    /\ Planner.get_spring_festival_dates 2025 Sample.seeded []
       = ([SsmGetParameter (Planner.parameter_name 2025)], Returned (s, e)).
Proof.
  apply (spring_festival_seed_round_trip 2025 Sample.quiet Sample.seeded [] []
           Sample.seeded_config
           "2025-01-29T00:00:00+08:00" "2025-02-05T23:59:59+08:00").
  - vm_compute. split; discriminate.
  - reflexivity.
  - reflexivity.
  - reflexivity.
  - intros s e Hrun. vm_compute in Hrun. injection Hrun as <- <-.
    vm_compute. split; reflexivity.
Defined.

(** ** More on the blackout-overlap engine *)

(** Without an override the catalogue holds the built-in Spring Festival. *)
Lemma get_spring_festival_dates_without_override (year : Z) (w : world) (h : history) :
  Calendar.MINYEAR <= year <= Calendar.MAXYEAR ->
  (forall dates_config,
      ssm_get_parameter w (h ++ [SsmGetParameter (Planner.parameter_name year)])
      <> ParameterFound dates_config) ->
  exists h' s e,
    Planner.get_default_spring_festival_dates year w h = (h, Returned (s, e))
    /\ Planner.get_spring_festival_dates year w h = (h', Returned (s, e)).
Proof.
  intros Hy Hnone.
  destruct (get_default_spring_festival_dates_value year w h Hy) as [s [e [Hrun _]]].
  assert (Hdefault : forall h0,
            Planner.get_default_spring_festival_dates year w h0 = (h0, Returned (s, e))).
  { intros h0. rewrite (get_default_spring_festival_dates_pure year w w h0 h), Hrun.
    reflexivity. }
  assert (Hspring : exists h',
            Planner.get_spring_festival_dates year w h = (h', Returned (s, e))).
  { unfold Planner.get_spring_festival_dates. unfold try_except at 1.
    unfold bind at 1, perform at 1.
    destruct (ssm_get_parameter w (h ++ [SsmGetParameter (Planner.parameter_name year)]))
      as [cfg | | err] eqn:Hget.
    - exfalso. exact (Hnone cfg eq_refl).
    - unfold bind at 1. rewrite Hdefault. unfold bind at 1.
      match goal with
      | |- context [try_except ?m ?k w ?h0] =>
          destruct (try_except m k w h0) as [h1 [[] | err]]
      end.
      + eexists. reflexivity.
      + exists h1. apply Hdefault.
    - unfold raise. eexists. apply Hdefault. }
  destruct Hspring as [h' Hspring].
  exists h', s, e. split; assumption.
Qed.

Lemma after_national_day_end (year a b : Z) :
  national_day_end_instant year < a ->
  b + Planner.china_tz
  = (Calendar.ymd2ord year 10 8 - 1) * us_per_day + (us_per_day - us_per_second) ->
  a <= b -> False.
Proof.
  unfold national_day_end_instant, Planner.china_tz, timezone_hours,
    us_per_day, us_per_hour, us_per_second.
  lia.
Qed.

(** X6: the catalogue is keyed by the year in which the window starts.
    With no override in the parameter store, a window that starts after
    that year's National Day holiday has ended is never in conflict,
    however far its end reaches, the next year's holidays included. *)
Theorem window_after_national_day_never_conflicts
    (ms me : datetime) (w : world) (h : history) :
  dt_valid ms ->
  (forall dates_config,
      ssm_get_parameter w (h ++ [SsmGetParameter (Planner.parameter_name (dt_year ms))])
      <> ParameterFound dates_config) ->
  national_day_end_instant (dt_year ms) < instant (default_tzinfo ms timezone_utc) ->
  snd (Planner.check_holiday_conflict ms me w h) = Returned false.
Proof.
  intros Hv Hnone Hafter.
  pose proof (dt_year_range ms Hv) as Hy.
  destruct (check_holiday_conflict_spec ms me w h Hv) as [h' [hol [b [Hhol [Hrun Hb]]]]].
  destruct (holidays_of_returns (dt_year ms) w h Hy)
    as [h2 [nd [sf [Hhol2 [Hsf [_ Hnd]]]]]].
  rewrite Hhol in Hhol2. injection Hhol2 as -> ->.
  destruct (get_spring_festival_dates_without_override (dt_year ms) w h Hy Hnone)
    as [h3 [s [e [Hdef Hsf2]]]].
  rewrite Hsf in Hsf2. injection Hsf2 as -> ->.
  destruct (get_default_spring_festival_dates_value (dt_year ms) w h Hy)
    as [s' [e' [Hdef' [_ [He [_ [_ [Hhigh _]]]]]]]].
  rewrite Hdef in Hdef'. injection Hdef' as <- <-.
  destruct (national_day_instants_in_range (dt_year ms) Hy) as [_ [Hnd1 _]].
  rewrite Hrun. cbn [snd]. f_equal.
  destruct b; [| reflexivity]. exfalso.
  destruct (proj1 Hb eq_refl) as [ib [[Hib | [Hib | []]] [Hstart _]]]; subst ib;
    cbn [snd] in Hstart.
  - exact (after_national_day_end _ _ _ Hafter Hnd Hstart).
  - clear - Hafter Hhigh Hnd1 He Hstart.
    unfold instant at 2 in Hstart. unfold utcoffset in Hstart. rewrite He in Hstart.
    unfold timezone_utc in Hafter, Hstart. lia.
Qed.

Lemma window_after_national_day_never_conflicts_witness :
  snd (Planner.check_holiday_conflict
         (Sample.at_time 2025 12 20 0 0 0 (Some timezone_utc))
         (Sample.at_time 2026 3 1 0 0 0 (Some timezone_utc)) Sample.quiet [])
  = Returned false.
Proof.
  apply window_after_national_day_never_conflicts.
  - vm_compute. reflexivity.
  - intros cfg. discriminate.
  - vm_compute. reflexivity.
Defined.

(** X7: widening a window never removes a conflict: if a window is in
    conflict, so is every window that starts in the same year no later
    and ends no earlier. *)
Theorem widening_keeps_conflict (ms me ms' me' : datetime) (w : world) (h : history) :
  dt_valid ms -> dt_valid ms' ->
  dt_year ms' = dt_year ms ->
  instant (default_tzinfo ms' timezone_utc) <= instant (default_tzinfo ms timezone_utc) ->
  instant (default_tzinfo me timezone_utc) <= instant (default_tzinfo me' timezone_utc) ->
  snd (Planner.check_holiday_conflict ms me w h) = Returned true ->
  snd (Planner.check_holiday_conflict ms' me' w h) = Returned true.
Proof.
  intros Hv Hv' Hyear Hstart Hend Hconflict.
  destruct (check_holiday_conflict_spec ms me w h Hv) as [h1 [hol [b [Hhol [Hrun Hb]]]]].
  destruct (check_holiday_conflict_spec ms' me' w h Hv')
    as [h2 [hol' [b' [Hhol' [Hrun' Hb']]]]].
  rewrite Hyear, Hhol in Hhol'. injection Hhol' as <- <-.
  rewrite Hrun in Hconflict. cbn [snd] in Hconflict. injection Hconflict as ->.
  rewrite Hrun'. cbn [snd]. f_equal. apply Hb'.
  destruct (proj1 Hb eq_refl) as [ib [Hin [H1 H2]]].
  exists ib. split; [exact Hin | lia].
Qed.

Lemma widening_keeps_conflict_witness :
  snd (Planner.check_holiday_conflict
         (Sample.at_time 2025 9 1 0 0 0 (Some timezone_utc))
         (Sample.at_time 2025 11 1 0 0 0 (Some timezone_utc)) Sample.quiet [])
  = Returned true.
Proof.
  apply (widening_keeps_conflict
           (Sample.at_time 2025 10 2 0 0 0 (Some timezone_utc))
           (Sample.at_time 2025 10 3 0 0 0 (Some timezone_utc))).
  - vm_compute. reflexivity.
  - vm_compute. reflexivity.
  - vm_compute. reflexivity.
  - vm_compute. discriminate.
  - vm_compute. discriminate.
  - vm_compute. reflexivity.
Defined.

(** ** More on the restart-time calculator *)

Lemma four_am_fields (k : Z) :
  let t := k * us_per_day + 4 * us_per_hour in
  (t mod us_per_day) / us_per_hour = 4
  /\ (t mod us_per_hour) / us_per_minute = 0
  /\ (t mod us_per_minute) / us_per_second = 0
  /\ t mod us_per_second = 0.
Proof.
  unfold us_per_day, us_per_hour, us_per_minute, us_per_second. cbv zeta.
  repeat split; Z.div_mod_to_equations; lia.
Qed.

Lemma next_4am_arith (t : Z) :
  0 <= t ->
  let late := (4 <=? (t mod us_per_day) / us_per_hour)
              || (((t mod us_per_day) / us_per_hour =? 3)
                  && (50 <=? (t mod us_per_hour) / us_per_minute)) in
  let r := t - t mod us_per_day + 4 * us_per_hour
           + (if late then us_per_day else 0) in
  r = (t / us_per_day + (if late then 1 else 0)) * us_per_day + 4 * us_per_hour
  /\ t + 10 * us_per_minute <= r <= t + us_per_day + 10 * us_per_minute.
Proof.
  intros Ht. cbv zeta.
  destruct ((4 <=? (t mod us_per_day) / us_per_hour)
            || (((t mod us_per_day) / us_per_hour =? 3)
                && (50 <=? (t mod us_per_hour) / us_per_minute))) eqn:G.
  - apply orb_prop in G.
    assert (Hlate : 4 <= (t mod us_per_day) / us_per_hour
                    \/ ((t mod us_per_day) / us_per_hour = 3
                        /\ 50 <= (t mod us_per_hour) / us_per_minute)).
    { destruct G as [G | G]; [left; apply Z.leb_le; exact G|].
      apply andb_prop in G. destruct G as [G1 G2].
      right. split; [apply Z.eqb_eq; exact G1 | apply Z.leb_le; exact G2]. }
    clear G. unfold us_per_day, us_per_hour, us_per_minute, us_per_second in *.
    Z.div_mod_to_equations. lia.
  - apply orb_false_elim in G. destruct G as [G1 G2]. apply Z.leb_gt in G1.
    assert (Hearly : (t mod us_per_day) / us_per_hour <> 3
                     \/ (t mod us_per_hour) / us_per_minute < 50).
    { apply andb_false_elim in G2. destruct G2 as [G2 | G2].
      - left. apply Z.eqb_neq. exact G2.
      - right. apply Z.leb_gt. exact G2. }
    clear G2. unfold us_per_day, us_per_hour, us_per_minute, us_per_second in *.
    Z.div_mod_to_equations. lia.
Qed.

Lemma calculate_next_4am_run (w : world) (h : history) :
  wall_in_range
    (clock w (h ++ [ClockNow]) - clock w (h ++ [ClockNow]) mod us_per_day
     + 4 * us_per_hour
     + (if (4 <=? (clock w (h ++ [ClockNow]) mod us_per_day) / us_per_hour)
           || (((clock w (h ++ [ClockNow]) mod us_per_day) / us_per_hour =? 3)
               && (50 <=? (clock w (h ++ [ClockNow]) mod us_per_hour) / us_per_minute))
        then us_per_day else 0)) = true ->
  Planner.calculate_next_4am w h
  = (h ++ [ClockNow],
     Returned
       (mkDT (clock w (h ++ [ClockNow]) - clock w (h ++ [ClockNow]) mod us_per_day
              + 4 * us_per_hour
              + (if (4 <=? (clock w (h ++ [ClockNow]) mod us_per_day) / us_per_hour)
                    || (((clock w (h ++ [ClockNow]) mod us_per_day) / us_per_hour =? 3)
                        && (50 <=? (clock w (h ++ [ClockNow]) mod us_per_hour)
                                   / us_per_minute))
                 then us_per_day else 0))
             (Some timezone_utc))).
Proof.
  unfold Planner.calculate_next_4am, bind, datetime_now_utc, perform, lift, ret.
  unfold dt_hour, dt_minute, replace_time_hour, dt_add. cbn [wall tzinfo].
  generalize (clock w (h ++ [ClockNow])). intros t.
  destruct ((4 <=? (t mod us_per_day) / us_per_hour)
            || (((t mod us_per_day) / us_per_hour =? 3)
                && (50 <=? (t mod us_per_hour) / us_per_minute))).
  - replace (1 * us_per_day) with us_per_day by lia.
    intros Hvalid. rewrite Hvalid. reflexivity.
  - intros _. rewrite Z.add_0_r. reflexivity.
Qed.

Lemma next_4am_facts (t : Z) :
  0 <= t < (Calendar.MAXORDINAL - 1) * us_per_day ->
  let r := t - t mod us_per_day + 4 * us_per_hour
           + (if (4 <=? (t mod us_per_day) / us_per_hour)
                 || (((t mod us_per_day) / us_per_hour =? 3)
                     && (50 <=? (t mod us_per_hour) / us_per_minute))
              then us_per_day else 0) in
  wall_in_range r = true
  /\ r <= t + us_per_day + 10 * us_per_minute
  /\ (r mod us_per_day) / us_per_hour = 4
  /\ (r mod us_per_hour) / us_per_minute = 0
  /\ (r mod us_per_minute) / us_per_second = 0
  /\ r mod us_per_second = 0.
Proof.
  intros Hrange.
  destruct (next_4am_arith t (proj1 Hrange)) as [Hr Hbound].
  cbv zeta in *.
  generalize dependent
    ((4 <=? (t mod us_per_day) / us_per_hour)
     || (((t mod us_per_day) / us_per_hour =? 3)
         && (50 <=? (t mod us_per_hour) / us_per_minute))).
  intros late Hr Hbound.
  destruct (four_am_fields (t / us_per_day + (if late then 1 else 0)))
    as [Hh [Hm [Hs Hus]]].
  cbv zeta in Hh, Hm, Hs, Hus. rewrite <- Hr in Hh, Hm, Hs, Hus.
  split; [| split; [lia | repeat split; assumption]].
  apply wall_in_range_iff. rewrite Hr.
  assert (Hq : 0 <= t / us_per_day < Calendar.MAXORDINAL - 1).
  { split; [apply Z.div_pos | apply Z.div_lt_upper_bound];
      unfold us_per_day, us_per_second in *; lia. }
  clear - Hq. revert Hq. generalize (t / us_per_day). intros q Hq.
  unfold Calendar.MAXORDINAL, us_per_day, us_per_hour, us_per_second in *.
  destruct late; lia.
Qed.

(** X8: the fire time the calculator returns is a representable UTC time
    at exactly 04:00:00.000000, at most 24 hours and 10 minutes after the
    clock reading, so the schedule expression built from it always reads
    [cron(0 4 day month ? year)]. *)
Theorem next_4am_is_on_the_hour (w : world) (h : history) :
  0 <= clock w (h ++ [ClockNow]) < (Calendar.MAXORDINAL - 1) * us_per_day ->
  exists next_4am,
    Planner.calculate_next_4am w h = (h ++ [ClockNow], Returned next_4am)
    /\ tzinfo next_4am = Some timezone_utc
    /\ dt_valid next_4am
    /\ instant next_4am <= clock w (h ++ [ClockNow]) + us_per_day + 10 * us_per_minute
    /\ dt_hour next_4am = 4 /\ dt_minute next_4am = 0
    /\ dt_second next_4am = 0 /\ dt_microsecond next_4am = 0
    /\ Planner.cron_expression_of next_4am
       = "cron(0 4 " +++ Str.of_int (dt_day next_4am) +++ " "
         +++ Str.of_int (dt_month next_4am) +++ " ? "
         +++ Str.of_int (dt_year next_4am) +++ ")".
Proof.
  intros Hrange.
  destruct (next_4am_facts _ Hrange) as [Hvalid [Hbound [Hh [Hm [Hs Hus]]]]].
  eexists. split; [exact (calculate_next_4am_run w h Hvalid)|].
  split; [reflexivity|]. split; [exact Hvalid|].
  split; [unfold instant, utcoffset, timezone_utc; cbn [wall tzinfo]; lia|].
  split; [exact Hh|]. split; [exact Hm|]. split; [exact Hs|]. split; [exact Hus|].
  unfold Planner.cron_expression_of.
  match goal with
  | |- context [Str.of_int (dt_minute ?d)] =>
      replace (dt_minute d) with 0 by (symmetry; exact Hm);
      replace (dt_hour d) with 4 by (symmetry; exact Hh);
      generalize (Str.of_int (dt_day d)), (Str.of_int (dt_month d)),
        (Str.of_int (dt_year d))
  end.
  replace (Str.of_int 0) with "0" by (vm_compute; reflexivity).
  replace (Str.of_int 4) with "4" by (vm_compute; reflexivity).
  intros day month year. reflexivity.
Qed.

Lemma next_4am_is_on_the_hour_witness :
  exists next_4am,
    Planner.calculate_next_4am Sample.quiet [] = ([ClockNow], Returned next_4am)
    /\ Planner.cron_expression_of next_4am = "cron(0 4 21 9 ? 2025)".
Proof.
  destruct (next_4am_is_on_the_hour Sample.quiet []) as [r [Hrun Hrest]].
  - vm_compute. split; [discriminate | reflexivity].
  - exists r. split; [exact Hrun|].
    clear Hrest. vm_compute in Hrun. injection Hrun as <-. vm_compute. reflexivity.
Defined.

(** ** More on the schedule-request builder *)






(** ** More on the resource-identity resolver *)

Lemma split_nonempty (s : string) (sep : ascii) : Str.split s sep <> [].
Proof.
  destruct s as [| c rest]; cbn [Str.split]; [discriminate|].
  destruct (Ascii.eqb c sep); [discriminate|].
  destruct (Str.split rest sep); discriminate.
Qed.

(** Splitting at a separator splits the text on each side of it. *)
Lemma split_app_sep (p r : string) (sep : ascii) :
  Str.split (p +++ String sep r) sep = Str.split p sep ++ Str.split r sep.
Proof.
  induction p as [| c p IH]; cbn [String.append Str.split].
  - rewrite Ascii.eqb_refl. reflexivity.
  - destruct (Ascii.eqb c sep); [rewrite IH; reflexivity|].
    rewrite IH. pose proof (split_nonempty p sep) as Hne.
    destruct (Str.split p sep) as [| f fs]; [contradiction|]. reflexivity.
Qed.

Lemma split_no_sep (a : string) (sep : ascii) :
  occurs sep a = false -> Str.split a sep = [a].
Proof.
  induction a as [| c a IH]; cbn [occurs Str.split]; [reflexivity|].
  intros H. apply orb_false_elim in H. destruct H as [Hc Ha].
  rewrite Hc, (IH Ha). reflexivity.
Qed.

Lemma split_app_nosep (a u : string) (sep : ascii) :
  occurs sep a = false ->
  exists f fs, Str.split u sep = f :: fs
               /\ Str.split (a +++ u) sep = (a +++ f) :: fs.
Proof.
  intros Ha. pose proof (split_nonempty u sep) as Hne.
  destruct (Str.split u sep) as [| f fs] eqn:Hu; [contradiction|].
  exists f, fs. split; [reflexivity|].
  induction a as [| c a IH]; cbn [String.append Str.split]; [exact Hu|].
  cbn [occurs] in Ha. apply orb_false_elim in Ha. destruct Ha as [Hc Ha].
  rewrite Hc, (IH Ha). reflexivity.
Qed.

Lemma contains_char (s : string) (c : ascii) :
  Str.contains s (String c EmptyString) = occurs c s.
Proof.
  induction s as [| c' s IH]; cbn [Str.contains occurs String.prefix]; [reflexivity|].
  rewrite IH. destruct (Ascii.ascii_dec c c') as [-> | Hne].
  - rewrite Ascii.eqb_refl. destruct s; reflexivity.
  - replace (Ascii.eqb c' c) with false
      by (symmetry; apply Ascii.eqb_neq; congruence).
    reflexivity.
Qed.

Lemma occurs_app (a b : string) (c : ascii) :
  occurs c (a +++ b) = occurs c a || occurs c b.
Proof.
  induction a as [| c' a IH]; cbn [String.append occurs]; [reflexivity|].
  rewrite IH, orb_assoc. reflexivity.
Qed.

Lemma string_append_assoc (a b c : string) : (a +++ b) +++ c = a +++ (b +++ c).
Proof.
  induction a as [| x a IH]; cbn [String.append]; [reflexivity|].
  rewrite IH. reflexivity.
Qed.

Lemma index_from_end_last2 {A} (front : list A) (x y : A) :
  Str.index_from_end (front ++ [x; y]) 2 = Returned x
  /\ Str.index_from_end (front ++ [x; y]) 1 = Returned y.
Proof.
  unfold Str.index_from_end, Str.index. rewrite rev_app_distr. split; reflexivity.
Qed.

(** The segments of an ECS ARN
    [arn:aws:ecs:region:account:kind/cluster/last]. *)
Lemma arn_segments (region account kind cluster last : string) :
  occurs ":" region = false -> occurs ":" account = false ->
  occurs ":" kind = false -> occurs "/" kind = false ->
  occurs "/" cluster = false -> occurs "/" last = false ->
  let entity_value :=
    "arn:aws:ecs:" +++ region +++ ":" +++ account +++ ":" +++ kind +++ "/"
    +++ cluster +++ "/" +++ last in
  Str.startswith entity_value "arn:aws" = true
  /\ (3 <=? List.length (Str.split entity_value "/"))%nat = true
  /\ (exists segment,
        Str.index (Str.split entity_value ":") 5 = Returned segment
        /\ Str.index (Str.split segment "/") 0 = Returned kind)
  /\ Str.index_from_end (Str.split entity_value "/") 2 = Returned cluster
  /\ Str.index_from_end (Str.split entity_value "/") 1 = Returned last.
Proof.
  intros Hregion Haccount Hkind1 Hkind2 Hcluster Hlast entity_value.
  split; [reflexivity|].
  assert (Hslash : exists front,
            Str.split entity_value "/" = front ++ [cluster; last] /\ front <> []).
  { exists (Str.split ("arn:aws:ecs:" +++ region +++ ":" +++ account +++ ":" +++ kind) "/").
    split; [| apply split_nonempty].
    replace entity_value
      with (("arn:aws:ecs:" +++ region +++ ":" +++ account +++ ":" +++ kind)
            +++ String "/" (cluster +++ String "/" last)).
    - rewrite split_app_sep, split_app_sep.
      rewrite (split_no_sep cluster "/" Hcluster), (split_no_sep last "/" Hlast).
      reflexivity.
    - subst entity_value. rewrite !string_append_assoc. reflexivity. }
  destruct Hslash as [front [Hparts Hfront]].
  rewrite Hparts.
  destruct (index_from_end_last2 front cluster last) as [H2 H1].
  split; [| split; [| split; assumption]].
  - rewrite length_app. cbn [List.length]. apply Nat.leb_le.
    destruct front; [contradiction|]. cbn [List.length]. lia.
  - destruct (split_app_nosep kind (String "/" (cluster +++ String "/" last)) ":" Hkind1)
      as [f [fs [Hu Hseg]]].
    cbn [Str.split] in Hu. change (Ascii.eqb "/" ":") with false in Hu.
    destruct (Str.split (cluster +++ String "/" last) ":") as [| x xs] eqn:Hx;
      [exfalso; exact (split_nonempty _ _ Hx)|].
    injection Hu as <- <-.
    exists (kind +++ String "/" x).
    assert (Hcolon : Str.split entity_value ":"
                     = "arn" :: "aws" :: "ecs" :: region :: account
                         :: (kind +++ String "/" x) :: xs).
    { subst entity_value.
      change ("arn:aws:ecs:" +++ region +++ ":" +++ account +++ ":" +++ kind +++ "/"
              +++ cluster +++ "/" +++ last)
        with ("arn" +++ String ":" ("aws" +++ String ":" ("ecs" +++ String ":"
                (region +++ String ":" (account +++ String ":"
                   (kind +++ String "/" (cluster +++ String "/" last))))))).
      rewrite !split_app_sep.
      rewrite (split_no_sep region ":" Hregion), (split_no_sep account ":" Haccount).
      rewrite Hseg. reflexivity. }
    rewrite Hcolon. split; [reflexivity|].
    rewrite split_app_sep, (split_no_sep kind "/" Hkind2). reflexivity.
Qed.

Lemma last_segment_returns (s : string) (sep : ascii) :
  exists segment, Str.index_from_end (Str.split s sep) 1 = Returned segment.
Proof.
  unfold Str.index_from_end, Str.index. cbn [Nat.sub].
  pose proof (split_nonempty s sep) as Hne.
  destruct (rev (Str.split s sep)) as [| x xs] eqn:Hrev.
  - exfalso. apply Hne. apply (f_equal (@rev string)) in Hrev.
    rewrite rev_involutive in Hrev. exact Hrev.
  - exists x. reflexivity.
Qed.

(** The task-to-service lookup, call by call. *)
Lemma get_service_from_task_arn_run (task_arn cluster_name : string)
    (w : world) (h : history) :
  exists task_id,
    Str.index_from_end (Str.split task_arn "/") 1 = Returned task_id
    /\ let describe := EcsDescribeTasks cluster_name task_id in
       let list := EcsListServices cluster_name in
       match ecs_describe_tasks w (h ++ [describe]) with
       | Raised _ =>
           Planner.get_service_from_task_arn task_arn cluster_name w h
           = (h ++ [describe], Returned "unknown-service")
       | Returned tasks =>
           match
             match tasks with
             | task :: _ =>
                 match task_group task with
                 | Some group =>
                     if Str.startswith group "service:"
                     then Some (Str.replace group "service:" "")
                     else task_serviceName task
                 | None => task_serviceName task
                 end
             | [] => None
             end
           with
           | Some service =>
               Planner.get_service_from_task_arn task_arn cluster_name w h
               = (h ++ [describe], Returned service)
           | None =>
               exists service,
                 Planner.get_service_from_task_arn task_arn cluster_name w h
                 = (h ++ [describe; list], Returned service)
                 /\ (forall e, ecs_list_services w ((h ++ [describe]) ++ [list])
                               = Raised e -> service = "unknown-service")
                 /\ (ecs_list_services w ((h ++ [describe]) ++ [list]) = Returned []
                     -> service = "unknown-service")
                 /\ (forall first rest,
                       ecs_list_services w ((h ++ [describe]) ++ [list])
                       = Returned (first :: rest) ->
                       Str.index_from_end (Str.split first "/") 1 = Returned service)
           end
       end.
Proof.
  destruct (last_segment_returns task_arn "/") as [task_id Hid].
  exists task_id. split; [exact Hid|]. cbv zeta.
  destruct (ecs_describe_tasks w (h ++ [EcsDescribeTasks cluster_name task_id]))
    as [tasks | e] eqn:Hdescribe.
  - match goal with
    | |- match ?ft with _ => _ end => destruct ft as [service |] eqn:Hft
    end.
    + unfold Planner.get_service_from_task_arn, Planner.last_segment, try_except,
        bind, lift, perform, ret.
      rewrite Hid, Hdescribe, Hft. reflexivity.
    + destruct (ecs_list_services w
                  ((h ++ [EcsDescribeTasks cluster_name task_id])
                   ++ [EcsListServices cluster_name]))
        as [[| first rest] | e] eqn:Hlist.
      * exists "unknown-service".
        split; [| split; [reflexivity | split; [reflexivity|]]].
        -- unfold Planner.get_service_from_task_arn, Planner.last_segment, try_except,
             bind, lift, perform, ret.
           rewrite Hid, Hdescribe, Hft, Hlist, <- app_assoc. reflexivity.
        -- intros first rest He. discriminate He.
      * destruct (last_segment_returns first "/") as [seg Hseg].
        exists seg.
        split; [| split; [intros e He; discriminate He
                         | split; [intros He; discriminate He|]]].
        -- unfold Planner.get_service_from_task_arn, Planner.last_segment, try_except,
             bind, lift, perform, ret.
           rewrite Hid, Hdescribe, Hft, Hlist, Hseg, <- app_assoc. reflexivity.
        -- intros first' rest' He. injection He as <- _. exact Hseg.
      * exists "unknown-service".
        split; [| split; [reflexivity | split; [reflexivity|]]].
        -- unfold Planner.get_service_from_task_arn, Planner.last_segment, try_except,
             bind, lift, perform, ret.
           rewrite Hid, Hdescribe, Hft, Hlist, <- app_assoc. reflexivity.
        -- intros first rest He. discriminate He.
  - unfold Planner.get_service_from_task_arn, Planner.last_segment, try_except,
      bind, lift, perform, ret.
    rewrite Hid, Hdescribe. reflexivity.
Qed.

(** X11: the task-to-service lookup never raises and makes at most two
    calls.  It describes the task named by the last segment of the ARN.
    If that call fails the answer is [unknown-service].  If the first
    task described has a group starting with [service:], the answer is
    the group without that prefix; otherwise, if it has a [serviceName],
    the answer is that name; in both cases no second call is made.  The
    cluster's services are listed exactly when the description returned
    no task, or a first task that names no service in either way; the
    answer is then the last segment of the first service ARN listed, and
    [unknown-service] when the list is empty or the call fails. *)
Theorem get_service_from_task_arn_is_total (task_arn cluster_name : string)
    (w : world) (h : history) :
  exists task_id calls service,
    let describe := EcsDescribeTasks cluster_name task_id in
    let list := EcsListServices cluster_name in
    Str.index_from_end (Str.split task_arn "/") 1 = Returned task_id
    /\ Planner.get_service_from_task_arn task_arn cluster_name w h
       = (h ++ calls, Returned service)
    /\ (calls = [describe] \/ calls = [describe; list])
    /\ (forall e,
          ecs_describe_tasks w (h ++ [describe]) = Raised e ->
          calls = [describe] /\ service = "unknown-service")
    /\ (forall task others group,
          ecs_describe_tasks w (h ++ [describe]) = Returned (task :: others) ->
          task_group task = Some group ->
          Str.startswith group "service:" = true ->
          calls = [describe] /\ service = Str.replace group "service:" "")
    /\ (forall task others name,
          ecs_describe_tasks w (h ++ [describe]) = Returned (task :: others) ->
          names_no_group_service task = true ->
          task_serviceName task = Some name ->
          calls = [describe] /\ service = name)
    /\ (calls = [describe; list] <->
        ecs_describe_tasks w (h ++ [describe]) = Returned []
        \/ exists task others,
             ecs_describe_tasks w (h ++ [describe]) = Returned (task :: others)
             /\ names_no_group_service task = true
             /\ task_serviceName task = None)
    /\ (calls = [describe; list] ->
        (forall e,
            ecs_list_services w (h ++ [describe; list]) = Raised e ->
            service = "unknown-service")
        /\ (ecs_list_services w (h ++ [describe; list]) = Returned [] ->
            service = "unknown-service")
        /\ (forall first rest,
              ecs_list_services w (h ++ [describe; list]) = Returned (first :: rest) ->
              Str.index_from_end (Str.split first "/") 1 = Returned service)).
Proof.
  destruct (get_service_from_task_arn_run task_arn cluster_name w h)
    as [task_id [Hid Hrun]].
  cbv zeta in Hrun. exists task_id. cbv zeta.
  destruct (ecs_describe_tasks w (h ++ [EcsDescribeTasks cluster_name task_id]))
    as [tasks | e0] eqn:Hdescribe.
  - match type of Hrun with
    | match ?ft with _ => _ end => destruct ft as [service |] eqn:Hft
    end.
    + exists [EcsDescribeTasks cluster_name task_id], service.
      split; [exact Hid|]. split; [exact Hrun|]. split; [left; reflexivity|].
      split; [intros e He; discriminate He|].
      split.
      { intros task others group Htasks Hgroup Hprefix.
        injection Htasks as ->. rewrite Hgroup, Hprefix in Hft.
        injection Hft as <-. split; reflexivity. }
      split.
      { intros task others name Htasks Hnone Hname.
        injection Htasks as ->. unfold names_no_group_service in Hnone.
        destruct (task_group task) as [group |].
        - apply negb_true_iff in Hnone. rewrite Hnone, Hname in Hft.
          injection Hft as <-. split; reflexivity.
        - rewrite Hname in Hft. injection Hft as <-. split; reflexivity. }
      split.
      { split; [intros Habs; discriminate Habs|].
        intros [Hempty | [task [others [Htasks [Hnone Hname]]]]].
        - injection Hempty as ->. discriminate Hft.
        - injection Htasks as ->. unfold names_no_group_service in Hnone.
          destruct (task_group task) as [group |].
          + apply negb_true_iff in Hnone. rewrite Hnone, Hname in Hft. discriminate Hft.
          + rewrite Hname in Hft. discriminate Hft. }
      intros Habs. discriminate Habs.
    + destruct Hrun as [service [Hrun [Hfail [Hnone Hfirst]]]].
      exists [EcsDescribeTasks cluster_name task_id; EcsListServices cluster_name], service.
      split; [exact Hid|]. split; [exact Hrun|]. split; [right; reflexivity|].
      split; [intros e He; discriminate He|].
      split.
      { intros task others group Htasks Hgroup Hprefix.
        injection Htasks as ->. rewrite Hgroup, Hprefix in Hft. discriminate Hft. }
      split.
      { intros task others name Htasks Hng Hname.
        injection Htasks as ->. unfold names_no_group_service in Hng.
        destruct (task_group task) as [group |].
        - apply negb_true_iff in Hng. rewrite Hng, Hname in Hft. discriminate Hft.
        - rewrite Hname in Hft. discriminate Hft. }
      split.
      { split; [| intros _; reflexivity]. intros _.
        destruct tasks as [| task others]; [left; reflexivity|].
        right. exists task, others. split; [reflexivity|].
        unfold names_no_group_service.
        destruct (task_group task) as [group |].
        - destruct (Str.startswith group "service:"); [discriminate Hft|].
          split; [reflexivity | exact Hft].
        - split; [reflexivity | exact Hft]. }
      intros _.
      change (h ++ [EcsDescribeTasks cluster_name task_id; EcsListServices cluster_name])
        with (h ++ [EcsDescribeTasks cluster_name task_id] ++ [EcsListServices cluster_name]).
      rewrite app_assoc.
      split; [exact Hfail | split; [exact Hnone | exact Hfirst]].
  - exists [EcsDescribeTasks cluster_name task_id], "unknown-service".
    split; [exact Hid|]. split; [exact Hrun|]. split; [left; reflexivity|].
    split; [intros e _; split; reflexivity|].
    split; [intros task others group Habs; discriminate Habs|].
    split; [intros task others name Habs; discriminate Habs|].
    split.
    { split; [intros Habs; discriminate Habs|].
      intros [Habs | [task [others [Habs _]]]]; discriminate Habs. }
    intros Habs. discriminate Habs.
Qed.

(** A task that names its service by [serviceName], and a cluster whose
    services are listed because the task names none. *)
Example lookup_by_service_name :
  Planner.get_service_from_task_arn
    "arn:aws:ecs:us-east-1:111:task/prod-cluster/0123abcd" "prod-cluster"
    Sample.named_by_service_name []
  = ([EcsDescribeTasks "prod-cluster" "0123abcd"], Returned "billing-svc").
Proof. vm_compute. reflexivity. Qed.

Example lookup_by_listing :
  Planner.get_service_from_task_arn
    "arn:aws:ecs:us-east-1:111:task/prod-cluster/0123abcd" "prod-cluster"
    Sample.named_by_listing []
  = ([EcsDescribeTasks "prod-cluster" "0123abcd"; EcsListServices "prod-cluster"],
     Returned "orders-svc").
Proof. vm_compute. reflexivity. Qed.

(** X12: a service ARN [arn:aws:ecs:region:account:service/cluster/service]
    resolves to its last two segments, the cluster and the service,
    without any lookup. *)
Theorem parse_service_arn (region account cluster service : string)
    (w : world) (h : history) :
  occurs ":" region = false -> occurs ":" account = false ->
  occurs "/" cluster = false -> occurs "/" service = false ->
  Planner.parse_ecs_resource_info
    ("arn:aws:ecs:" +++ region +++ ":" +++ account +++ ":service/"
     +++ cluster +++ "/" +++ service) w h
  = (h, Returned (cluster, service)).
Proof.
  intros Hregion Haccount Hcluster Hservice.
  destruct (arn_segments region account "service" cluster service
              Hregion Haccount eq_refl eq_refl Hcluster Hservice)
    as [Hprefix [Hlen [[segment [Hseg Hkind]] [Hc Hs]]]].
  cbv zeta in *.
  change ("arn:aws:ecs:" +++ region +++ ":" +++ account +++ ":service/"
          +++ cluster +++ "/" +++ service)
    with ("arn:aws:ecs:" +++ region +++ ":" +++ account +++ ":" +++ "service" +++ "/"
          +++ cluster +++ "/" +++ service).
  unfold Planner.parse_ecs_resource_info, try_except.
  rewrite Hprefix, Hlen. unfold bind, lift, ret.
  rewrite Hseg, Hkind, Hc. cbn [String.eqb Ascii.eqb Bool.eqb]. rewrite Hs.
  reflexivity.
Qed.

Lemma parse_service_arn_witness :
  Planner.parse_ecs_resource_info
    ("arn:aws:ecs:" +++ "us-east-1" +++ ":" +++ "111" +++ ":service/"
     +++ "prod-cluster" +++ "/" +++ "checkout-svc") Sample.unreachable []
  = ([], Returned ("prod-cluster", "checkout-svc")).
Proof.
  apply (parse_service_arn "us-east-1" "111" "prod-cluster" "checkout-svc");
    reflexivity.
Defined.

(** X13: a task ARN [arn:aws:ecs:region:account:task/cluster/task]
    resolves to the cluster segment and to whatever the task-to-service
    lookup returns for that task; the only calls made are those of the
    lookup, which starts by describing the task in that cluster. *)
Theorem parse_task_arn (region account cluster task : string)
    (w : world) (h : history) :
  occurs ":" region = false -> occurs ":" account = false ->
  occurs "/" cluster = false -> occurs "/" task = false ->
  let entity_value :=
    "arn:aws:ecs:" +++ region +++ ":" +++ account +++ ":task/"
    +++ cluster +++ "/" +++ task in
  exists calls service,
    Planner.get_service_from_task_arn entity_value cluster w h
    = (h ++ EcsDescribeTasks cluster task :: calls, Returned service)
    /\ Planner.parse_ecs_resource_info entity_value w h
       = (h ++ EcsDescribeTasks cluster task :: calls, Returned (cluster, service)).
Proof.
  intros Hregion Haccount Hcluster Htask entity_value.
  destruct (arn_segments region account "task" cluster task
              Hregion Haccount eq_refl eq_refl Hcluster Htask)
    as [Hprefix [Hlen [[segment [Hseg Hkind]] [Hc Hs]]]].
  cbv zeta in *.
  change ("arn:aws:ecs:" +++ region +++ ":" +++ account +++ ":" +++ "task" +++ "/"
          +++ cluster +++ "/" +++ task) with entity_value in *.
  destruct (get_service_from_task_arn_run entity_value cluster w h)
    as [task_id [Hid Hrun]].
  rewrite Hs in Hid. injection Hid as <-. cbv zeta in Hrun.
  assert (Hlookup : exists calls service,
            Planner.get_service_from_task_arn entity_value cluster w h
            = (h ++ EcsDescribeTasks cluster task :: calls, Returned service)).
  { destruct (ecs_describe_tasks w (h ++ [EcsDescribeTasks cluster task])).
    - match type of Hrun with
      | match ?ft with _ => _ end => destruct ft as [service |]
      end.
      + exists [], service. exact Hrun.
      + destruct Hrun as [service [Hrun _]]. eexists. exists service. exact Hrun.
    - exists [], "unknown-service". exact Hrun. }
  destruct Hlookup as [calls [service Hlookup]].
  exists calls, service. split; [exact Hlookup|].
  unfold Planner.parse_ecs_resource_info, try_except.
  rewrite Hprefix, Hlen. unfold bind at 1, lift at 1. rewrite Hseg.
  unfold bind at 1, lift at 1. rewrite Hkind.
  unfold bind at 1, lift at 1. rewrite Hc.
  cbn [String.eqb Ascii.eqb Bool.eqb]. unfold bind at 1. rewrite Hlookup.
  reflexivity.
Qed.

Lemma parse_task_arn_witness :
  exists calls service,
    Planner.parse_ecs_resource_info
      ("arn:aws:ecs:" +++ "us-east-1" +++ ":" +++ "111" +++ ":task/"
       +++ "prod-cluster" +++ "/" +++ "0f3a") Sample.configured []
    = ([] ++ EcsDescribeTasks "prod-cluster" "0f3a" :: calls,
       Returned ("prod-cluster", service)).
Proof.
  destruct (parse_task_arn "us-east-1" "111" "prod-cluster" "0f3a" Sample.configured [])
    as [calls [service [_ Hrun]]]; try reflexivity.
  exists calls, service. exact Hrun.
Defined.

(** The white-space characters beyond ASCII, as the bytes of their UTF-8
    form. *)
Example white_space_beyond_ascii :
  map (fun space => map N_of_ascii (list_ascii_of_string space)) (skipn 10 Str.white_space)
  = [ [194; 133]; [194; 160]; [225; 154; 128];
      [226; 128; 128]; [226; 128; 129]; [226; 128; 130]; [226; 128; 131];
      [226; 128; 132]; [226; 128; 133]; [226; 128; 134]; [226; 128; 135];
      [226; 128; 136]; [226; 128; 137]; [226; 128; 138];
      [226; 128; 168]; [226; 128; 169]; [226; 128; 175]; [226; 129; 159];
      [227; 128; 128] ]%N.
Proof. vm_compute. reflexivity. Qed.

(** No-break and ideographic spaces are removed like blanks; a space
    inside the text stays. *)
Example strip_beyond_ascii :
  Str.strip (Str.chr 12288 +++ " prod" +++ Str.chr 160 +++ "cluster" +++ Str.chr 8232
             +++ Str.chr 133)
  = "prod" +++ Str.chr 160 +++ "cluster".
Proof. vm_compute. reflexivity. Qed.

Lemma existsb_false {A} (f : A -> bool) (l : list A) :
  existsb f l = false <-> forall x, In x l -> f x = false.
Proof.
  induction l as [| a l IH]; cbn [existsb In].
  - split; [intros _ x [] | reflexivity].
  - rewrite orb_false_iff, IH. split.
    + intros [Ha Hl] x [<- | Hx]; [exact Ha | exact (Hl x Hx)].
    + intros H. split; [apply H; left; reflexivity | intros x Hx; apply H; right; exact Hx].
Qed.

Lemma leading_space_none (s : string) :
  Str.leading_space s = None -> starts_with_space s = false.
Proof.
  unfold Str.leading_space, starts_with_space. intros Hnone.
  apply existsb_false. intros space Hin.
  exact (find_none _ _ Hnone space Hin).
Qed.

Lemma lstrip_from_no_leading_space (s : string) :
  forall skip, starts_with_space (Str.lstrip_from skip s) = false.
Proof.
  induction s as [| c s IH]; intros skip; cbn [Str.lstrip_from]; [reflexivity|].
  destruct skip as [| skip]; [| apply IH].
  destruct (Str.leading_space (String c s)) as [space |] eqn:E; [apply IH|].
  exact (leading_space_none _ E).
Qed.

Lemma lstrip_no_leading_space (s : string) :
  starts_with_space (Str.lstrip s) = false.
Proof. apply lstrip_from_no_leading_space. Qed.

Lemma prefix_empty (s : string) : String.prefix EmptyString s = true.
Proof. destruct s; reflexivity. Qed.

Lemma prefix_app (a b c : string) :
  String.prefix a b = true -> String.prefix a (b +++ c) = true.
Proof.
  revert b. induction a as [| x a IH]; intros b; [intros _; apply prefix_empty|].
  destruct b as [| y b]; cbn [String.prefix String.append]; [discriminate|].
  destruct (ascii_dec x y); [apply IH | discriminate].
Qed.

Lemma prefix_self_app (a t : string) : String.prefix a (a +++ t) = true.
Proof.
  induction a as [| x a IH]; [apply prefix_empty|].
  cbn [String.prefix String.append].
  destruct (ascii_dec x x) as [_ | Hne]; [exact IH | exfalso; apply Hne; reflexivity].
Qed.

(** Two prefixes of one string: one is a prefix of the other. *)
Lemma prefix_comparable (a b t : string) :
  String.prefix a (b +++ t) = true ->
  String.prefix a b = true \/ String.prefix b a = true.
Proof.
  revert b. induction a as [| x a IH]; intros b; [intros _; left; apply prefix_empty|].
  destruct b as [| y b]; [intros _; right; reflexivity|].
  cbn [String.prefix String.append].
  destruct (ascii_dec x y) as [-> | Hne]; [| discriminate].
  destruct (ascii_dec y y) as [_ | Hne]; [apply IH | exfalso; apply Hne; reflexivity].
Qed.

(** No white-space character is the beginning of another. *)
Lemma white_space_prefix_free (a b : string) :
  In a Str.white_space -> In b Str.white_space ->
  String.prefix a b = true -> a = b.
Proof.
  assert (Hall : forallb (fun a => forallb (fun b => implb (String.prefix a b)
                                                      (String.eqb a b))
                                     Str.white_space)
                   Str.white_space = true) by (vm_compute; reflexivity).
  intros Ha Hb Hp. rewrite forallb_forall in Hall.
  specialize (Hall a Ha). rewrite forallb_forall in Hall.
  specialize (Hall b Hb). rewrite Hp in Hall. apply String.eqb_eq. exact Hall.
Qed.

Lemma leading_space_app (space tail : string) :
  In space Str.white_space -> Str.leading_space (space +++ tail) = Some space.
Proof.
  intros Hin. unfold Str.leading_space.
  destruct (find (fun x => String.prefix x (space +++ tail)) Str.white_space)
    as [found |] eqn:E.
  - apply find_some in E. destruct E as [Hfound Hp].
    destruct (prefix_comparable _ _ _ Hp) as [H | H].
    + rewrite (white_space_prefix_free found space Hfound Hin H). reflexivity.
    + rewrite (white_space_prefix_free space found Hin Hfound H). reflexivity.
  - pose proof (find_none _ _ E space Hin) as Hnone. cbv beta in Hnone.
    rewrite prefix_self_app in Hnone. discriminate Hnone.
Qed.

Lemma lstrip_from_skip (a t : string) :
  Str.lstrip_from (String.length a) (a +++ t) = Str.lstrip_from O t.
Proof.
  induction a as [| x a IH]; [reflexivity|].
  cbn [String.length String.append Str.lstrip_from]. exact IH.
Qed.

Lemma white_space_not_empty (space : string) :
  In space Str.white_space -> space <> EmptyString.
Proof.
  revert space. apply Forall_forall.
  unfold Str.white_space, Str.white_space_code_points. cbn [map].
  repeat (apply Forall_cons; [vm_compute; discriminate|]).
  apply Forall_nil.
Qed.

(** A white-space character at the head of a string is removed whole. *)
Lemma lstrip_space_app (space tail : string) :
  In space Str.white_space -> Str.lstrip (space +++ tail) = Str.lstrip tail.
Proof.
  intros Hin. unfold Str.lstrip.
  pose proof (leading_space_app space tail Hin) as Hlead.
  destruct space as [| c space];
    [exfalso; exact (white_space_not_empty EmptyString Hin eq_refl)|].
  cbn [String.append] in *. cbn [Str.lstrip_from]. rewrite Hlead.
  replace (String.length (String c space) - 1)%nat with (String.length space)
    by (cbn [String.length]; lia).
  apply lstrip_from_skip.
Qed.

(** What [rstrip] removes is white space only. *)
Lemma rstrip_split (s : string) :
  exists tail, s = Str.rstrip s +++ tail /\ Str.lstrip tail = EmptyString.
Proof.
  induction s as [| c s [tail [Hs Htail]]].
  - exists EmptyString. split; reflexivity.
  - cbn [Str.rstrip].
    destruct (String.eqb (Str.lstrip (String c s)) EmptyString) eqn:E.
    + exists (String c s). split; [reflexivity | apply String.eqb_eq; exact E].
    + exists tail. split; [| exact Htail].
      cbn [String.append]. rewrite <- Hs. reflexivity.
Qed.

Lemma rstrip_keeps_head (s : string) :
  starts_with_space s = false -> starts_with_space (Str.rstrip s) = false.
Proof.
  unfold starts_with_space. rewrite !existsb_false.
  intros Hs space Hin.
  destruct (String.prefix space (Str.rstrip s)) eqn:E; [| reflexivity].
  destruct (rstrip_split s) as [tail [Hsplit _]].
  pose proof (prefix_app _ _ tail E) as Hp. rewrite <- Hsplit in Hp.
  rewrite (Hs space Hin) in Hp. discriminate Hp.
Qed.

Lemma rstrip_no_trailing_space (s : string) :
  ends_with_space (Str.rstrip s) = false.
Proof.
  unfold ends_with_space. apply existsb_false. intros space Hin.
  induction s as [| c s IH]; cbn [Str.rstrip].
  - cbn [ends_with]. rewrite orb_false_r. apply String.eqb_neq.
    intros Heq. exact (white_space_not_empty space Hin (eq_sym Heq)).
  - destruct (String.eqb (Str.lstrip (String c s)) EmptyString) eqn:E.
    + cbn [ends_with]. rewrite orb_false_r. apply String.eqb_neq.
      intros Heq. exact (white_space_not_empty space Hin (eq_sym Heq)).
    + cbn [ends_with]. rewrite IH, orb_false_r.
      apply String.eqb_neq. intros Heq.
      destruct (rstrip_split s) as [tail [Hsplit Htail]].
      apply String.eqb_neq in E. apply E.
      rewrite Hsplit.
      change (String c (Str.rstrip s +++ tail)) with (String c (Str.rstrip s) +++ tail).
      rewrite Heq, (lstrip_space_app space tail Hin). exact Htail.
Qed.

(** X14: a [cluster|service] pair that does not start with [arn:aws]
    resolves, without any lookup, to its two fields with the white space
    around each removed: neither name starts or ends with a white-space
    character, of ASCII or beyond (a no-break space, an ideographic
    space, a line separator and the like). *)
Theorem parse_pair_form (cluster service : string) (w : world) (h : history) :
  occurs "|" cluster = false -> occurs "|" service = false ->
  Str.startswith (cluster +++ "|" +++ service) "arn:aws" = false ->
  Planner.parse_ecs_resource_info (cluster +++ "|" +++ service) w h
  = (h, Returned (Str.strip cluster, Str.strip service))
  /\ starts_with_space (Str.strip cluster) = false
  /\ ends_with_space (Str.strip cluster) = false
  /\ starts_with_space (Str.strip service) = false
  /\ ends_with_space (Str.strip service) = false.
Proof.
  intros Hcluster Hservice Hprefix.
  split.
  - unfold Planner.parse_ecs_resource_info, try_except. rewrite Hprefix.
    rewrite contains_char, occurs_app. cbn [String.append occurs].
    rewrite Ascii.eqb_refl, orb_true_r.
    change ("|" +++ service) with (String "|" service).
    rewrite split_app_sep, (split_no_sep cluster "|" Hcluster),
      (split_no_sep service "|" Hservice).
    reflexivity.
  - unfold Str.strip.
    repeat split;
      first [ apply rstrip_keeps_head, lstrip_no_leading_space
            | apply rstrip_no_trailing_space ].
Qed.

Lemma parse_pair_form_witness :
  Planner.parse_ecs_resource_info
    ((" prod-cluster" +++ Str.chr 160) +++ "|" +++ (Str.chr 12288 +++ "checkout-svc"))
    Sample.unreachable []
  = ([], Returned ("prod-cluster", "checkout-svc")).
Proof.
  destruct (parse_pair_form (" prod-cluster" +++ Str.chr 160)
              (Str.chr 12288 +++ "checkout-svc") Sample.unreachable []
              eq_refl eq_refl eq_refl) as [Hrun _].
  exact Hrun.
Defined.

(** ** The executor's copy of the resolver *)

Lemma executor_lookup_is_planner_lookup (task_arn cluster_name : string) :
  Executor.get_service_from_task_arn task_arn cluster_name
  = Planner.get_service_from_task_arn task_arn cluster_name.
Proof. reflexivity. Qed.

(** X15: on every identifier that starts with [arn:aws] the executor's
    copy of the resolver gives exactly the planner's answer, calls
    included; but it does not know the [cluster|service] form: an
    identifier without a [/] always yields the sentinel there. *)
Theorem executor_resolver_agrees_on_arns (entity_value : string)
    (w : world) (h : history) :
  (Str.startswith entity_value "arn:aws" = true ->
   Executor.parse_ecs_resource_info entity_value w h
   = Planner.parse_ecs_resource_info entity_value w h)
  /\ (occurs "/" entity_value = false ->
      Executor.parse_ecs_resource_info entity_value w h
      = (h, Returned ("unknown-cluster", "unknown-service"))).
Proof.
  split.
  - intros Hprefix.
    unfold Executor.parse_ecs_resource_info, Planner.parse_ecs_resource_info.
    rewrite Hprefix.
    destruct (3 <=? List.length (Str.split entity_value "/"))%nat; reflexivity.
  - intros Hnone. unfold Executor.parse_ecs_resource_info, try_except.
    rewrite (split_no_sep entity_value "/" Hnone). reflexivity.
Qed.

Lemma executor_resolver_agrees_on_arns_witness :
  Executor.parse_ecs_resource_info "prod-cluster|checkout-svc" Sample.quiet []
  = ([], Returned ("unknown-cluster", "unknown-service"))
  /\ Executor.parse_ecs_resource_info
       "arn:aws:ecs:us-east-1:111:service/prod-cluster/checkout-svc" Sample.quiet []
     = Planner.parse_ecs_resource_info
         "arn:aws:ecs:us-east-1:111:service/prod-cluster/checkout-svc" Sample.quiet [].
Proof.
  split.
  - exact (proj2 (executor_resolver_agrees_on_arns "prod-cluster|checkout-svc"
                    Sample.quiet []) eq_refl).
  - exact (proj1 (executor_resolver_agrees_on_arns
                    "arn:aws:ecs:us-east-1:111:service/prod-cluster/checkout-svc"
                    Sample.quiet []) eq_refl).
Defined.

(** ** Notifications of the planner *)

Lemma planner_send_notification_calls (n : notification) (w : world) (h : history) :
  Planner.send_notification n w h
  = (h ++ webhook_part w n ++ [LogNotification n], Returned tt).
Proof.
  unfold Planner.send_notification, bind, os_environ_get, ask, emit, webhook_part.
  destruct (environ_get w "WEBHOOK_URL") as [url |].
  - destruct (String.eqb url "").
    + unfold ret. reflexivity.
    + unfold try_except, bind, perform, ret.
      destruct (webhook_post w (h ++ [WebhookPost url n]));
        rewrite <- app_assoc; reflexivity.
  - unfold ret. reflexivity.
Qed.

(** X16: sending a planner notification never raises, whatever the
    webhook does: the record is always written to the log, exactly once,
    after at most one post to the webhook, and the post is made exactly
    when [WEBHOOK_URL] is set and not empty. *)
Theorem planner_notification_is_best_effort (n : notification) (w : world) (h : history) :
  exists posts,
    Planner.send_notification n w h = (h ++ posts ++ [LogNotification n], Returned tt)
    /\ notifications_in (posts ++ [LogNotification n]) = [n]
    /\ (posts = []
        \/ exists url, posts = [WebhookPost url n]
                       /\ environ_get w "WEBHOOK_URL" = Some url /\ url <> "")
    /\ (posts = [] ->
        environ_get w "WEBHOOK_URL" = None \/ environ_get w "WEBHOOK_URL" = Some "").
Proof.
  exists (webhook_part w n).
  split; [apply planner_send_notification_calls|].
  split; [rewrite notifications_in_app, notifications_in_webhook_part; reflexivity|].
  unfold webhook_part.
  destruct (environ_get w "WEBHOOK_URL") as [url |].
  - destruct (String.eqb url "") eqn:E.
    + apply String.eqb_eq in E. subst url. split; [left; reflexivity | auto].
    + apply String.eqb_neq in E. split.
      * right. exists url. auto.
      * intros Habs. discriminate Habs.
  - split; [left; reflexivity | auto].
Qed.

(** ** More on the executor workflow *)

(** X17: cleanup removes the rule's targets before it deletes the rule,
    and gives up silently at the first failure: the rule is deleted only
    if its targets could be removed, and neither failure is raised. *)
Theorem cleanup_rule_stops_at_first_failure (rule_name : json) (w : world) (h : history) :
  exists calls,
    Executor.cleanup_rule rule_name w h = (h ++ calls, Returned tt)
    /\ (forall e,
          events_reply w (h ++ [EventsRemoveTargets rule_name]) = Raised e ->
          calls = [EventsRemoveTargets rule_name])
    /\ (events_reply w (h ++ [EventsRemoveTargets rule_name]) = Returned tt ->
        calls = [EventsRemoveTargets rule_name; EventsDeleteRule rule_name])
    /\ (In (EventsDeleteRule rule_name) calls ->
        events_reply w (h ++ [EventsRemoveTargets rule_name]) = Returned tt).
Proof.
  exists (cleanup_calls w h rule_name).
  split; [apply cleanup_rule_calls|].
  unfold cleanup_calls.
  destruct (events_reply w (h ++ [EventsRemoveTargets rule_name])) as [[] | e0].
  - split; [intros e He; discriminate He|]. split; [reflexivity | reflexivity].
  - split; [reflexivity|]. split; [intros He; discriminate He|].
    intros [Habs | []]. discriminate Habs.
Qed.

(** X18: every invocation of the executor returns a response and emits
    exactly one notification, and the two agree: statusCode 200 goes with
    the notified status SUCCESS, statusCode 500 with FAILED, and there is
    no other combination; a restart call that fails, in particular, gives
    500 and FAILED. *)
Theorem executor_response_matches_notification (event : dict) (w : world) (h : history) :
  exists calls resp n,
    Executor.lambda_handler event w h = (h ++ calls, Returned resp)
    /\ notifications_in calls = [n]
    /\ ((statusCode resp = 200 /\ notified_status n = Some "SUCCESS")
        \/ (statusCode resp = 500 /\ notified_status n = Some "FAILED"))
    /\ (statusCode resp = 200 <->
        py_all (required_fields event) = true
        /\ (truthy (dict_get_default event "test_mode" (JBool false)) = true
            \/ exists deployments,
                 ecs_update_service w
                   (h ++ [EcsUpdateService (dict_get event "cluster_name")
                            (dict_get event "service_name")])
                 = Returned deployments)).
Proof.
  destruct (py_all (required_fields event)) eqn:Hreq.
  2:{ eexists. eexists. eexists.
      split; [apply run_validation_failure; exact Hreq|].
      split; [apply notifications_in_notification_calls|].
      split; [right; split; reflexivity|].
      split; [intros Habs; discriminate Habs | intros [Habs _]; discriminate Habs]. }
  destruct (truthy (dict_get_default event "test_mode" (JBool false))) eqn:Htest.
  { eexists. eexists. eexists.
    split; [apply run_test_mode; assumption|].
    split; [apply notifications_in_notification_calls|].
    split; [left; split; reflexivity|].
    split; [intros _; split; [reflexivity | left; reflexivity] | reflexivity]. }
  destruct (ecs_update_service w
              (h ++ [EcsUpdateService (dict_get event "cluster_name")
                       (dict_get event "service_name")]))
    as [deployments | e] eqn:Hecs.
  - pose proof (run_restart_succeeded event w h deployments Hreq Htest Hecs) as Hrun.
    cbv zeta in Hrun.
    destruct (truthy (dict_get event "rule_name"));
      (eexists; eexists; eexists; split; [exact Hrun|];
       split;
       [ cbn [notifications_in]; rewrite notifications_in_app,
           notifications_in_notification_calls, ?cleanup_calls_no_notification;
         reflexivity
       | split; [left; split; reflexivity|];
         split; [intros _; split; [reflexivity | right; exists deployments; reflexivity]
                | reflexivity] ]).
  - pose proof (run_restart_failed event w h e Hreq Htest Hecs) as Hrun.
    cbv zeta in Hrun.
    eexists. eexists. eexists. split; [exact Hrun|].
    split; [cbn [notifications_in]; apply notifications_in_notification_calls|].
    split; [right; split; reflexivity|].
    split; [intros Habs; discriminate Habs|].
    intros [_ [Habs | [deployments Habs]]]; discriminate Habs.
Qed.

(** ** What the handlers never call *)

Lemma appends_ret {A} (allowed : call -> bool) (a : A) : appends allowed (ret a).
Proof. intros w h. exists []. rewrite app_nil_r. split; reflexivity. Qed.

Lemma appends_raise {A} (allowed : call -> bool) (e : exn) :
  appends allowed (@raise A e).
Proof. intros w h. exists []. rewrite app_nil_r. split; reflexivity. Qed.

Lemma appends_lift {A} (allowed : call -> bool) (o : outcome A) :
  appends allowed (lift o).
Proof. intros w h. exists []. rewrite app_nil_r. split; reflexivity. Qed.

Lemma appends_ask {A} (allowed : call -> bool) (f : world -> A) :
  appends allowed (ask f).
Proof. intros w h. exists []. rewrite app_nil_r. split; reflexivity. Qed.

Lemma appends_perform {A} (allowed : call -> bool) (c : call)
    (answer : world -> history -> outcome A) :
  allowed c = true -> appends allowed (perform c answer).
Proof.
  intros Hc w h. exists [c]. split; [reflexivity|].
  cbn [forallb]. rewrite Hc. reflexivity.
Qed.

Lemma appends_emit (allowed : call -> bool) (c : call) :
  allowed c = true -> appends allowed (emit c).
Proof.
  intros Hc w h. exists [c]. split; [reflexivity|].
  cbn [forallb]. rewrite Hc. reflexivity.
Qed.

Lemma appends_bind {A B} (allowed : call -> bool) (m : M A) (k : A -> M B) :
  appends allowed m -> (forall a, appends allowed (k a)) -> appends allowed (bind m k).
Proof.
  intros Hm Hk w h. destruct (Hm w h) as [c1 [H1 Ha1]].
  unfold bind. destruct (m w h) as [h1 [a | e]]; cbn [fst] in H1; subst h1.
  - destruct (Hk a w (h ++ c1)) as [c2 [H2 Ha2]].
    exists (c1 ++ c2). rewrite H2, app_assoc, forallb_app, Ha1, Ha2.
    split; reflexivity.
  - exists c1. split; [reflexivity | exact Ha1].
Qed.

Lemma appends_try_except {A} (allowed : call -> bool) (m : M A) (handler : exn -> M A) :
  appends allowed m -> (forall e, appends allowed (handler e)) ->
  appends allowed (try_except m handler).
Proof.
  intros Hm Hk w h. destruct (Hm w h) as [c1 [H1 Ha1]].
  unfold try_except. destruct (m w h) as [h1 [a | e]]; cbn [fst] in H1; subst h1.
  - exists c1. split; [reflexivity | exact Ha1].
  - destruct (Hk e w (h ++ c1)) as [c2 [H2 Ha2]].
    exists (c1 ++ c2). rewrite H2, app_assoc, forallb_app, Ha1, Ha2.
    split; reflexivity.
Qed.

Lemma appends_weaken {A} (narrow wide : call -> bool) (m : M A) :
  (forall c, narrow c = true -> wide c = true) ->
  appends narrow m -> appends wide m.
Proof.
  intros Hsub Hm w h. destruct (Hm w h) as [calls [H1 Ha]].
  exists calls. split; [exact H1|].
  rewrite forallb_forall in *. intros c Hc. apply Hsub, Ha, Hc.
Qed.

Lemma appends_fromisoformat (allowed : call -> bool) (v : json) :
  appends allowed (datetime_fromisoformat v).
Proof.
  destruct v; try apply appends_raise.
  intros w h. exists []. rewrite app_nil_r. split; reflexivity.
Qed.

Ltac appends_steps :=
  repeat
    match goal with
    | |- appends _ (bind _ _) => apply appends_bind; [| intros ?]
    | |- appends _ (try_except _ _) => apply appends_try_except; [| intros ?]
    | |- appends _ (ret _) => apply appends_ret
    | |- appends _ (raise _) => apply appends_raise
    | |- appends _ (lift _) => apply appends_lift
    | |- appends _ (ask _) => apply appends_ask
    | |- appends _ (os_environ_get _) => apply appends_ask
    | |- appends _ (datetime_fromisoformat _) => apply appends_fromisoformat
    | |- appends _ (perform _ _) => apply appends_perform; reflexivity
    | |- appends _ (emit _) => apply appends_emit; reflexivity
    | |- appends _ (if ?c then _ else _) => destruct c
    | |- appends _ (match ?x with _ => _ end) => destruct x
    end.

Lemma appends_get_default (year : Z) :
  appends (fun _ => false) (Planner.get_default_spring_festival_dates year).
Proof. unfold Planner.get_default_spring_festival_dates. appends_steps. Qed.

Lemma appends_get_spring_festival_dates (year : Z) :
  appends is_ssm_call (Planner.get_spring_festival_dates year).
Proof.
  unfold Planner.get_spring_festival_dates.
  assert (Hdefault : appends is_ssm_call (Planner.get_default_spring_festival_dates year)).
  { apply (appends_weaken (fun _ => false)); [discriminate | apply appends_get_default]. }
  appends_steps; exact Hdefault.
Qed.

Lemma appends_overlaps_any (ms me : datetime) (holidays : list (datetime * datetime)) :
  appends (fun _ => false) (Planner.overlaps_any ms me holidays).
Proof.
  induction holidays as [| [hs he] rest IH]; cbn [Planner.overlaps_any].
  - apply appends_ret.
  - appends_steps; exact IH.
Qed.

Lemma appends_check_holiday_conflict (ms me : datetime) :
  appends is_ssm_call (Planner.check_holiday_conflict ms me).
Proof.
  unfold Planner.check_holiday_conflict, Planner.holidays_of.
  appends_steps; try apply appends_get_spring_festival_dates.
  apply (appends_weaken (fun _ => false)); [discriminate | apply appends_overlaps_any].
Qed.

Lemma appends_calculate_next_4am :
  appends is_clock_call Planner.calculate_next_4am.
Proof. unfold Planner.calculate_next_4am, datetime_now_utc. appends_steps. Qed.

Lemma appends_get_service_from_task_arn (task_arn cluster_name : string) :
  appends is_lookup_call (Planner.get_service_from_task_arn task_arn cluster_name).
Proof.
  unfold Planner.get_service_from_task_arn, Planner.last_segment. appends_steps.
Qed.

Lemma appends_parse_ecs_resource_info (entity_value : string) :
  appends is_lookup_call (Planner.parse_ecs_resource_info entity_value).
Proof.
  unfold Planner.parse_ecs_resource_info.
  appends_steps; apply appends_get_service_from_task_arn.
Qed.

Lemma appends_create_restart_schedule (resource_id cluster_name service_name : string)
    (restart_time : datetime) (resource_arn : string) (test_mode : json) :
  appends (fun c => is_schedule_call c && negb (truthy test_mode))
    (Planner.create_restart_schedule resource_id cluster_name service_name
       restart_time resource_arn test_mode).
Proof.
  unfold Planner.create_restart_schedule.
  destruct (truthy test_mode); [apply appends_ret|].
  appends_steps.
Qed.

Lemma appends_planner_send_notification (n : notification) :
  appends is_notification_call (Planner.send_notification n).
Proof. unfold Planner.send_notification. appends_steps. Qed.

Lemma appends_schedule_entities (entities : list json) (restart_time : datetime)
    (test_mode : json) : forall resource_id,
  appends (fun c => is_lookup_call c || (is_schedule_call c && negb (truthy test_mode)))
    (Planner.schedule_entities entities restart_time test_mode resource_id).
Proof.
  induction entities as [| entity rest IH]; intros resource_id;
    cbn [Planner.schedule_entities].
  - apply appends_ret.
  - appends_steps; try apply IH.
    + apply (appends_weaken is_lookup_call);
        [intros c Hc; rewrite Hc; reflexivity | apply appends_parse_ecs_resource_info].
    + apply (appends_weaken (fun c => is_schedule_call c && negb (truthy test_mode)));
        [intros c Hc; rewrite Hc; apply orb_true_r
        | apply appends_create_restart_schedule].
Qed.

Lemma forallb_excludes (allowed excluded : call -> bool) (calls : history) :
  (forall c, allowed c = true -> excluded c = false) ->
  forallb allowed calls = true -> existsb excluded calls = false.
Proof.
  intros Hex Hall. induction calls as [| c rest IH]; [reflexivity|].
  cbn [forallb existsb] in *. apply andb_true_iff in Hall. destruct Hall as [Hc Hrest].
  rewrite (Hex c Hc), (IH Hrest). reflexivity.
Qed.

Lemma appends_planner_lambda_handler (event : dict) :
  appends (planner_may_call (dict_get_default event "test_mode" (JBool false)))
    (Planner.lambda_handler event).
Proof.
  set (test_mode := dict_get_default event "test_mode" (JBool false)).
  assert (Hnotify : forall n, appends (planner_may_call test_mode)
                                (Planner.send_notification n)).
  { intros n. apply (appends_weaken is_notification_call);
      [| apply appends_planner_send_notification].
    intros c Hc. unfold planner_may_call. rewrite Hc.
    destruct (is_clock_call c), (is_ssm_call c), (is_lookup_call c); reflexivity. }
  assert (Hnow : appends (planner_may_call test_mode) datetime_now_utc).
  { apply appends_perform. reflexivity. }
  unfold Planner.lambda_handler. fold test_mode. cbv zeta.
  apply appends_try_except.
  - apply appends_bind; [apply appends_lift | intros start_time_str].
    apply appends_bind; [apply appends_lift | intros end_time_str].
    destruct (negb (truthy start_time_str) || negb (truthy end_time_str));
      [apply appends_ret|].
    apply appends_bind;
      [unfold Planner.parse_time; appends_steps | intros maintenance_start].
    apply appends_bind;
      [unfold Planner.parse_time; appends_steps | intros maintenance_end].
    apply appends_bind.
    { apply (appends_weaken is_ssm_call); [| apply appends_check_holiday_conflict].
      intros c Hc. unfold planner_may_call. rewrite Hc.
      destruct (is_clock_call c); reflexivity. }
    intros has_conflict. destruct (negb has_conflict).
    + apply appends_bind; [exact Hnow | intros now].
      apply appends_bind; [apply appends_lift | intros until_start].
      apply appends_bind; [apply Hnotify | intros _]. apply appends_ret.
    + apply appends_bind.
      { apply (appends_weaken is_clock_call); [| apply appends_calculate_next_4am].
        intros c Hc. unfold planner_may_call. rewrite Hc. reflexivity. }
      intros restart_time.
      apply appends_bind; [apply appends_lift | intros affected_entities].
      apply appends_bind; [apply appends_lift | intros entities].
      apply appends_bind.
      { eapply appends_weaken; [| apply appends_schedule_entities].
        intros c Hc. unfold planner_may_call. cbv beta in Hc.
        apply orb_true_iff in Hc. destruct Hc as [Hc | Hc]; rewrite Hc.
        - destruct (is_clock_call c), (is_ssm_call c); reflexivity.
        - apply orb_true_r. }
      intros resource_id.
      apply appends_bind; [exact Hnow | intros now].
      apply appends_bind; [apply appends_lift | intros until_start].
      apply appends_bind; [apply Hnotify | intros _].
      apply appends_bind; [apply appends_lift | intros affected_resources].
      apply appends_ret.
  - intros e.
    apply appends_bind; [apply appends_perform; reflexivity | intros timestamp].
    apply appends_bind; [apply Hnotify | intros _]. apply appends_ret.
Qed.

(** X19: whatever the event and whatever the collaborators answer, the
    planner only appends to the call history, and every call it makes is a
    clock reading, a parameter-store call, an ECS look-up, a notification
    or (outside test mode) a schedule creation: it never restarts a
    service and never removes a schedule entry. *)
Theorem planner_never_restarts_or_cleans_up (event : dict) (w : world) (h : history) :
  exists calls,
    fst (Planner.lambda_handler event w h) = h ++ calls
    /\ forallb (planner_may_call (dict_get_default event "test_mode" (JBool false)))
         calls = true
    /\ existsb is_restart_call calls = false
    /\ existsb is_cleanup_call calls = false.
Proof.
  destruct (appends_planner_lambda_handler event w h) as [calls [Hfst Hall]].
  exists calls. split; [exact Hfst|]. split; [exact Hall|].
  split; (eapply forallb_excludes; [| exact Hall]);
    intros c; destruct c; cbn; intros Hc; try reflexivity; discriminate Hc.
Qed.

(** X20: with a truthy [test_mode] in the event the planner makes no
    schedule call at all (neither put_rule nor put_targets), whatever the
    window, the affected entities and the collaborators' answers. *)
Theorem planner_test_mode_creates_no_schedule (event : dict) (w : world) (h : history) :
  truthy (dict_get_default event "test_mode" (JBool false)) = true ->
  exists calls,
    fst (Planner.lambda_handler event w h) = h ++ calls
    /\ existsb is_schedule_call calls = false.
Proof.
  intros Htest.
  destruct (appends_planner_lambda_handler event w h) as [calls [Hfst Hall]].
  exists calls. split; [exact Hfst|].
  eapply forallb_excludes; [| exact Hall].
  intros c. unfold planner_may_call. rewrite Htest.
  destruct c; cbn; intros Hc; try reflexivity; discriminate Hc.
Qed.

Lemma planner_test_mode_creates_no_schedule_witness :
  exists calls,
    fst (Planner.lambda_handler
           (Sample.planner_event "2025-10-02T00:00:00+00:00"
              "2025-10-03T00:00:00+00:00" true)
           Sample.configured []) = [] ++ calls
    /\ existsb is_schedule_call calls = false.
Proof.
  apply (planner_test_mode_creates_no_schedule
           (Sample.planner_event "2025-10-02T00:00:00+00:00"
              "2025-10-03T00:00:00+00:00" true)
           Sample.configured []).
  reflexivity.
Defined.

Lemma appends_send_restart_notification (resource_id : json) (status : string)
    (cluster_name service_name restart_reason test_mode : json)
    (result : option json) (error_msg : option exn) :
  appends executor_may_call
    (Executor.send_restart_notification resource_id status cluster_name service_name
       restart_reason test_mode result error_msg).
Proof.
  unfold Executor.send_restart_notification, Executor.send_feishu_notification,
    datetime_now.
  appends_steps.
Qed.

Lemma appends_executor_lambda_handler (event : dict) :
  appends executor_may_call (Executor.lambda_handler event).
Proof.
  unfold Executor.lambda_handler. cbv zeta.
  apply appends_try_except.
  - destruct (negb (py_all [dict_get event "resource_id"; dict_get event "cluster_name";
                            dict_get event "service_name"])); [apply appends_raise|].
    apply appends_bind.
    { destruct (truthy (dict_get_default event "test_mode" (JBool false)));
        [apply appends_ret|].
      unfold Executor.restart_ecs_service. appends_steps. }
    intros result. apply appends_bind.
    { destruct (truthy (dict_get event "rule_name")
                && negb (truthy (dict_get_default event "test_mode" (JBool false))));
        [| apply appends_ret].
      unfold Executor.cleanup_rule. appends_steps. }
    intros _. apply appends_bind; [apply appends_lift | intros result_status].
    apply appends_bind; [apply appends_send_restart_notification | intros _].
    apply appends_ret.
  - intros e.
    apply appends_bind; [apply appends_send_restart_notification | intros _].
    apply appends_ret.
Qed.

(** X21: whatever the event and whatever the collaborators answer, the
    executor only appends to the call history, and every call it makes is
    the restart, a schedule clean-up call, a clock reading or a
    notification: it never reads or writes the parameter store, never
    creates a schedule and never looks a task or a service up. *)
Theorem executor_never_plans (event : dict) (w : world) (h : history) :
  exists calls,
    fst (Executor.lambda_handler event w h) = h ++ calls
    /\ forallb executor_may_call calls = true
    /\ existsb is_ssm_call calls = false
    /\ existsb is_schedule_call calls = false
    /\ existsb is_lookup_call calls = false.
Proof.
  destruct (appends_executor_lambda_handler event w h) as [calls [Hfst Hall]].
  exists calls. split; [exact Hfst|]. split; [exact Hall|].
  repeat split; (eapply forallb_excludes; [| exact Hall]);
    intros c; destruct c; cbn; intros Hc; try reflexivity; discriminate Hc.
Qed.

(** ** The planner's answers *)

Lemma returns_only_bind {A B} (P : B -> Prop) (m : M A) (k : A -> M B) :
  (forall a, returns_only P (k a)) -> returns_only P (bind m k).
Proof.
  intros Hk w h h' b. unfold bind.
  destruct (m w h) as [h1 [a | e]]; [apply Hk | discriminate].
Qed.

Lemma returns_only_ret {A} (P : A -> Prop) (a : A) : P a -> returns_only P (ret a).
Proof. intros Ha w h h' b Hrun. injection Hrun as _ <-. exact Ha. Qed.

Lemma raises_in_bind {A B} (w : world) (m : M A) (k : A -> M B) :
  (forall a, raises_in w (k a)) -> raises_in w (bind m k).
Proof.
  intros Hk h. unfold bind. destruct (m w h) as [h1 [a | e]].
  - apply Hk.
  - exists h1, e. reflexivity.
Qed.

Lemma raises_in_bind_when {A B} (w : world) (Q : A -> Prop) (m : M A) (k : A -> M B) :
  (forall h h' a, m w h = (h', Returned a) -> Q a) ->
  (forall a, Q a -> raises_in w (k a)) -> raises_in w (bind m k).
Proof.
  intros Hm Hk h. unfold bind. destruct (m w h) as [h1 [a | e]] eqn:Hrun.
  - apply Hk. exact (Hm h h1 a Hrun).
  - exists h1, e. reflexivity.
Qed.

Lemma raises_in_lift_raised {A B} (w : world) (e : exn) (k : A -> M B) :
  raises_in w (bind (lift (Raised e)) k).
Proof. intros h. exists h, e. reflexivity. Qed.

Lemma datetime_now_utc_is_aware (w : world) (h h' : history) (now : datetime) :
  datetime_now_utc w h = (h', Returned now) -> tzinfo now = Some timezone_utc.
Proof. unfold datetime_now_utc, perform. intros Hrun. injection Hrun as _ <-. reflexivity. Qed.

(** The handler of the planner's [try]: a clock reading, the error
    notification, the 500 response. *)
Lemma planner_error_path (event : dict) (e : exn) (w : world) (h1 : history) :
  (timestamp <- datetime_now ;;
   Planner.send_notification
     (PhdProcessingError e (dict_get_default event "test_mode" (JBool false))
        timestamp) ;;;
   ret (mkResponse 500 (BodyError e))) w h1
  = (h1 ++ notification_calls w h1
             (PhdProcessingError e (dict_get_default event "test_mode" (JBool false))),
     Returned (mkResponse 500 (BodyError e))).
Proof.
  unfold bind at 1. unfold datetime_now, perform. cbv zeta.
  unfold bind. rewrite planner_send_notification_calls.
  unfold ret, notification_calls. rewrite <- app_assoc. reflexivity.
Qed.

(** X22: the planner's handler never raises: it answers 200, or it answers
    500 with the error it caught, and in that case the last call it made
    is the log line of a processing-error notification carrying that same
    error and the event's test_mode. *)
Theorem planner_always_answers (event : dict) (w : world) (h : history) :
  exists h' resp,
    Planner.lambda_handler event w h = (h', Returned resp)
    /\ (statusCode resp = 200
        \/ exists e before timestamp,
             resp = mkResponse 500 (BodyError e)
             /\ h' = before
                     ++ [LogNotification
                           (PhdProcessingError e
                              (dict_get_default event "test_mode" (JBool false))
                              timestamp)]).
Proof.
  unfold Planner.lambda_handler. cbv zeta.
  match goal with
  | |- context [try_except ?b _] =>
      assert (Hbody : returns_only (fun r => statusCode r = 200) b)
  end.
  { repeat match goal with
           | |- returns_only _ (bind _ _) => apply returns_only_bind; intros ?
           | |- returns_only _ (ret _) => apply returns_only_ret; reflexivity
           | |- returns_only _ (if ?c then _ else _) => destruct c
           end. }
  unfold try_except at 1.
  match goal with
  | |- context [match ?b w h with _ => _ end] => destruct (b w h) as [h1 [resp | e]] eqn:Hrun
  end.
  - exists h1, resp. split; [reflexivity|]. left. exact (Hbody w h h1 resp Hrun).
  - rewrite planner_error_path. eexists. eexists. split; [reflexivity|].
    right. exists e. unfold notification_calls.
    eexists. eexists. split; [reflexivity|].
    rewrite app_comm_cons, !app_assoc. reflexivity.
Qed.

(** X23: a window whose start time parses to a value without a zone is
    always answered with 500.  Both branches of the handler subtract the
    zone-aware current time from the window start, which raises for a
    zone-less start, although the conflict check reads such a start as
    UTC. *)
Theorem window_without_zone_is_answered_500 (event : dict) (w : world) (h : history)
    (start_time end_time : json) (text : string) (maintenance_start : datetime) :
  json_get (dict_get_default event "detail" (JDict [])) "startTime" = Returned start_time ->
  json_get (dict_get_default event "detail" (JDict [])) "endTime" = Returned end_time ->
  start_time = JStr text ->
  truthy start_time = true ->
  truthy end_time = true ->
  fromisoformat w (Str.replace text "Z" "+00:00") = Returned maintenance_start ->
  tzinfo maintenance_start = None ->
  exists h' e,
    Planner.lambda_handler event w h = (h', Returned (mkResponse 500 (BodyError e))).
Proof.
  intros Hstart Hend -> Htruthy_start Htruthy_end Hparse Hnaive.
  unfold Planner.lambda_handler. cbv zeta.
  match goal with
  | |- context [try_except ?b _] => assert (Hbody : raises_in w b)
  end.
  { rewrite Hstart, Hend.
    assert (Hsub : forall (now : datetime) (k : Z -> M response),
               tzinfo now = Some timezone_utc ->
               raises_in w (bind (lift (dt_sub maintenance_start now)) k)).
    { intros now k Hnow. unfold dt_sub. rewrite Hnaive, Hnow.
      apply raises_in_lift_raised. }
    intros h0. unfold bind at 1 2, lift at 1 2.
    rewrite Htruthy_start, Htruthy_end. cbn [negb orb].
    revert h0. change (raises_in w ?m) with (raises_in w m).
    apply (raises_in_bind_when w (fun d => d = maintenance_start)).
    { intros h0 h1 d. unfold Planner.parse_time, datetime_fromisoformat.
      rewrite Hparse. intros Hrun. injection Hrun as _ <-. reflexivity. }
    intros d ->.
    apply raises_in_bind; intros maintenance_end.
    apply raises_in_bind; intros has_conflict.
    destruct (negb has_conflict).
    - apply (raises_in_bind_when w (fun d => tzinfo d = Some timezone_utc)).
      { intros h0 h1 now. apply datetime_now_utc_is_aware. }
      intros now Hnow. apply Hsub, Hnow.
    - apply raises_in_bind; intros restart_time.
      apply raises_in_bind; intros affected_entities.
      apply raises_in_bind; intros entities.
      apply raises_in_bind; intros resource_id.
      apply (raises_in_bind_when w (fun d => tzinfo d = Some timezone_utc)).
      { intros h0 h1 now. apply datetime_now_utc_is_aware. }
      intros now Hnow. apply Hsub, Hnow. }
  unfold try_except at 1.
  destruct (Hbody h) as [h1 [e Hrun]]. rewrite Hrun.
  rewrite planner_error_path. eexists. exists e. reflexivity.
Qed.

Lemma window_without_zone_is_answered_500_witness :
  exists h' e,
    Planner.lambda_handler Sample.zoneless_event Sample.configured []
    = (h', Returned (mkResponse 500 (BodyError e))).
Proof.
  apply (window_without_zone_is_answered_500 Sample.zoneless_event Sample.configured []
           (JStr "2025-01-28T00:00:00") (JStr "2025-02-04T23:59:59")
           "2025-01-28T00:00:00" (Sample.at_time 2025 1 28 0 0 0 None));
    reflexivity.
Defined.

(** X24: affected entities whose [entityValue] is a string containing
    neither 'ecs' (in any letter case) nor '|' are passed over: a list of
    such entities makes no call at all, raises nothing and leaves the
    resource id the loop carries unchanged.  An entity without the key
    counts as the empty string and is passed over too. *)
Theorem other_entities_are_passed_over (entities : list json) (restart_time : datetime)
    (test_mode : json) (resource_id : option string) (w : world) (h : history) :
  forallb is_passed_over entities = true ->
  Planner.schedule_entities entities restart_time test_mode resource_id w h
  = (h, Returned resource_id).
Proof.
  induction entities as [| entity rest IH]; intros Hall; [reflexivity|].
  cbn [forallb] in Hall. apply andb_true_iff in Hall. destruct Hall as [Hentity Hrest].
  cbn [Planner.schedule_entities]. unfold is_passed_over in Hentity.
  destruct (json_get_default entity "entityValue" (JStr "")) as [[| | | value | |] | e];
    try discriminate Hentity.
  apply andb_true_iff in Hentity. destruct Hentity as [Hecs Hbar].
  apply negb_true_iff in Hecs. apply negb_true_iff in Hbar.
  unfold bind at 1, lift at 1. unfold bind at 1, lift at 1, Planner.json_lower.
  rewrite Hecs, Hbar. cbn [orb]. exact (IH Hrest).
Qed.

Lemma other_entities_are_passed_over_witness :
  Planner.schedule_entities Sample.other_entities
    (Sample.at_time 2025 9 21 4 0 0 (Some 0)) (JBool false) None Sample.unreachable []
  = ([], Returned None).
Proof.
  apply (other_entities_are_passed_over Sample.other_entities
           (Sample.at_time 2025 9 21 4 0 0 (Some 0)) (JBool false) None
           Sample.unreachable []).
  reflexivity.
Defined.
